(** * SimulacroRestaurante: a shallow embedding of the restaurant SPA

    The development follows the JavaScript sources file by file:
    - [authService.js]   : [Auth.login], [Auth.register], [Auth.getCurrentUser];
    - [jsonService.js]   : the methods of [JsonService];
    - [Card.js]          : the product card template;
    - [menu.js]          : the cart, its click handler and the checkout;
    - [router.js], [main.js] : the hash router and [render].

    Conventions of the embedding.
    - A JavaScript value that was read from JSON is a [json] tree; the
      value [undefined] is [None] in [option json].  Objects keep their
      fields in insertion order, as JavaScript does.
    - A number of a JSON text is kept with its exact value ([Q]); the
      program computes with the double it denotes, a [float] of the
      kernel, so a sum of prices is the sum of IEEE 754.  Cart quantities
      are integer counters ([Z]).
    - [localStorage] holds text.  A cell written by
      [setItem(k, JSON.stringify(v))] is [JsonText v], and [JSON.parse] of
      it gives [v] back; any other text is [RawText s], on which
      [JSON.parse] throws.
    - An [async] function is a computation of the monad [M]: it threads the
      browser state [World] and either returns or throws.  The answer of the
      network to each request is given by an oracle [Network]. *)

From Stdlib Require Import String Ascii List ZArith QArith Qround Bool Lia.
From Stdlib Require Import Floats.
From stdpp Require Import base gmap strings list pretty.

Open Scope string_scope.

(** ** JSON values and the JavaScript operations the sources apply to them *)

#[warnings="-register-all"]
Inductive json : Type :=
| JNull
| JBool (b : bool)
| JNum (n : Q)
| JStr (s : string)
| JArr (items : list json)
| JObj (fields : list (string * json)).

(** [o[k]] on the field list of an object. *)
Fixpoint obj_get (k : string) (fields : list (string * json)) : option json :=
  match fields with
  | [] => None
  | (k', v) :: rest => if String.eqb k k' then Some v else obj_get k rest
  end.

(** [delete o[k]]. *)
Fixpoint obj_delete (k : string) (fields : list (string * json))
  : list (string * json) :=
  match fields with
  | [] => []
  | (k', v) :: rest =>
      if String.eqb k k' then obj_delete k rest
      else (k', v) :: obj_delete k rest
  end.

(** [o[k] = v]: an existing key keeps its position, a new key goes last. *)
Fixpoint obj_set (k : string) (v : json) (fields : list (string * json))
  : list (string * json) :=
  match fields with
  | [] => [(k, v)]
  | (k', v') :: rest =>
      if String.eqb k k' then (k', v) :: rest
      else (k', v') :: obj_set k v rest
  end.

(** [{ ...a, ...b }]: the fields of [b] are assigned onto a copy of [a]. *)
Definition obj_spread (a b : list (string * json)) : list (string * json) :=
  fold_left (fun acc kv => obj_set (fst kv) (snd kv) acc) b a.

(** [JSON.stringify] drops a field whose value is [undefined]; an object
    literal with distinct keys therefore reaches a request body or a
    storage cell as the list of its defined fields. *)
Fixpoint js_object (fields : list (string * option json))
  : list (string * json) :=
  match fields with
  | [] => []
  | (k, Some v) :: rest => (k, v) :: js_object rest
  | (_, None) :: rest => js_object rest
  end.

(** ** Numbers

    A number of JavaScript is an IEEE 754 double, here a [float] of the
    kernel, whose operations are those of the standard.  A number of a
    JSON text is written [JNum q] with its exact value [q]; the number the
    program computes with, once the text is parsed, is [to_double q], the
    double nearest to [q], ties to even. *)

Definition to_double (q : Q) : float :=
  match Qnum q with
  | Z0 => PrimFloat.zero
  | Zpos n =>
      SF2Prim (SFdiv prec emax (S754_finite false n 0)
                 (S754_finite false (Qden q) 0))
  | Zneg n =>
      SF2Prim (SFdiv prec emax (S754_finite true n 0)
                 (S754_finite false (Qden q) 0))
  end.

(** The double of an integer: the integer itself up to [2^53], the
    nearest double beyond. *)
Definition Z_to_double (z : Z) : float :=
  SF2Prim (binary_normalize prec emax z 0 false).

(** The decimal text of a number, as [Number.prototype.toString] and
    [JSON.stringify] choose it: of the decimals that read back as the
    same double, one with the fewest digits, and of these the nearest to
    the double.  The text is kept by its value. *)

Definition power_of_ten (z : Z) : Q :=
  match z with
  | Z0 => 1
  | Zpos p => inject_Z (10 ^ Zpos p)
  | Zneg p => Qmake 1 (10 ^ p)
  end.

(** The exponent [e] with [10^e <= v < 10^(e+1)] for a positive [v],
    looked for from [0] downwards and upwards; a double needs fewer than
    four hundred steps. *)
Fixpoint exponent_below (fuel : nat) (v : Q) (e : Z) : Z :=
  match fuel with
  | O => e
  | S fuel' =>
      if Qle_bool (power_of_ten e) v then e
      else exponent_below fuel' v (e - 1)
  end.

Fixpoint exponent_above (fuel : nat) (v : Q) (e : Z) : Z :=
  match fuel with
  | O => e
  | S fuel' =>
      if Qle_bool (power_of_ten (e + 1)) v
      then exponent_above fuel' v (e + 1)
      else e
  end.

Definition decimal_exponent (v : Q) : Z :=
  if Qle_bool 1 v then exponent_above 400 v 0 else exponent_below 400 v 0.

(** The decimal of [k] digits nearest to [v], the exact value of the
    positive double [x], among those that read back as [x], if there is
    one: it is one of the two decimals of [k] digits around [v]. *)
Definition with_digits (x : float) (v : Q) (e k : Z) : option Q :=
  let unit := power_of_ten (e - k + 1) in
  let s := Qfloor (v / unit) in
  let below := (inject_Z s * unit)%Q in
  let above := (inject_Z (s + 1) * unit)%Q in
  let reads c := PrimFloat.eqb (to_double c) x in
  match reads below, reads above with
  | true, true =>
      match Qcompare (v - below) (above - v) with
      | Lt => Some below
      | Gt => Some above
      | Eq => Some (if Z.even s then below else above)
      end
  | true, false => Some below
  | false, true => Some above
  | false, false => None
  end.

(** Seventeen digits are enough for every double. *)
Fixpoint shortest (fuel : nat) (x : float) (v : Q) (e k : Z) : Q :=
  match fuel with
  | O => v
  | S fuel' =>
      match with_digits x v e k with
      | Some c => c
      | None => shortest fuel' x v e (k + 1)
      end
  end.

Definition decimal_value (x : float) : option Q :=
  match Prim2SF x with
  | S754_zero _ => Some (0 : Q)
  | S754_finite s m e =>
      let v := match e with
               | Z0 => inject_Z (Zpos m)
               | Zpos p => inject_Z (Zpos m * 2 ^ Zpos p)
               | Zneg p => Qmake (Zpos m) (2 ^ p)
               end in
      let c := shortest 17 (PrimFloat.abs x) v (decimal_exponent v) 1 in
      Some (Qred (if s then Qopp c else c))
  | S754_infinity _ | S754_nan => None
  end.

(** What [JSON.stringify] writes for a number: its decimal text, and
    [null] for [NaN] and the infinities. *)
Definition number_json (x : float) : json :=
  match decimal_value x with
  | Some q => JNum q
  | None => JNull
  end.

(** Truthiness of a value ([!v] is its negation). *)
Definition js_truthy (v : option json) : bool :=
  match v with
  | None | Some JNull => false
  | Some (JBool b) => b
  | Some (JNum n) => negb (PrimFloat.eqb (to_double n) PrimFloat.zero)
  | Some (JStr s) => negb (String.eqb s EmptyString)
  | Some (JArr _) | Some (JObj _) => true
  end.

(** [v === s] for a string primitive [s]: strict equality converts
    nothing, so only a string value with the same text is equal. *)
Definition js_strict_eq_str (v : option json) (s : string) : bool :=
  match v with
  | Some (JStr t) => String.eqb t s
  | _ => false
  end.

(** [v.k] for a truthy [v] and a key [k] that no array, string, number or
    boolean has ([id], [name], [email], [password], [role], ...): only an
    object can hold the field. *)
Definition js_field (k : string) (v : option json) : option json :=
  match v with
  | Some (JObj f) => obj_get k f
  | _ => None
  end.

(** ** Browser state, errors and the network *)

Record JsError : Type := mkError { err_name : string; err_message : string }.

Definition Error (msg : string) : JsError := mkError "Error" msg.
Definition TypeError (msg : string) : JsError := mkError "TypeError" msg.
Definition SyntaxError (msg : string) : JsError := mkError "SyntaxError" msg.

Inductive StorageText : Type :=
| JsonText (v : json)
| RawText (s : string).

Inductive Method : Type := GET | POST | PATCH | DELETE.

Record Request : Type := mkRequest {
  req_method : Method;
  req_url : string;
  req_body : option json
}.

Record Response : Type := mkResponse {
  ok : bool;
  status : nat;
  body : option json   (* [None]: the body is not JSON, [json()] rejects *)
}.

Inductive FetchOutcome : Type :=
| Rejected (e : JsError)        (* network failure: the promise rejects *)
| Responded (r : Response).

Definition Network : Type := Request -> FetchOutcome.

(** The part of the document the router works on: the children of the
    mount element [#app].  A navigation header is kept as the list of its
    [.nav-link] elements; any other element by tag, classes and markup. *)
Record NavLink : Type := mkNavLink {
  href : option string;    (* the logout button has no href *)
  active : bool
}.

Inductive Node : Type :=
| NavbarHeader (links : list NavLink)
| Element (tag : string) (classes : list string) (innerHTML : string).

Record World : Type := mkWorld {
  localStorage : gmap string StorageText;
  location_hash : string;
  app : list Node;                       (* children of #app *)
  requests : list Request;               (* every request handed to fetch *)
  console : list (string * JsError);     (* console.error(label, error) *)
  alerts : list string;
  now : string                           (* new Date().toISOString() *)
}.

Definition set_localStorage (f : gmap string StorageText -> gmap string StorageText)
  (w : World) : World :=
  mkWorld (f (localStorage w)) (location_hash w) (app w) (requests w)
          (console w) (alerts w) (now w).
Definition set_location_hash (h : string) (w : World) : World :=
  mkWorld (localStorage w) h (app w) (requests w) (console w) (alerts w)
          (now w).
Definition set_app (f : list Node -> list Node) (w : World) : World :=
  mkWorld (localStorage w) (location_hash w) (f (app w)) (requests w)
          (console w) (alerts w) (now w).
Definition add_request (r : Request) (w : World) : World :=
  mkWorld (localStorage w) (location_hash w) (app w) (requests w ++ [r])
          (console w) (alerts w) (now w).
Definition add_console (l : string) (e : JsError) (w : World) : World :=
  mkWorld (localStorage w) (location_hash w) (app w) (requests w)
          (console w ++ [(l, e)]) (alerts w) (now w).
Definition add_alert (m : string) (w : World) : World :=
  mkWorld (localStorage w) (location_hash w) (app w) (requests w) (console w)
          (alerts w ++ [m]) (now w).

(** ** The monad of asynchronous functions: state and exceptions *)

Inductive Result (A : Type) : Type :=
| Ok (a : A)
| Throw (e : JsError).
Arguments Ok {A} a.
Arguments Throw {A} e.

Definition M (A : Type) : Type := World -> Result A * World.

Definition ret {A : Type} (a : A) : M A := fun w => (Ok a, w).

Definition bind {A B : Type} (m : M A) (f : A -> M B) : M B :=
  fun w =>
    match m w with
    | (Ok a, w') => f a w'
    | (Throw e, w') => (Throw e, w')
    end.

Declare Scope js_scope.
Delimit Scope js_scope with js.
Notation "x <- m ;; k" := (bind m (fun x => k))
  (at level 100, m at next level, k at level 200, right associativity)
  : js_scope.
Notation "m ;; k" := (bind m (fun _ => k))
  (at level 100, k at level 200, right associativity) : js_scope.
Open Scope js_scope.

Definition throw {A : Type} (e : JsError) : M A := fun w => (Throw e, w).

(** [try { m } catch (error) { h error }]. *)
Definition try_catch {A : Type} (m : M A) (h : JsError -> M A) : M A :=
  fun w =>
    match m w with
    | (Ok a, w') => (Ok a, w')
    | (Throw e, w') => h e w'
    end.

Definition modify (f : World -> World) : M unit := fun w => (Ok tt, f w).
Definition gets {A : Type} (f : World -> A) : M A := fun w => (Ok (f w), w).

Definition fetch (net : Network) (req : Request) : M Response :=
  fun w =>
    match net req with
    | Rejected e => (Throw e, add_request req w)
    | Responded r => (Ok r, add_request req w)
    end.

(** [await response.json()]. *)
Definition response_json (r : Response) : M json :=
  match body r with
  | Some v => ret v
  | None => throw (SyntaxError "Unexpected token in JSON")
  end.

Definition console_error (label : string) (e : JsError) : M unit :=
  modify (add_console label e).

Definition localStorage_setItem (k : string) (v : StorageText) : M unit :=
  modify (set_localStorage (insert k v)).

(** ** Conversions of values *)

(** A computation that touches no state. *)
Definition lift {A : Type} (r : Result A) : M A := fun w => (r, w).

Definition cannot_convert : JsError :=
  TypeError "Cannot convert object to primitive value".

(** The results of conversions made one after the other: all of them, or
    the first error. *)
Fixpoint in_turn {A : Type} (rs : list (Result A)) : Result (list A) :=
  match rs with
  | [] => Ok []
  | Throw e :: _ => Throw e
  | Ok a :: rest =>
      match in_turn rest with
      | Ok l => Ok (a :: l)
      | Throw e => Throw e
      end
  end.

Section Conversions.

(** [Number.prototype.toString], the decimal text of a number. *)
Variable number_to_string : Q -> string.

(** The number a string converts to: its numeric literal, [0] for blank
    text, [NaN] otherwise. *)
Variable string_to_number : string -> float.

(** The string a value converts to, as a template literal or a comparison
    asks for it.  An array joins the strings of its elements, with nothing
    for [null].  An object is asked for its [toString]: a parsed object
    inherits the one that answers [[object Object]], unless it has a field
    of that name, which is no function, and then neither [toString] nor the
    inherited [valueOf] gives a primitive, and the conversion throws. *)
Fixpoint js_to_string (v : json) : Result string :=
  match v with
  | JNull => Ok "null"
  | JBool true => Ok "true"
  | JBool false => Ok "false"
  | JNum n => Ok (number_to_string n)
  | JStr s => Ok s
  | JArr l =>
      match in_turn (map (fun x => match x with
                                   | JNull => Ok EmptyString
                                   | _ => js_to_string x
                                   end) l) with
      | Ok ss => Ok (String.concat "," ss)
      | Throw e => Throw e
      end
  | JObj f =>
      match obj_get "toString" f with
      | Some _ => Throw cannot_convert
      | None => Ok "[object Object]"
      end
  end.

(** The number a value converts to.  An array or an object is first made
    a primitive: its [valueOf] answers the object itself, so its string is
    taken. *)
Definition js_to_number (v : option json) : Result float :=
  match v with
  | None => Ok PrimFloat.nan
  | Some JNull => Ok PrimFloat.zero
  | Some (JBool b) => Ok (if b then PrimFloat.one else PrimFloat.zero)
  | Some (JNum n) => Ok (to_double n)
  | Some (JStr s) => Ok (string_to_number s)
  | Some (JArr l) =>
      match js_to_string (JArr l) with
      | Ok s => Ok (string_to_number s)
      | Throw e => Throw e
      end
  | Some (JObj f) =>
      match js_to_string (JObj f) with
      | Ok s => Ok (string_to_number s)
      | Throw e => Throw e
      end
  end.

(** [v > 0]: the operand is converted to a number, and a comparison with
    [NaN] is false. *)
Definition js_greater_than_zero (v : option json) : Result bool :=
  match js_to_number v with
  | Ok x => Ok (PrimFloat.ltb PrimFloat.zero x)
  | Throw e => Throw e
  end.

End Conversions.

Module API_URLS.
Definition BASE_URL : string := "http://localhost:3000".
Definition USERS : string := "http://localhost:3000/users".
Definition PRODUCTS : string := "http://localhost:3000/products".
Definition ORDERS : string := "http://localhost:3000/orders".
End API_URLS.

(** ** authService.js *)

Module Auth.

(** [{ success: true, user }] or [{ success: false, error }]. *)
Inductive AuthResult : Type :=
| Success (user : json)
| Failure (error : string).

(** [users[0]]: the first element of an array, the field ["0"] of an
    object, the first character of a string; reading a property of
    [null] throws. *)
Definition js_first (users : json) : M (option json) :=
  match users with
  | JNull => throw (TypeError "Cannot read properties of null")
  | JArr l => ret (head l)
  | JObj f => ret (obj_get "0" f)
  | JStr (String c _) => ret (Some (JStr (String c EmptyString)))
  | _ => ret None
  end.

(** [{ ...user }] followed by [delete sessionUser.password].  The branch
    for a value that is not an object cannot be reached from [login]: such
    a value has no [password] field. *)
Definition session_of (user : option json) : json :=
  match user with
  | Some (JObj f) => JObj (obj_delete "password" f)
  | _ => JObj []
  end.

Definition login (net : Network) (email password : string) : M AuthResult :=
  try_catch
    (response <- fetch net (mkRequest GET (API_URLS.USERS +:+ "?email=" +:+ email) None);;
     if negb (ok response)
     then throw (Error "Error de conexión con el servidor")
     else
       users <- response_json response;;
       user <- js_first users;;
       if negb (js_truthy user)
       then ret (Failure "Usuario no encontrado")
       else if negb (js_strict_eq_str (js_field "password" user) password)
       then ret (Failure "Contraseña incorrecta")
       else
         let sessionUser := session_of user in
         localStorage_setItem "activeUser" (JsonText sessionUser);;
         ret (Success sessionUser))
    (fun error =>
       console_error "Login error:" error;;
       ret (Failure "Ocurrió un error inesperado")).

(** The object literal [{ name, email, password, role }] that the
    register view passes. *)
Record UserData : Type := mkUserData {
  ud_name : string; ud_email : string; ud_password : string; ud_role : string
}.

Definition userData_json (u : UserData) : json :=
  JObj [("name", JStr (ud_name u)); ("email", JStr (ud_email u));
        ("password", JStr (ud_password u)); ("role", JStr (ud_role u))].

Section Register.

Variable number_to_string : Q -> string.
Variable string_to_number : string -> float.

(** [existingUsers.length > 0].  An array or a string has its length; a
    number or a boolean has none, and [undefined > 0] is false; reading
    it of [null] throws.  An object has the [length] that is among its
    fields, if any, and the comparison converts that value to a number,
    which throws for a value that has no primitive. *)
Definition js_length_positive (v : json) : M bool :=
  match v with
  | JNull => throw (TypeError "Cannot read properties of null")
  | JArr l => ret (0 <? length l)%nat
  | JStr s => ret (0 <? String.length s)%nat
  | JObj f =>
      lift (js_greater_than_zero number_to_string string_to_number
              (obj_get "length" f))
  | JBool _ | JNum _ => ret false
  end.

Definition register (net : Network) (userData : UserData) : M AuthResult :=
  try_catch
    (checkRef <- fetch net (mkRequest GET
                  (API_URLS.USERS +:+ "?email=" +:+ ud_email userData) None);;
     existingUsers <- response_json checkRef;;
     taken <- js_length_positive existingUsers;;
     if taken
     then ret (Failure "El correo electrónico ya está registrado")
     else
       response <- fetch net (mkRequest POST API_URLS.USERS
                               (Some (userData_json userData)));;
       if negb (ok response)
       then throw (Error "No se pudo crear el usuario")
       else
         newUser <- response_json response;;
         ret (Success newUser))
    (fun error =>
       console_error "Register error:" error;;
       ret (Failure (if String.eqb (err_message error) EmptyString
                      then "Error al registrar usuario"
                      else err_message error))).

End Register.

(** [getCurrentUser()]: [null] when the cell is absent, empty or not
    JSON, the parsed value otherwise. *)
Definition getCurrentUser (w : World) : json :=
  match localStorage w !! "activeUser" with
  | Some (JsonText v) => v
  | _ => JNull
  end.

Definition logout : M unit :=
  modify (set_localStorage (delete "activeUser"));;
  modify (set_location_hash "#login").

End Auth.

(** ** jsonService.js *)

Module JsonService.

Definition products_api_error : JsError :=
  Error "Could not connect to the Products API.".
Definition orders_api_error : JsError :=
  Error "Could not connect to the Orders API.".

Definition getProducts (net : Network) : M json :=
  try_catch
    (response <- fetch net (mkRequest GET API_URLS.PRODUCTS None);;
     if negb (ok response)
     then throw (Error ("Error HTTP " +:+ pretty (status response)))
     else
       data <- response_json response;;
       ret data)
    (fun error =>
       console_error "Products not obtained" error;;
       throw products_api_error).

(** [products.map(product => product.id)]: only an array has [map]; the
    callback reads [id] of every element and throws on [null]. *)
Fixpoint map_ids (products : list json) : M (list (option json)) :=
  match products with
  | [] => ret []
  | JNull :: _ => throw (TypeError "Cannot read properties of null")
  | product :: rest =>
      ids <- map_ids rest;;
      ret (js_field "id" (Some product) :: ids)
  end.

Definition getProductsIDs (net : Network) : M (list (option json)) :=
  try_catch
    (products <- getProducts net;;
     ids <- match products with
            | JArr l => map_ids l
            | _ => throw (TypeError "products.map is not a function")
            end;;
     ret ids)
    (fun error =>
       console_error "Product IDs not obtained" error;;
       throw products_api_error).

Definition getProductById (net : Network) (productId : string) : M json :=
  try_catch
    (response <- fetch net
       (mkRequest GET (API_URLS.PRODUCTS +:+ "/" +:+ productId) None);;
     if negb (ok response)
     then throw (Error ("Producto no encontrado (HTTP "
                        +:+ pretty (status response) +:+ ")"))
     else
       product <- response_json response;;
       ret product)
    (fun error =>
       console_error ("Product " +:+ productId +:+ " not obtained") error;;
       throw products_api_error).

Definition createProduct (net : Network) (product : json) : M json :=
  try_catch
    (response <- fetch net
       (mkRequest POST "http://localhost:3000/products" (Some product));;
     if negb (ok response)
     then throw (Error ("Error HTTP " +:+ pretty (status response)))
     else response_json response)
    (fun error =>
       console_error "Product not created" error;;
       throw products_api_error).

(** No [try]/[catch] here: whatever [fetch] rejects with propagates. *)
Definition deleteProduct (net : Network) (id : string) : M bool :=
  res <- fetch net
    (mkRequest DELETE ("http://localhost:3000/products/" +:+ id) None);;
  if negb (ok res)
  then throw (Error "Error al eliminar producto")
  else ret true.

Definition updateProduct (net : Network) (productId : string) (updates : json)
  : M json :=
  try_catch
    (response <- fetch net
       (mkRequest PATCH (API_URLS.PRODUCTS +:+ "/" +:+ productId)
                  (Some updates));;
     if negb (ok response)
     then throw (Error ("Error HTTP " +:+ pretty (status response)))
     else response_json response)
    (fun error =>
       console_error ("Product " +:+ productId +:+ " not updated") error;;
       throw products_api_error).

(** The body is [{ createdAt: new Date().toISOString(), ...orderData }]. *)
Definition createOrder (net : Network) (orderData : list (string * json))
  : M json :=
  try_catch
    (createdAt <- gets now;;
     response <- fetch net
       (mkRequest POST API_URLS.ORDERS
          (Some (JObj (obj_spread [("createdAt", JStr createdAt)] orderData))));;
     if negb (ok response)
     then throw (Error ("Error HTTP " +:+ pretty (status response)))
     else response_json response)
    (fun error =>
       console_error "Order not created" error;;
       throw orders_api_error).

(** The handler logs and rethrows the error it caught. *)
Definition getOrderById (net : Network) (orderId : string) : M json :=
  try_catch
    (response <- fetch net
       (mkRequest GET (API_URLS.ORDERS +:+ "/" +:+ orderId) None);;
     if negb (ok response)
     then throw (Error ("No se pudo obtener la orden con id " +:+ orderId))
     else
       order <- response_json response;;
       ret order)
    (fun error =>
       console_error "getOrderById error:" error;;
       throw error).

(** The methods of the class, as one type of calls. *)
Inductive Operation : Type :=
| OpGetProductsIDs
| OpGetProductById (productId : string)
| OpGetProducts
| OpCreateProduct (product : json)
| OpDeleteProduct (id : string)
| OpUpdateProduct (productId : string) (updates : json)
| OpCreateOrder (orderData : list (string * json))
| OpGetOrderById (orderId : string).

Definition thrown {A : Type} (r : Result A * World) : option JsError :=
  match r with
  | (Throw e, _) => Some e
  | (Ok _, _) => None
  end.

(** What the caller of a method catches, if anything. *)
Definition failure (net : Network) (op : Operation) (w : World)
  : option JsError :=
  match op with
  | OpGetProductsIDs => thrown (getProductsIDs net w)
  | OpGetProductById productId => thrown (getProductById net productId w)
  | OpGetProducts => thrown (getProducts net w)
  | OpCreateProduct product => thrown (createProduct net product w)
  | OpDeleteProduct id => thrown (deleteProduct net id w)
  | OpUpdateProduct productId updates =>
      thrown (updateProduct net productId updates w)
  | OpCreateOrder orderData => thrown (createOrder net orderData w)
  | OpGetOrderById orderId => thrown (getOrderById net orderId w)
  end.

(** The methods whose [catch] replaces the error by a fixed one. *)
Definition wraps_errors (op : Operation) : bool :=
  match op with
  | OpDeleteProduct _ | OpGetOrderById _ => false
  | _ => true
  end.

Definition generic_error (op : Operation) : JsError :=
  match op with
  | OpCreateOrder _ | OpGetOrderById _ => orders_api_error
  | _ => products_api_error
  end.

(** The one request a method hands to [fetch]. *)
Definition request_of (op : Operation) (w : World) : Request :=
  match op with
  | OpGetProductsIDs | OpGetProducts =>
      mkRequest GET API_URLS.PRODUCTS None
  | OpGetProductById productId =>
      mkRequest GET (API_URLS.PRODUCTS +:+ "/" +:+ productId) None
  | OpCreateProduct product =>
      mkRequest POST "http://localhost:3000/products" (Some product)
  | OpDeleteProduct id =>
      mkRequest DELETE ("http://localhost:3000/products/" +:+ id) None
  | OpUpdateProduct productId updates =>
      mkRequest PATCH (API_URLS.PRODUCTS +:+ "/" +:+ productId)
                (Some updates)
  | OpCreateOrder orderData =>
      mkRequest POST API_URLS.ORDERS
        (Some (JObj (obj_spread [("createdAt", JStr (now w))] orderData)))
  | OpGetOrderById orderId =>
      mkRequest GET (API_URLS.ORDERS +:+ "/" +:+ orderId) None
  end.

End JsonService.

(** ** Text: template literals and substring search *)

(** The markup in the sources is full of double quotes.  A literal is
    written here with an apostrophe for each of them, and [html] puts the
    double quotes back; no template of the sources has an apostrophe of
    its own. *)
Fixpoint html (s : string) : string :=
  match s with
  | EmptyString => EmptyString
  | String c rest =>
      String (if Ascii.eqb c "'"%char then "034"%char else c) (html rest)
  end.

(** A template literal is the concatenation of its pieces. *)
Fixpoint template (pieces : list string) : string :=
  match pieces with
  | [] => EmptyString
  | p :: rest => p +:+ template rest
  end.

(** [s.includes(m)]. *)
Fixpoint includes (m s : string) : bool :=
  String.prefix m s ||
  match s with
  | EmptyString => false
  | String _ rest => includes m rest
  end.

(** [clash m r]: [m] and [r] differ at a position that both have, so no
    extension of [r] starts with [m]. *)
Fixpoint clash (m r : string) : bool :=
  match m, r with
  | String a m', String b r' => if Ascii.eqb a b then clash m' r' else true
  | _, _ => false
  end.

(** [inert m s]: no occurrence of [m] can begin inside [s], whatever text
    follows [s]. *)
Fixpoint inert (m s : string) : bool :=
  match s with
  | EmptyString => true
  | String _ rest => clash m s && inert m rest
  end.

Fixpoint no_char (c : ascii) (s : string) : bool :=
  match s with
  | EmptyString => true
  | String b rest => negb (Ascii.eqb b c) && no_char c rest
  end.

(** ** Card.js and the header of the menu view *)

Section Rendering.

(** [Number.prototype.toString], the decimal text of a number. *)
Variable number_to_string : Q -> string.

(** The text a template literal puts for [${v}]; the conversion of the
    value may throw. *)
Definition interpolate (v : option json) : M string :=
  match v with
  | None => ret "undefined"
  | Some v => lift (js_to_string number_to_string v)
  end.

(** The text of a value that has one. *)
Definition printed (v : option json) : option string :=
  match v with
  | None => Some "undefined"
  | Some v =>
      match js_to_string number_to_string v with
      | Ok s => Some s
      | Throw _ => None
      end
  end.

(** [v.k]: reading a property of [null] throws. *)
Definition js_prop (k : string) (v : json) : M (option json) :=
  match v with
  | JNull => throw (TypeError "Cannot read properties of null")
  | _ => ret (js_field k (Some v))
  end.

Definition adminControls_markup (id : string) : string :=
  template
    [html "
            <div class='admin-product-actions'>
                <button class='button small tertiary edit-product-btn' data-id='";
     id;
     html "'>
                    Edit
                </button>
                <button class='button small tertiary delete-product-btn' data-id='";
     id;
     html "'>
                    Delete
                </button>
            </div>
        "].

Definition card_markup (id category imageUrl title price description
                        adminControls : string) : string :=
  template
    [html "
        <article class='card product'>
            <span class='badge'>";
     category;
     html "</span>
            <img src='";
     imageUrl;
     html "' alt='";
     title;
     html "' class='product-image'>
            <div class='product-info'>
                <h3 class='product-title'>";
     title;
     html "</h3>
                <p class='product-price'>$ ";
     price;
     html "</p>
                <p class='product-description'>";
     description;
     html "</p>

                <button class='button secondary add-to-cart-btn' data-id='";
     id;
     html "'>
                    <svg class='button-icon' viewBox='0 0 24 24' fill='none' xmlns='http://www.w3.org/2000/svg'>
                        <circle cx='9' cy='21' r='1' stroke='currentColor' stroke-width='2'/>
                        <circle cx='20' cy='21' r='1' stroke='currentColor' stroke-width='2'/>
                        <path d='M1 1H5L7.68 14.39C7.77144 14.8504 8.02191 15.264 8.38755 15.5583C8.75318 15.8526 9.2107 16.009 9.68 16H19.4C19.8693 16.009 20.3268 15.8526 20.6925 15.5583C21.0581 15.264 21.3086 14.8504 21.4 14.39L23 6H6'
                              stroke='currentColor'
                              stroke-width='2'
                              stroke-linecap='round'
                              stroke-linejoin='round'/>
                    </svg>
                    Add to order
                </button>

                ";
     adminControls;
     html "
            </div>
        </article>
    "].

(** [Card(productId, isAdmin = false)].  The two template literals
    convert the values in the order in which they are written, the one of
    the admin controls first, when the flag is truthy.  A value that
    occurs twice in a template is converted twice, to the same text or
    the same error, so once here. *)
Definition Card (net : Network) (productId : string) (isAdmin : option json)
  : M string :=
  let isAdmin := match isAdmin with None => JBool false | Some v => v end in
  product_response <- JsonService.getProductById net productId;;
  id <- js_prop "id" product_response;;
  category <- js_prop "category" product_response;;
  imageUrl <- js_prop "img" product_response;;
  title <- js_prop "name" product_response;;
  price <- js_prop "price" product_response;;
  description <- js_prop "description" product_response;;
  stock <- js_prop "stock" product_response;;
  adminControls <-
    (if js_truthy (Some isAdmin)
     then
       id_text <- interpolate id;;
       ret (adminControls_markup id_text)
     else ret EmptyString);;
  category_text <- interpolate category;;
  imageUrl_text <- interpolate imageUrl;;
  title_text <- interpolate title;;
  price_text <- interpolate price;;
  description_text <- interpolate description;;
  id_text <- interpolate id;;
  ret (card_markup id_text category_text imageUrl_text title_text price_text
         description_text adminControls).

End Rendering.

(** The opening tags by which the admin controls are recognised. *)
Definition edit_control : string :=
  html "<button class='button small tertiary edit-product-btn'".
Definition delete_control : string :=
  html "<button class='button small tertiary delete-product-btn'".
Definition add_product_control : string :=
  html "<button class='button primary' id='openProductModalBtn'>".

(** [const isAdmin = currentUser && currentUser.role === 'admin'] in
    [menuView]: a falsy [currentUser] is the value of the conjunction. *)
Definition menu_isAdmin (w : World) : json :=
  let currentUser := Auth.getCurrentUser w in
  if js_truthy (Some currentUser)
  then JBool (js_strict_eq_str (js_field "role" (Some currentUser)) "admin")
  else currentUser.

(** The markup [menuView] gives the header of the content column. *)
Definition menu_header_markup (isAdmin : json) : string :=
  template
    [html "
        <div class='section-header'>
            <h1 class='page-title'>Our Menu</h1>
            ";
     if js_truthy (Some isAdmin)
     then html "<button class='button primary' id='openProductModalBtn'>+ Add product</button>"
     else EmptyString;
     html "
        </div>
    "].

(** ** menu.js: the cart and the checkout *)

Module Menu.

Record Product : Type := mkProduct {
  p_id : string;
  p_name : string;
  p_price : Q;
  p_category : string;
  p_img : string;
  p_description : string;
  p_stock : Q
}.

(** A line of the cart, [{ product, quantity }]. *)
Record CartItem : Type := mkItem {
  product : Product;
  quantity : Z
}.

(** The variables of the closure of [menuView] and the sidebar elements
    its handlers write.  The markup of the cart lines is not modelled. *)
Record MenuState : Type := mkMenu {
  cart : list CartItem;
  allProducts : list Product;
  cartCount : Z;                  (* text of #cartCount *)
  cartTotal : float;              (* amount shown in #cartTotal *)
  messageText : string;           (* #orderMessage *)
  messageColor : string;
  btnText : string;               (* #confirmOrderBtn *)
  btnDisabled : bool
}.

Definition set_cart (c : list CartItem) (st : MenuState) : MenuState :=
  mkMenu c (allProducts st) (cartCount st) (cartTotal st) (messageText st)
         (messageColor st) (btnText st) (btnDisabled st).
Definition set_allProducts (ps : list Product) (st : MenuState) : MenuState :=
  mkMenu (cart st) ps (cartCount st) (cartTotal st) (messageText st)
         (messageColor st) (btnText st) (btnDisabled st).
Definition set_totals (n : Z) (t : float) (st : MenuState) : MenuState :=
  mkMenu (cart st) (allProducts st) n t (messageText st) (messageColor st)
         (btnText st) (btnDisabled st).
Definition set_message (text color : string) (st : MenuState) : MenuState :=
  mkMenu (cart st) (allProducts st) (cartCount st) (cartTotal st) text color
         (btnText st) (btnDisabled st).
Definition set_button (text : string) (disabled : bool) (st : MenuState)
  : MenuState :=
  mkMenu (cart st) (allProducts st) (cartCount st) (cartTotal st)
         (messageText st) (messageColor st) text disabled.

(** *** The cart as JSON text in [localStorage] *)

Definition product_json (p : Product) : json :=
  JObj [("id", JStr (p_id p)); ("name", JStr (p_name p));
        ("price", JNum (p_price p)); ("category", JStr (p_category p));
        ("img", JStr (p_img p)); ("description", JStr (p_description p));
        ("stock", JNum (p_stock p))].

Definition item_json (it : CartItem) : json :=
  JObj [("product", product_json (product it));
        ("quantity", JNum (inject_Z (quantity it)))].

Definition cart_json (c : list CartItem) : json := JArr (map item_json c).

Definition get_str (k : string) (f : list (string * json)) : option string :=
  match obj_get k f with Some (JStr s) => Some s | _ => None end.
Definition get_num (k : string) (f : list (string * json)) : option Q :=
  match obj_get k f with Some (JNum n) => Some n | _ => None end.

Definition product_of_json (v : json) : option Product :=
  match v with
  | JObj f =>
      match get_str "id" f, get_str "name" f, get_num "price" f,
            get_str "category" f, get_str "img" f, get_str "description" f,
            get_num "stock" f with
      | Some i, Some n, Some p, Some c, Some g, Some d, Some s =>
          Some (mkProduct i n p c g d s)
      | _, _, _, _, _, _, _ => None
      end
  | _ => None
  end.

Definition item_of_json (v : json) : option CartItem :=
  match v with
  | JObj f =>
      match obj_get "product" f, get_num "quantity" f with
      | Some pv, Some (Qmake q 1) =>
          match product_of_json pv with
          | Some p => Some (mkItem p q)
          | None => None
          end
      | _, _ => None
      end
  | _ => None
  end.

Fixpoint items_of_json (l : list json) : option (list CartItem) :=
  match l with
  | [] => Some []
  | v :: rest =>
      match item_of_json v, items_of_json rest with
      | Some it, Some c => Some (it :: c)
      | _, _ => None
      end
  end.

(** [loadCartFromStorage()].  The cell is written by [saveCartToStorage]
    only, so the parsed value is a cart; the typed model has no value for
    JSON of another shape and reads it as the empty cart, as it does an
    absent, empty or unparsable cell. *)
Definition loadCartFromStorage (w : World) : list CartItem :=
  match localStorage w !! "shoppingCart" with
  | Some (JsonText (JArr l)) =>
      match items_of_json l with
      | Some c => c
      | None => []
      end
  | _ => []
  end.

Definition saveCartToStorage (st : MenuState) (w : World) : World :=
  set_localStorage (insert "shoppingCart" (JsonText (cart_json (cart st)))) w.

(** [item.product.price * item.quantity], a product of two doubles. *)
Definition price_times_quantity (item : CartItem) : float :=
  PrimFloat.mul (to_double (p_price (product item)))
                (Z_to_double (quantity item)).

(** [calculateCartTotals()]: two [reduce] calls, from [0], in cart order;
    the prices are added as doubles. *)
Definition calculateCartTotals (c : list CartItem) : Z * float :=
  let totalItems := fold_left (fun sum item => (sum + quantity item)%Z) c 0%Z in
  let totalPrice :=
    fold_left (fun sum item => PrimFloat.add sum (price_times_quantity item))
              c PrimFloat.zero in
  (totalItems, totalPrice).

Definition updateSidebarUI (st : MenuState) (w : World) : MenuState * World :=
  let w' := saveCartToStorage st w in
  let '(totalItems, totalPrice) := calculateCartTotals (cart st) in
  (set_totals totalItems totalPrice st, w').

(** [cart.findIndex(item => item.product.id == id)].  Identifiers are
    strings, on which [==] is equality of text. *)
Fixpoint findIndex (id : string) (c : list CartItem) : option nat :=
  match c with
  | [] => None
  | item :: rest =>
      if String.eqb (p_id (product item)) id then Some 0%nat
      else option_map S (findIndex id rest)
  end.

Definition add_quantity (d : Z) (item : CartItem) : CartItem :=
  mkItem (product item) (quantity item + d).

(** [addToCart(productId)].  [cart.find] gives the line at the first
    matching index, and the update through that reference changes the
    line in place. *)
Definition addToCart (productId : string) (st : MenuState) (w : World)
  : MenuState * World :=
  match find (fun p => String.eqb (p_id p) productId) (allProducts st) with
  | None => (st, w)
  | Some product =>
      let cart' :=
        match findIndex productId (cart st) with
        | Some i => alter (add_quantity 1) i (cart st)
        | None => (cart st ++ [mkItem product 1])%list
        end in
      updateSidebarUI (set_cart cart' st) w
  end.

(** *** Checkout *)

(** One element of [orderData.items], as [JSON.stringify] writes it. *)
Definition order_item (item : CartItem) : json :=
  JObj [("productId", JStr (p_id (product item)));
        ("name", JStr (p_name (product item)));
        ("price", number_json (to_double (p_price (product item))));
        ("quantity", JNum (inject_Z (quantity item)))].

(** [cart.reduce((sum, item) => sum + item.product.price * item.quantity,
    0)]. *)
Definition order_total (c : list CartItem) : float :=
  fold_left (fun sum item => PrimFloat.add sum (price_times_quantity item))
            c PrimFloat.zero.

Definition orderData (user : json) (c : list CartItem)
  : list (string * json) :=
  js_object
    [("userId", js_field "id" (Some user));
     ("user", Some (JObj (js_object
                            [("name", js_field "name" (Some user));
                             ("email", js_field "email" (Some user))])));
     ("items", Some (JArr (map order_item c)));
     ("total", Some (number_json (order_total c)));
     ("status", Some (JStr "pending"))].

(** What [handleConfirmOrder] does once [createOrder] has settled: the
    [try] body after the [await], the [catch] and the [finally].  The
    timer that clears the message three seconds later is not modelled. *)
Definition handleConfirmOrder_settle (originalText : string)
    (r : Result json) (st : MenuState) (w : World) : MenuState * World :=
  let '(st1, w1) :=
    match r with
    | Ok _ =>
        let '(st', w') := updateSidebarUI (set_cart [] st) w in
        (set_message "Order placed successfully!" "var(--color-success)" st',
         w')
    | Throw error =>
        (set_message "Error placing order." "var(--color-error)" st,
         add_console "Order error:" error w)
    end in
  (set_button originalText false st1, w1).

(** [handleConfirmOrder()], run to its end: the part before the [await],
    the call of [createOrder], and [handleConfirmOrder_settle] on its
    outcome.  A checkout whose request is still under way when the browser
    delivers other events is the event [CheckoutStarted] below, followed
    later by [OrderSettled]. *)
Definition handleConfirmOrder (net : Network) (st : MenuState) (w : World)
  : MenuState * World :=
  let user := Auth.getCurrentUser w in
  match cart st with
  | [] =>
      (set_message "Add items to cart first." "var(--color-warning)" st, w)
  | _ :: _ =>
      if negb (js_truthy (Some user))
      then (st, set_location_hash "#login"
                  (add_alert "You must be logged in to order." w))
      else
        let data := orderData user (cart st) in
        let originalText := btnText st in
        let st' := set_button "Processing..." true st in
        let '(r, w') := JsonService.createOrder net data w in
        handleConfirmOrder_settle originalText r st' w'
  end.

(** [handleConfirmOrder()] up to the [await]: the guards, the order, the
    button, and the request that [createOrder] hands to [fetch]. *)
Definition handleConfirmOrder_begin (st : MenuState) (w : World)
  : MenuState * World :=
  let user := Auth.getCurrentUser w in
  match cart st with
  | [] =>
      (set_message "Add items to cart first." "var(--color-warning)" st, w)
  | _ :: _ =>
      if negb (js_truthy (Some user))
      then (st, set_location_hash "#login"
                  (add_alert "You must be logged in to order." w))
      else
        let data := orderData user (cart st) in
        (set_button "Processing..." true st,
         add_request
           (JsonService.request_of (JsonService.OpCreateOrder data) w) w)
  end.

(** The continuation of a checkout that an earlier call of [menuView]
    started, run after the view has been opened again.  [cart], the
    sidebar and the button it writes are those of the earlier call, which
    the page no longer shows; of what it does the browser keeps the
    storage cell, which [updateSidebarUI] of that call writes with its
    emptied cart, and the console. *)
Definition stale_settle (r : Result json) (w : World) : World :=
  match r with
  | Ok _ =>
      set_localStorage (insert "shoppingCart" (JsonText (cart_json []))) w
  | Throw error => add_console "Order error:" error w
  end.

(** *** The click handler of the sidebar *)

(** The clicked element: its [data-id] attribute, its [id] and its
    classes. *)
Record Target : Type := mkTarget {
  data_id : option string;
  target_id : string;
  classList : list string
}.

Definition has_class (c : string) (t : Target) : bool :=
  existsb (String.eqb c) (classList t).

Definition sidebar_click (net : Network) (target : Target)
    (st : MenuState) (w : World) : MenuState * World :=
  match data_id target with
  | None | Some EmptyString =>
      if String.eqb (target_id target) "clearCartBtn"
      then updateSidebarUI (set_cart [] st) w
      else if String.eqb (target_id target) "confirmOrderBtn"
      then handleConfirmOrder net st w
      else (st, w)
  | Some id =>
      match findIndex id (cart st) with
      | None => (st, w)
      | Some itemIndex =>
          let cart' :=
            if has_class "increase" target
            then alter (add_quantity 1) itemIndex (cart st)
            else if has_class "decrease" target
            then
              match cart st !! itemIndex with
              | Some item =>
                  if (1 <? quantity item)%Z
                  then alter (add_quantity (-1)) itemIndex (cart st)
                  else delete itemIndex (cart st)
              | None => cart st
              end
            else if has_class "remove" target
            then delete itemIndex (cart st)
            else cart st in
          updateSidebarUI (set_cart cart' st) w
      end
  end.

(** *** Sessions of the menu view *)

(** The state in which [menuView] starts: the cart comes from storage. *)
Definition init (ps : list Product) (w : World) : MenuState :=
  mkMenu (loadCartFromStorage w) ps 0 PrimFloat.zero EmptyString EmptyString
         "
            Confirm Order
        " false.

(** The start-up of [menuView]: when the catalogue has been fetched and
    drawn, [updateSidebarUI()] runs; when that failed, the [catch] leaves
    the sidebar as it is.  [loaded] is the outcome of the fetch. *)
Definition open_view (loaded : option (list Product)) (w : World)
  : MenuState * World :=
  match loaded with
  | Some ps => updateSidebarUI (init ps w) w
  | None => (init [] w, w)
  end.

(** What happens to a menu view.  Every call of [menuView] has variables
    and elements of its own; the state is the one of the latest call, the
    view on the page.
    - [SidebarClick] on the confirm button is a checkout that settles
      before anything else happens.
    - [CheckoutStarted] is such a click whose request is under way; the
      button is disabled until [OrderSettled], the continuation of that
      checkout, and a disabled button takes no click.
    - [Reopen] is a new call of [menuView].  A checkout of the call
      before, still under way, settles as [StaleOrderSettled], on the
      variables of that call. *)
Inductive Event : Type :=
| AddToCart (productId : string)
| SidebarClick (target : Target)
| CheckoutStarted
| OrderSettled (originalText : string) (r : Result json)
| StaleOrderSettled (r : Result json)
| ProductsChanged (ps : list Product)
| Reopen (loaded : option (list Product)).

Definition step (net : Network) (ev : Event) (s : MenuState * World)
  : MenuState * World :=
  let '(st, w) := s in
  match ev with
  | AddToCart productId => addToCart productId st w
  | SidebarClick target => sidebar_click net target st w
  | CheckoutStarted =>
      if btnDisabled st then (st, w) else handleConfirmOrder_begin st w
  | OrderSettled originalText r =>
      if btnDisabled st
      then handleConfirmOrder_settle originalText r st w
      else (st, w)
  | StaleOrderSettled r => (st, stale_settle r w)
  | ProductsChanged ps => (set_allProducts ps st, w)
  | Reopen loaded => open_view loaded w
  end.

(** The states reachable from a browser that holds no cart yet.  A stale
    checkout may settle whether or not one is under way, so the states of
    the code are among these. *)
Inductive reachable : MenuState * World -> Prop :=
| reachable_open (loaded : option (list Product)) (w : World) :
    localStorage w !! "shoppingCart" = None ->
    reachable (open_view loaded w)
| reachable_step (net : Network) (ev : Event) (s : MenuState * World) :
    reachable s -> reachable (step net ev s).

Definition quantities_ok (c : list CartItem) : Prop :=
  Forall (fun item => (1 <= quantity item)%Z) c.

(** The invariant of the cart: in memory and in storage, every line has a
    quantity of at least one. *)
Definition cart_inv (s : MenuState * World) : Prop :=
  quantities_ok (cart (fst s)) /\
  quantities_ok (loadCartFromStorage (snd s)).

(** The sum of a list of amounts, accumulated from [0] in list order, as
    [+] does in a [reduce]: every addition rounds to a double. *)
Definition js_sum (l : list float) : float :=
  fold_left PrimFloat.add l PrimFloat.zero.

(** Price times quantity of a line, rounded to a double. *)
Definition line_total (item : CartItem) : float :=
  PrimFloat.mul (to_double (p_price (product item)))
                (Z_to_double (quantity item)).

End Menu.

(** ** main.js and router.js *)

Module Router.

(** What a view function resolves to: markup or an element. *)
Inductive ViewContent : Type :=
| HtmlString (s : string)
| DomNode (n : Node).

Definition View : Type := M ViewContent.

(** [Navbar()]: the three links of the markup, the Admin link for an
    administrator, and the logout button, which has the class
    [nav-link] too. *)
Definition Navbar (w : World) : Node :=
  let user := Auth.getCurrentUser w in
  let isAdmin := js_truthy (Some user)
                 && js_strict_eq_str (js_field "role" (Some user)) "admin" in
  NavbarHeader
    ([mkNavLink (Some "#menu") true; mkNavLink (Some "#orders") false;
      mkNavLink (Some "#profile") false]
     ++ (if isAdmin then [mkNavLink (Some "#dashboard") false] else [])
     ++ [mkNavLink None false])%list.

(** [render(viewNode)] of main.js. *)
Definition render (viewNode : Node) : M unit :=
  modify (fun w =>
    let currentPath :=
      if String.eqb (location_hash w) EmptyString then "#login"
      else location_hash w in
    let noNavbarRoutes := ["#login"; "#register"] in
    set_app (fun _ =>
               ((if existsb (String.eqb currentPath) noNavbarRoutes
                 then [] else [Navbar w]) ++ [viewNode])%list) w).

Definition mark_active (hash : string) (n : Node) : Node :=
  match n with
  | NavbarHeader links =>
      NavbarHeader
        (map (fun l => mkNavLink (href l)
                         (match href l with
                          | Some h => String.eqb h hash
                          | None => false
                          end)) links)
  | Element _ _ _ => n
  end.

Definition updateActiveNavLink (hash : string) : M unit :=
  modify (set_app (map (mark_active hash))).

Definition error404 : Node :=
  Element "div" ["container"]
    (html "
        <h1 class='page-title'>404</h1>
        <p class='subtitle'>Page not found</p>
        <a href='#menu' class='button primary'>Go back to Menu</a>
    ").

Definition renderError404 : M unit := render error404.

Definition profileView : View :=
  ret (HtmlString "<h1>Profile View (Work in Progress)</h1>").

Section Routes.

(** The views the table imports. *)
Variables menuView LoginView RegisterView orderView AdminDashboardView
  : View.

Definition routes : gmap string View :=
  list_to_map
    [("#menu", menuView); ("#login", LoginView);
     ("#register", RegisterView); ("#orders", orderView);
     ("#dashboard", AdminDashboardView); ("#profile", profileView)].

(** [router()].  The hash of a browser is empty or starts with [#], so
    the lookup cannot hit a property the table inherits. *)
Definition router : M unit :=
  h <- gets location_hash;;
  let hash := if String.eqb h EmptyString then "#register" else h in
  match routes !! hash with
  | Some viewFn =>
      try_catch
        (viewContent <- viewFn;;
         match viewContent with
         | HtmlString s => render (Element "div" [] s)
         | DomNode n => render n
         end;;
         updateActiveNavLink hash)
        (fun error =>
           console_error "Error loading view:" error;;
           renderError404)
  | None => renderError404
  end.

End Routes.

End Router.

(** ** Vocabulary of the statements *)


(** The lookup both [login] and [register] send for an email. *)
Definition users_query (email : string) : Request :=
  mkRequest GET (API_URLS.USERS +:+ "?email=" +:+ email) None.

(** The element [router] hands to [render] for what a view resolved to: a
    string is wrapped into a fresh [div]. *)
Definition content_node (c : Router.ViewContent) : Node :=
  match c with
  | Router.HtmlString s => Element "div" [] s
  | Router.DomNode n => n
  end.

(** The hash [router] dispatches on. *)
Definition current_hash (w : World) : string :=
  if String.eqb (location_hash w) EmptyString then "#register"
  else location_hash w.

(** The page shows the "not found" view: it is the view element of [#app],
    which [render] puts last. *)
Definition shows_404 (w : World) : Prop := last (app w) = Some Router.error404.

(** Modelled from the spec: the users collection of the mock backend, which
    is a server outside the sources ("User ... mutated only by the mock
    backend", "GET/POST/PATCH/DELETE against three resource collections").
    A POST to the users endpoint adds the posted record; a GET reads. *)
Definition backend_users (db : list json) (q : Request) : list json :=
  match req_method q, req_body q with
  | POST, Some u =>
      if String.eqb (req_url q) API_URLS.USERS then (db ++ [u])%list else db
  | _, _ => db
  end.

(** * Further code of the sources *)

(** ** authService.js: the session predicates and the route guards *)

Module AuthGuards.

(** [isAuthenticated()]: [!!getCurrentUser()]. *)
Definition isAuthenticated (w : World) : bool :=
  js_truthy (Some (Auth.getCurrentUser w)).

(** [isAdmin()]: [!!user && user.role === 'admin']. *)
Definition isAdmin (w : World) : bool :=
  let user := Auth.getCurrentUser w in
  js_truthy (Some user)
  && js_strict_eq_str (js_field "role" (Some user)) "admin".

Definition requireAuth : M unit :=
  authenticated <- gets isAuthenticated;;
  if negb authenticated
  then
    modify (set_location_hash "#login");;
    throw (Error "Usuario no autenticado")
  else ret tt.

Definition requireAdmin : M unit :=
  user <- gets Auth.getCurrentUser;;
  if negb (js_truthy (Some user))
     || negb (js_strict_eq_str (js_field "role" (Some user)) "admin")
  then
    modify (set_location_hash "#menu");;
    throw (Error "Acceso no autorizado. Sólo admin.")
  else ret tt.

End AuthGuards.

(** ** jsonService.js: the state a call leaves *)

Module Calls.

Import JsonService.

(** The browser state after a call of a method, returned or thrown. *)
Definition world_after (net : Network) (op : Operation) (w : World) : World :=
  match op with
  | OpGetProductsIDs => snd (getProductsIDs net w)
  | OpGetProductById productId => snd (getProductById net productId w)
  | OpGetProducts => snd (getProducts net w)
  | OpCreateProduct product => snd (createProduct net product w)
  | OpDeleteProduct id => snd (deleteProduct net id w)
  | OpUpdateProduct productId updates =>
      snd (updateProduct net productId updates w)
  | OpCreateOrder orderData => snd (createOrder net orderData w)
  | OpGetOrderById orderId => snd (getOrderById net orderId w)
  end.

End Calls.

(** ** register.js: the submit handler of the registration form *)

Module RegisterForm.

(** The values of the inputs at the time of the submit. *)
Record Form : Type := mkForm {
  name_value : string;
  email_value : string;
  password_value : string;
  confirm_value : string;
  role_value : string
}.

(** The paragraph [#register-error]. *)
Record ErrorParagraph : Type := mkErrorParagraph {
  display : string;
  textContent : string
}.

Definition show_error (message : string) : ErrorParagraph :=
  mkErrorParagraph "block" message.

Section Handler.

(** The conversions [register] may need, and [String.prototype.trim]. *)
Variable number_to_string : Q -> string.
Variable string_to_number : string -> float.
Variable trim : string -> string.

Definition is_empty (s : string) : bool := String.eqb s EmptyString.

(** The listener [registerRequest] puts on the form.  [a || b] on two
    strings is [a] unless [a] is empty. *)
Definition submit (net : Network) (form : Form) (errorParagraph : ErrorParagraph)
    (w : World) : ErrorParagraph * World :=
  let name := trim (name_value form) in
  let email := trim (email_value form) in
  let password := password_value form in
  let confirmPassword := confirm_value form in
  let role := role_value form in
  if is_empty name || is_empty email || is_empty password
     || is_empty confirmPassword
  then (show_error "Please fill in all fields.", w)
  else if negb (String.eqb password confirmPassword)
  then (show_error "Passwords do not match.", w)
  else
    let attempt : M unit :=
      usuario <- Auth.register number_to_string string_to_number net
                   (Auth.mkUserData name email password role);;
      match usuario with
      | Auth.Success _ => modify (set_location_hash "#login")
      | Auth.Failure error =>
          throw (Error (if is_empty error then "Error desconocido" else error))
      end in
    match attempt w with
    | (Ok _, w') => (errorParagraph, w')
    | (Throw error, w') =>
        (show_error (if is_empty (err_message error)
                     then "Registration failed. Please try again."
                     else err_message error), w')
    end.

End Handler.

End RegisterForm.

(** ** The guards of the routed views *)

Module Views.

Section Bodies.

(** What [AdminDashboardView] does for an administrator: it builds the
    dashboard and starts [loadDashboardData].  The statements below hold
    for every such body. *)
Variable dashboard_body : json -> M Node.

Definition access_denied : Node :=
  Element "main" ["container"] "<p>Acceso no autorizado.</p>".

Definition AdminDashboardView : Router.View :=
  user <- gets Auth.getCurrentUser;;
  if negb (js_truthy (Some user))
     || negb (js_strict_eq_str (js_field "role" (Some user)) "admin")
  then
    modify (set_location_hash "#menu");;
    ret (Router.DomNode access_denied)
  else
    main <- dashboard_body user;;
    ret (Router.DomNode main).

(** What [orderView] does once the markup of its sidebar is built: the
    fetch of the orders and the cards. *)
Variable orders_body : json -> M Node.

(** [orderView] creates elements and then interpolates [user.name],
    [user.email] and [user.role] into the sidebar; with [user] being
    [null] the first of these reads throws. *)
Definition orderView : Router.View :=
  user <- gets Auth.getCurrentUser;;
  match user with
  | JNull => throw (TypeError "Cannot read properties of null (reading 'name')")
  | _ =>
      main <- orders_body user;;
      ret (Router.DomNode main)
  end.

End Bodies.

End Views.

(** ** menu.js: the product grid *)

Module Catalogue.

Import Menu.

(** [LoadingView()] of Loading.js. *)
Definition LoadingView : string :=
  html "
        <div class='container'>
            <div class='loading-container'>
                <!-- Spinner animado (definido en CSS) -->
                <div class='loading-spinner'></div>
                
                <!-- Mensaje principal de carga -->
                <p class='loading-title'>Cargando datos climáticos...</p>
                
                <!-- Mensaje secundario (contexto adicional) -->
                <p class='loading-subtitle'>Conectando con la API Open-Meteo</p>
            </div>
        </div>".

(** The menu view with the grid, the filter bar and the product modal.
    The markup of the modal is not modelled. *)
Record MenuPage : Type := mkPage {
  menu : MenuState;
  isAdmin : json;                      (* the flag of [menuView] *)
  productGrid : string;                (* innerHTML of the grid *)
  activeCategory : string;             (* data-category of the active filter *)
  searchValue : string;                (* value of #searchInput *)
  editingProduct : option Product;
  modalOpen : bool
}.

Definition set_menu (st : MenuState) (page : MenuPage) : MenuPage :=
  mkPage st (isAdmin page) (productGrid page) (activeCategory page)
         (searchValue page) (editingProduct page) (modalOpen page).
Definition set_grid (markup : string) (page : MenuPage) : MenuPage :=
  mkPage (menu page) (isAdmin page) markup (activeCategory page)
         (searchValue page) (editingProduct page) (modalOpen page).
Definition set_filter (category search : string) (page : MenuPage) : MenuPage :=
  mkPage (menu page) (isAdmin page) (productGrid page) category search
         (editingProduct page) (modalOpen page).

(** [openProductModal(product)]. *)
Definition openProductModal (product : option Product) (page : MenuPage)
  : MenuPage :=
  mkPage (menu page) (isAdmin page) (productGrid page) (activeCategory page)
         (searchValue page) product true.

Definition no_items_found : string := html "<p class='subtitle'>No items found.</p>".
Definition error_loading_menu : string := html "<p class='error'>Error loading menu.</p>".

Section Grid.

Variable number_to_string : Q -> string.

(** [String.prototype.toLowerCase]. *)
Variable toLowerCase : string -> string.

(** The predicate of the [filter] in [renderProducts]. *)
Definition matches (categoryFilter searchTerm : string) (product : Product)
  : bool :=
  let matchesCategory :=
    String.eqb categoryFilter "All"
    || String.eqb (p_category product) categoryFilter in
  let matchesSearch :=
    includes (toLowerCase searchTerm) (toLowerCase (p_name product)) in
  matchesCategory && matchesSearch.

(** [filteredProducts.map(product => Card(product.id, isAdmin))]: every
    card is started, so every request is sent, whether another card fails
    or not.  The cards are settled here in the order of the list. *)
Fixpoint cards (net : Network) (flag : json) (products : list Product)
    (w : World) : list (Result string) * World :=
  match products with
  | [] => ([], w)
  | product :: rest =>
      let '(r, w1) := Card number_to_string net (p_id product) (Some flag) w in
      let '(rs, w2) := cards net flag rest w1 in
      (r :: rs, w2)
  end.

(** [Promise.all]: the values of all, or the first rejection. *)
Fixpoint promise_all (rs : list (Result string)) : Result (list string) :=
  match rs with
  | [] => Ok []
  | Throw e :: _ => Throw e
  | Ok v :: rest =>
      match promise_all rest with
      | Ok vs => Ok (v :: vs)
      | Throw e => Throw e
      end
  end.

(** [renderProducts(categoryFilter, searchTerm)], run to its end. *)
Definition renderProducts (net : Network) (categoryFilter searchTerm : string)
    (page : MenuPage) (w : World) : MenuPage * World :=
  let page := set_grid LoadingView page in
  let filteredProducts :=
    List.filter (matches categoryFilter searchTerm) (allProducts (menu page)) in
  match filteredProducts with
  | [] => (set_grid no_items_found page, w)
  | _ :: _ =>
      let '(rs, w1) := cards net (isAdmin page) filteredProducts w in
      match promise_all rs with
      | Ok cardsHtml => (set_grid (template cardsHtml) page, w1)
      | Throw error =>
          (set_grid error_loading_menu page,
           add_console "Error displaying products" error w1)
      end
  end.

(** The click on a filter button and the input in the search box. *)
Definition filter_click (net : Network) (category : string) (page : MenuPage)
    (w : World) : MenuPage * World :=
  renderProducts net category (searchValue page)
    (set_filter category (searchValue page) page) w.

Definition search_input (net : Network) (value : string) (page : MenuPage)
    (w : World) : MenuPage * World :=
  renderProducts net (activeCategory page) value
    (set_filter (activeCategory page) value page) w.

(** What [e.target.closest(...)] finds for the three kinds of button: for
    each, whether there is one and the [data-id] it carries. *)
Record GridTarget : Type := mkGridTarget {
  add_to_cart_btn : option (option string);
  edit_product_btn : option (option string);
  delete_product_btn : option (option string)
}.

(** [String(id)] and [${id}] for a [dataset.id]. *)
Definition dataset_text (d : option string) : string :=
  match d with
  | Some id => id
  | None => "undefined"
  end.

(** The click listener of the grid.  [confirmDelete] is the answer
    [window.confirm] gets when it is asked.  [console.error(err)] has no
    label, which the log records as the empty label. *)
Definition grid_click (net : Network) (confirmDelete : bool)
    (target : GridTarget) (page : MenuPage) (w : World) : MenuPage * World :=
  match add_to_cart_btn target with
  | Some (Some id) =>
      let '(st, w') := addToCart id (menu page) w in
      (set_menu st page, w')
  | Some None => (page, w)
  | None =>
      if negb (js_truthy (Some (isAdmin page))) then (page, w)
      else
        match edit_product_btn target with
        | Some d =>
            match find (fun p => String.eqb (p_id p) (dataset_text d))
                       (allProducts (menu page)) with
            | Some product => (openProductModal (Some product) page, w)
            | None => (page, w)
            end
        | None =>
            match delete_product_btn target with
            | None => (page, w)
            | Some d =>
                if negb confirmDelete then (page, w)
                else
                  match JsonService.deleteProduct net (dataset_text d) w with
                  | (Ok _, w1) =>
                      let remaining :=
                        List.filter
                          (fun p => negb (String.eqb (p_id p) (dataset_text d)))
                          (allProducts (menu page)) in
                      renderProducts net (activeCategory page)
                        (searchValue page)
                        (set_menu (set_allProducts remaining (menu page)) page)
                        w1
                  | (Throw err, w1) =>
                      (page, add_alert "Error deleting product"
                               (add_console EmptyString err w1))
                  end
            end
        end
  end.

End Grid.

End Catalogue.

(** ** Vocabulary of the further statements *)

(** The targets of the links of a navigation header. *)
Definition nav_hrefs (n : Node) : list (option string) :=
  match n with
  | NavbarHeader links => map href links
  | Element _ _ _ => []
  end.

(** The message [login] gives for a failed request, a response that is not
    2xx and a body that is not JSON. *)
Definition unexpected_error : string := "Ocurrió un error inesperado".

(** The POST [register] sends for a new user. *)
Definition users_post (userData : Auth.UserData) : Request :=
  mkRequest POST API_URLS.USERS (Some (Auth.userData_json userData)).

(** [error.message || fallback]. *)
Definition message_or (fallback : string) (e : JsError) : string :=
  if String.eqb (err_message e) EmptyString then fallback else err_message e.

(** A complete form with matching passwords. *)
Definition valid_form (trim : string -> string) (form : RegisterForm.Form)
  : bool :=
  negb (RegisterForm.is_empty (trim (RegisterForm.name_value form))
        || RegisterForm.is_empty (trim (RegisterForm.email_value form))
        || RegisterForm.is_empty (RegisterForm.password_value form)
        || RegisterForm.is_empty (RegisterForm.confirm_value form))
  && String.eqb (RegisterForm.password_value form)
                (RegisterForm.confirm_value form).

(** The data the form hands to [register]. *)
Definition form_data (trim : string -> string) (form : RegisterForm.Form)
  : Auth.UserData :=
  Auth.mkUserData (trim (RegisterForm.name_value form))
    (trim (RegisterForm.email_value form)) (RegisterForm.password_value form)
    (RegisterForm.role_value form).

Definition is_null (v : json) : bool :=
  match v with JNull => true | _ => false end.

(** The opening tag of the button every card has, for a product id. *)
Definition add_to_cart_control (id : string) : string :=
  html "<button class='button secondary add-to-cart-btn' data-id='"
  +:+ id +:+ html "'>".

(** The product ids of the lines of a cart. *)
Definition line_ids (c : list Menu.CartItem) : list string :=
  map (fun item => Menu.p_id (Menu.product item)) c.

(** The stored cart is the cart of the view, or the empty cart that the
    checkout of an earlier view left when it settled, and no product has
    two lines. *)
Definition cart_synced (s : Menu.MenuState * World) : Prop :=
  (Menu.loadCartFromStorage (snd s) = Menu.cart (fst s) \/
   Menu.loadCartFromStorage (snd s) = []) /\
  NoDup (line_ids (Menu.cart (fst s))).

(** The number the badge of the cart shows. *)
Definition total_items (c : list Menu.CartItem) : Z :=
  fst (Menu.calculateCartTotals c).

(** A click on a button of the line of a product in the sidebar. *)
Definition line_button (id class : string) : Menu.Target :=
  Menu.mkTarget (Some id) EmptyString ["quantity-button"; class].

(** The Remove button of a line and the "Clear all" button. *)
Definition remove_button (id : string) : Menu.Target :=
  Menu.mkTarget (Some id) EmptyString ["remove-button"; "remove"].

Definition clear_button : Menu.Target :=
  Menu.mkTarget None "clearCartBtn" ["link-button"].

(** The request [getProductById] sends for a product. *)
Definition product_request (id : string) : Request :=
  mkRequest GET (API_URLS.PRODUCTS +:+ "/" +:+ id) None.

(** The backend answers the request for a product with a 2xx response
    whose body is JSON and not [null]. *)
Definition serves (net : Network) (id : string) (product_response : json)
  : Prop :=
  exists r, net (product_request id) = Responded r /\ ok r = true /\
            body r = Some product_response /\ product_response <> JNull.

(** The request for a product fails, is answered with another status, or
    with a body that is not JSON or is [null]. *)
Definition unserved (net : Network) (id : string) : Prop :=
  match net (product_request id) with
  | Rejected _ => True
  | Responded r =>
      ok r = false \/ body r = None \/ body r = Some JNull
  end.

(** The card [Card] builds from the record of a product, when the six
    values the template uses all have a text. *)
Definition card_of (number_to_string : Q -> string) (flag : json)
    (product_response : json) : option string :=
  let text k := printed number_to_string (js_field k (Some product_response)) in
  match text "id", text "category", text "img", text "name", text "price",
        text "description" with
  | Some id, Some category, Some imageUrl, Some title, Some price,
    Some description =>
      Some (card_markup id category imageUrl title price description
              (if js_truthy (Some flag) then adminControls_markup id
               else EmptyString))
  | _, _, _, _, _, _ => None
  end.

(** The fields of a product of which the card template takes the text,
    and the records for which each of them has one. *)
Definition card_keys : list string :=
  ["id"; "category"; "img"; "name"; "price"; "description"].

Definition printable (number_to_string : Q -> string)
    (product_response : json) : Prop :=
  Forall (fun k => is_Some (printed number_to_string
                              (js_field k (Some product_response))))
         card_keys.

(** The request for a product is answered with a record of which [Card]
    makes the given card. *)
Definition shown_as (number_to_string : Q -> string) (net : Network)
    (flag : json) (id : string) (markup : string) : Prop :=
  exists product_response,
    serves net id product_response /\
    card_of number_to_string flag product_response = Some markup.

(** The request for a product is answered with a record of which one of
    the values the template uses has no text. *)
Definition unprintable (number_to_string : Q -> string) (net : Network)
    (id : string) : Prop :=
  exists product_response,
    serves net id product_response /\
    card_of number_to_string (JBool false) product_response = None.

(** The request [deleteProduct] sends. *)
Definition delete_request (id : string) : Request :=
  mkRequest DELETE ("http://localhost:3000/products/" +:+ id) None.

(** A click in the grid on a Delete button with a [data-id]. *)
Definition delete_click (id : string) : Catalogue.GridTarget :=
  Catalogue.mkGridTarget None None (Some (Some id)).

(** ** Concrete data for the examples *)

Module Examples.

(** A fresh browser on the login page. *)
Definition world0 : World :=
  mkWorld ∅ "#login" [] [] [] [] "2024-06-15T14:30:00.000Z".

Definition ana : json :=
  JObj [("id", JStr "u1"); ("name", JStr "Ana"); ("email", JStr "ana@rest.io");
        ("password", JStr "s3cret"); ("role", JStr "admin")].

(** Ana's record as the session keeps it. *)
Definition ana_session : json :=
  JObj [("id", JStr "u1"); ("name", JStr "Ana"); ("email", JStr "ana@rest.io");
        ("role", JStr "admin")].

(** A printer of numbers for the examples: the whole part, in decimal. *)
Definition number_text (n : Q) : string :=
  pretty (Qnum n / Zpos (Qden n))%Z.

Definition burger : json :=
  JObj [("id", JStr "p001"); ("name", JStr "Classic Burger");
        ("price", JNum 9); ("category", JStr "Burgers");
        ("img", JStr "https://img.rest.io/burger.png");
        ("description", JStr "Beef, cheddar & pickles"); ("stock", JNum 20)].

Definition net_burger : Network :=
  fun _ => Responded (mkResponse true 200 (Some burger)).

(** A product whose description is itself the markup of the admin
    controls. *)
Definition forged : json :=
  JObj [("id", JStr "p666"); ("name", JStr "Forged");
        ("price", JNum 1); ("category", JStr "Sides");
        ("img", JStr "https://img.rest.io/x.png");
        ("description", JStr (adminControls_markup "p666"));
        ("stock", JNum 1)].

Definition net_forged : Network :=
  fun _ => Responded (mkResponse true 200 (Some forged)).

Definition classic_burger : Menu.Product :=
  Menu.mkProduct "p001" "Classic Burger" 9 "Burgers"
    "https://img.rest.io/burger.png" "Beef, cheddar & pickles" 20.

Definition fries : Menu.Product :=
  Menu.mkProduct "p002" "Fries" (7 # 2) "Sides"
    "https://img.rest.io/fries.png" "Crispy" 50.

(** The click on the minus button of the burger line. *)
Definition minus_burger : Menu.Target :=
  Menu.mkTarget (Some "p001") EmptyString ["quantity-button"; "decrease"].

Definition confirm_button : Menu.Target :=
  Menu.mkTarget None "confirmOrderBtn" ["button"; "primary"].

(** A browser in which Ana is logged in. *)
Definition world_ana : World :=
  mkWorld {[ "activeUser" := JsonText ana_session ]} "#menu" [] [] [] []
          "2024-06-15T14:30:00.000Z".

(** The menu view with two burgers and one portion of fries in the cart. *)
Definition menu_two_lines : Menu.MenuState :=
  Menu.mkMenu [Menu.mkItem classic_burger 2; Menu.mkItem fries 1]
    [classic_burger; fries] 3 21.5%float EmptyString EmptyString
    "Confirm Order" false.

(** A cart with a salad at 0.1 and a dip at 0.2. *)
Definition salad : Menu.Product :=
  Menu.mkProduct "p003" "Salad" (1 # 10) "Sides"
    "https://img.rest.io/salad.png" "Green" 10.

Definition dip : Menu.Product :=
  Menu.mkProduct "p004" "Dip" (1 # 5) "Sides"
    "https://img.rest.io/dip.png" "Garlic" 10.

Definition menu_small_change : Menu.MenuState :=
  Menu.mkMenu [Menu.mkItem salad 1; Menu.mkItem dip 1] [salad; dip] 2
    0x1.3333333333334p-2%float EmptyString EmptyString "Confirm Order" false.

Definition menu_empty : Menu.MenuState :=
  Menu.mkMenu [] [classic_burger; fries] 0 PrimFloat.zero EmptyString EmptyString
    "Confirm Order" false.

(** One burger in the cart of a fresh browser, reached by a click on
    "Add to order". *)
Definition one_burger : Menu.MenuState * World :=
  Menu.step net_burger (Menu.AddToCart "p001")
    (Menu.open_view (Some [classic_burger; fries]) world0).

(** Ana with a burger in the cart starts a checkout, leaves the menu,
    comes back, and the order is created. *)
Definition stale_checkout : Menu.MenuState * World :=
  Menu.step net_burger (Menu.StaleOrderSettled (Ok burger))
    (Menu.step net_burger (Menu.Reopen (Some [classic_burger; fries]))
       (Menu.step net_burger Menu.CheckoutStarted
          (Menu.step net_burger (Menu.AddToCart "p001")
             (Menu.open_view (Some [classic_burger; fries]) world_ana)))).

(** Views for the router: one that is drawn, one that throws as
    [requireAuth] does. *)
Definition view_ok : Router.View :=
  ret (Router.DomNode (Element "main" ["layout"] "<h1>Our Menu</h1>")).
Definition view_broken : Router.View :=
  throw (Error "Usuario no autenticado").

Definition at_hash (h : string) : World :=
  mkWorld {[ "activeUser" := JsonText ana_session ]} h [] [] [] []
          "2024-06-15T14:30:00.000Z".

(** The two ways a request fails. *)
Definition not_found : Response := mkResponse false 404 (Some (JObj [])).
Definition net_404 : Network := fun _ => Responded not_found.
Definition failed_to_fetch : JsError := TypeError "Failed to fetch".
Definition net_down : Network := fun _ => Rejected failed_to_fetch.


(** A backend that knows Ana only and answers every request with her
    record. *)
Definition net_ana : Network :=
  fun _ => Responded (mkResponse true 200 (Some (JArr [ana]))).




(** A second registration with the email of Ana, the record the backend
    would create for it, and a backend whose lookup fails with a 500 while
    its POST works. *)
Definition ana_again : Auth.UserData :=
  Auth.mkUserData "Ana B" "ana@rest.io" "other" "user".

Definition ana_created : json :=
  JObj [("name", JStr "Ana B"); ("email", JStr "ana@rest.io");
        ("password", JStr "other"); ("role", JStr "user"); ("id", JStr "u9")].

Definition net_lookup_500 : Network :=
  fun q =>
    match req_method q with
    | POST => Responded (mkResponse true 201 (Some ana_created))
    | _ => Responded (mkResponse false 500 (Some (JObj [])))
    end.

(** A reader of numbers for the examples: the digits of a natural number,
    [0] for the empty text, [NaN] for any other text. *)
Fixpoint digits_value (s : string) (acc : Z) : option Z :=
  match s with
  | EmptyString => Some acc
  | String c rest =>
      let n := Z.of_nat (nat_of_ascii c) in
      if (48 <=? n)%Z && (n <=? 57)%Z
      then digits_value rest (10 * acc + (n - 48))%Z
      else None
  end.

Definition text_number (s : string) : float :=
  match digits_value s 0 with
  | Some z => Z_to_double z
  | None => PrimFloat.nan
  end.

(** A backend that answers every lookup with an object that carries its
    length as a text. *)
Definition net_length_text : Network :=
  fun _ => Responded (mkResponse true 200 (Some (JObj [("length", JStr "1")]))).


(** The record of the fries, and a backend with the two products: it
    serves each under its id and accepts every DELETE. *)
Definition fries_json : json :=
  JObj [("id", JStr "p002"); ("name", JStr "Fries");
        ("price", JNum (7 # 2)); ("category", JStr "Sides");
        ("img", JStr "https://img.rest.io/fries.png");
        ("description", JStr "Crispy"); ("stock", JNum 50)].

Definition net_catalogue : Network :=
  fun q =>
    match req_method q with
    | DELETE => Responded (mkResponse true 200 (Some (JObj [])))
    | _ =>
        if String.eqb (req_url q) (API_URLS.PRODUCTS +:+ "/p001")
        then Responded (mkResponse true 200 (Some burger))
        else if String.eqb (req_url q) (API_URLS.PRODUCTS +:+ "/p002")
        then Responded (mkResponse true 200 (Some fries_json))
        else Responded not_found
    end.

(** A backend that answers the list of the products. *)
Definition net_products : Network :=
  fun _ => Responded (mkResponse true 200 (Some (JArr [burger; fries_json]))).

(** Lower case for the letters of ASCII. *)
Definition lower_ascii (c : ascii) : ascii :=
  let n := nat_of_ascii c in
  if Nat.leb 65 n && Nat.leb n 90 then ascii_of_nat (n + 32) else c.

Fixpoint lower (s : string) : string :=
  match s with
  | EmptyString => EmptyString
  | String c rest => String (lower_ascii c) (lower rest)
  end.

(** A record whose name is an object with a field [toString], and a
    backend that serves it. *)
Definition odd_record : json :=
  JObj [("id", JStr "p777"); ("name", JObj [("toString", JNum 1)]);
        ("price", JNum 1); ("category", JStr "Sides");
        ("img", JStr "https://img.rest.io/odd.png");
        ("description", JStr "Odd"); ("stock", JNum 1)].

Definition net_odd : Network :=
  fun _ => Responded (mkResponse true 200 (Some odd_record)).

(** The cards of the two products for an administrator. *)
Definition burger_card : string :=
  match card_of number_text (JBool true) burger with
  | Some markup => markup
  | None => EmptyString
  end.

Definition fries_card : string :=
  match card_of number_text (JBool true) fries_json with
  | Some markup => markup
  | None => EmptyString
  end.

(** The menu page with every product shown, for an administrator and for
    a visitor. *)
Definition page_admin : Catalogue.MenuPage :=
  Catalogue.mkPage menu_two_lines (JBool true) EmptyString "All" EmptyString
    None false.

Definition page_visitor : Catalogue.MenuPage :=
  Catalogue.mkPage menu_two_lines (JBool false) EmptyString "All" EmptyString
    None false.

(** The order Ana's checkout hands to [createOrder]. *)
Definition ana_order : list (string * json) :=
  Menu.orderData ana_session (Menu.cart menu_two_lines).

(** A browser without a session, and one with the session of a customer. *)
Definition anonymous_at (h : string) : World :=
  mkWorld ∅ h [] [] [] [] "2024-06-15T14:30:00.000Z".

Definition bea_session : json :=
  JObj [("id", JStr "u2"); ("name", JStr "Bea"); ("email", JStr "bea@rest.io");
        ("role", JStr "user")].

Definition bea_at (h : string) : World :=
  mkWorld {[ "activeUser" := JsonText bea_session ]} h [] [] [] []
          "2024-06-15T14:30:00.000Z".

(** A body for the guarded views. *)
Definition body_ok (user : json) : M Node :=
  ret (Element "main" ["layout"] "<h1>Orders</h1>").

End Examples.

(** * Theorems *)

Ltac run :=
  cbv [bind ret throw try_catch modify gets fetch response_json
       console_error localStorage_setItem].

Module AuthFacts.








End AuthFacts.

(** *** Claims on authService.js *)

Module AuthClaims.

Import AuthFacts Examples.




(** C3.  [register] at the failing input: Ana is registered, and the
    lookup for her email is answered with a 500 and the body [{}].
    [register] does not look at the status of the lookup, as [login] does:
    it reads the length of the body, which has none, goes on to the POST,
    and answers with a success; the users collection then holds two
    records with the email of Ana. *)
Lemma register_posts_after_failed_lookup :
  let run := Auth.register number_text text_number net_lookup_500 ana_again
               world0 in
  fst run = Ok (Auth.Success ana_created) /\
  requests (snd run) = [users_query "ana@rest.io"; users_post ana_again] /\
  fold_left backend_users (requests (snd run)) [ana]
  = [ana; Auth.userData_json ana_again] /\
  js_field "email" (Some ana) = js_field "email" (Some (Auth.userData_json ana_again)).
Proof. vm_compute. repeat split. Qed.

End AuthClaims.

(** *** Runs of authService.js on the example backend *)

Module AuthRuns.

Import Examples.

Lemma login_ana_succeeds :
  fst (Auth.login net_ana "ana@rest.io" "s3cret" world0)
  = Ok (Auth.Success ana_session).
Proof. vm_compute. reflexivity. Qed.

Lemma login_ana_wrong_password :
  fst (Auth.login net_ana "ana@rest.io" "guess" world0)
  = Ok (Auth.Failure "Contraseña incorrecta").
Proof. vm_compute. reflexivity. Qed.


(** A lookup that finds Ana: the registration is refused after that one
    request. *)
Lemma register_ana_again_is_refused :
  Auth.register number_text text_number net_ana ana_again world0
  = (Ok (Auth.Failure "El correo electrónico ya está registrado"),
     add_request (users_query "ana@rest.io") world0).
Proof. vm_compute. reflexivity. Qed.

End AuthRuns.

(** *** Claims on jsonService.js *)

Module ServiceClaims.

Import JsonService Examples.

(** C7, as stated, fails: [getOrderById] rethrows what it caught, so a
    404 and a network failure reach its caller as different errors. *)
Lemma getOrderById_distinguishes_causes :
  failure net_404 (OpGetOrderById "o1") world0
    = Some (Error "No se pudo obtener la orden con id o1") /\
  failure net_down (OpGetOrderById "o1") world0 = Some failed_to_fetch /\
  failure net_404 (OpGetOrderById "o1") world0
    <> failure net_down (OpGetOrderById "o1") world0.
Proof.
  repeat split; try (vm_compute; reflexivity).
  vm_compute. discriminate.
Qed.

(** [deleteProduct] has no handler at all and differs in the same way. *)
Lemma deleteProduct_distinguishes_causes :
  failure net_404 (OpDeleteProduct "p001") world0
    = Some (Error "Error al eliminar producto") /\
  failure net_down (OpDeleteProduct "p001") world0 = Some failed_to_fetch.
Proof. split; vm_compute; reflexivity. Qed.

(** C7, amended.  For [getProducts], [getProductById], [getProductsIDs],
    [createProduct], [updateProduct] and [createOrder] a response that is
    not 2xx and a network failure make the method throw the same fixed
    error of the method; for [getOrderById] and [deleteProduct] the
    former throws the message of the method and the latter the rejection
    of [fetch] itself. *)
Theorem failure_causes_by_operation
    (op : Operation) (net1 net2 : Network) (w : World)
    (r : Response) (e : JsError) :
  net1 (request_of op w) = Responded r ->
  ok r = false ->
  net2 (request_of op w) = Rejected e ->
  match op with
  | OpGetOrderById orderId =>
      failure net1 op w
        = Some (Error ("No se pudo obtener la orden con id " +:+ orderId)) /\
      failure net2 op w = Some e
  | OpDeleteProduct _ =>
      failure net1 op w = Some (Error "Error al eliminar producto") /\
      failure net2 op w = Some e
  | _ =>
      wraps_errors op = true /\
      failure net1 op w = Some (generic_error op) /\
      failure net2 op w = Some (generic_error op)
  end.
Proof.
  intros H1 Hok H2.
  destruct op; cbn [request_of] in H1, H2; cbn [failure wraps_errors];
    unfold getProductsIDs, getProducts, getProductById, createProduct,
      deleteProduct, updateProduct, createOrder, getOrderById;
    run; rewrite ?H1, ?H2, ?Hok; simpl; auto.
Qed.

Lemma failure_causes_by_operation_witness :
  wraps_errors OpGetProducts = true /\
  failure net_404 OpGetProducts world0 = Some (generic_error OpGetProducts) /\
  failure net_down OpGetProducts world0 = Some (generic_error OpGetProducts).
Proof.
  apply (failure_causes_by_operation OpGetProducts net_404 net_down world0
           not_found failed_to_fetch); reflexivity.
Defined.

End ServiceClaims.

(** *** Substring search over concatenations *)

Module TextFacts.

Lemma clash_prefix (m r t : string) :
  clash m r = true -> String.prefix m (r +:+ t) = false.
Proof.
  revert r. induction m as [| a m IH]; intros [| b r]; simpl;
    try discriminate.
  destruct (Ascii.eqb a b) eqn:E.
  - intros H. destruct (ascii_dec a b); [apply IH; exact H | reflexivity].
  - intros _. destruct (ascii_dec a b) as [-> |]; [| reflexivity].
    rewrite Ascii.eqb_refl in E. discriminate.
Qed.

(** A piece in which no occurrence can begin is skipped by the search. *)
Lemma includes_inert (m a b : string) :
  inert m a = true -> includes m (a +:+ b) = includes m b.
Proof.
  induction a as [| c a IH]; [reflexivity |].
  cbn [inert]. intros H. apply andb_true_iff in H. destruct H as [Hc Hi].
  change (String c a +:+ b) with (String c (a +:+ b)).
  cbn [includes].
  change (String c (a +:+ b)) with (String c a +:+ b).
  rewrite (clash_prefix _ _ b Hc). simpl. apply IH. exact Hi.
Qed.

Lemma no_char_inert (c : ascii) (m s : string) :
  no_char c s = true -> inert (String c m) s = true.
Proof.
  induction s as [| b s IH]; [reflexivity |].
  cbn [no_char inert clash]. intros H.
  apply andb_true_iff in H. destruct H as [Hb Hs].
  rewrite Ascii.eqb_sym.
  apply negb_true_iff in Hb. rewrite Hb. simpl. apply IH. exact Hs.
Qed.

Lemma prefix_app (m a b : string) :
  String.prefix m a = true -> String.prefix m (a +:+ b) = true.
Proof.
  revert a. induction m as [| c m IH]; intros [| d a]; simpl;
    try (intros _; destruct b; reflexivity); try discriminate.
  destruct (ascii_dec c d); [apply IH | discriminate].
Qed.

Lemma includes_app_l (m a b : string) :
  includes m a = true -> includes m (a +:+ b) = true.
Proof.
  induction a as [| c a IH].
  - simpl. rewrite orb_false_r. intros H.
    destruct m; [destruct b; reflexivity | discriminate].
  - cbn [includes]. intros H. apply orb_true_iff in H.
    change (String c a +:+ b) with (String c (a +:+ b)). cbn [includes].
    change (String c (a +:+ b)) with (String c a +:+ b).
    destruct H as [H | H].
    + rewrite (prefix_app _ _ b H). reflexivity.
    + rewrite (IH H). apply orb_true_r.
Qed.

End TextFacts.

(** *** Claims on Card.js and the admin flag of the menu view *)

Module CardFacts.

Import TextFacts.

Section Run.

Variable number_to_string : Q -> string.

(** The conversion to a string throws one error only. *)
Fixpoint js_to_string_throws (v : json) (e : JsError) {struct v} :
  js_to_string number_to_string v = Throw e -> e = cannot_convert.
Proof.
  destruct v as [| b | n | s | l | f]; cbn [js_to_string].
  - discriminate.
  - destruct b; discriminate.
  - discriminate.
  - discriminate.
  - set (text := fun x : json => match x with
                                  | JNull => Ok EmptyString
                                  | _ => js_to_string number_to_string x
                                  end).
    assert (Hjoin : forall e',
               in_turn (map text l) = Throw e' -> e' = cannot_convert).
    { induction l as [| x l IH]; intros e'; cbn [map in_turn];
        [discriminate |].
      destruct (text x) as [t | e0] eqn:Hx.
      - destruct (in_turn (map text l)) as [ss | e1]; [discriminate |].
        intros H. inversion H; subst e1. apply IH. reflexivity.
      - intros H. inversion H; subst e0.
        apply (js_to_string_throws x e').
        subst text. destruct x; first [discriminate Hx | exact Hx]. }
    destruct (in_turn (map text l)) as [ss | e1]; [discriminate |].
    intros H. inversion H; subst e1. apply Hjoin. reflexivity.
  - destruct (obj_get "toString" f); [| discriminate].
    intros H. inversion H. reflexivity.
Qed.

(** [Card] on a product the backend delivers: the card, or the error of
    the conversion when one of the six values has no text. *)
Lemma Card_run (net : Network) (productId : string)
    (isAdmin : option json) (w : World) (r : Response)
    (product_response : json) :
  net (JsonService.request_of (JsonService.OpGetProductById productId) w)
    = Responded r ->
  ok r = true ->
  body r = Some product_response ->
  product_response <> JNull ->
  Card number_to_string net productId isAdmin w
  = (match card_of number_to_string
             match isAdmin with Some v => v | None => JBool false end
             product_response with
     | Some markup => Ok markup
     | None => Throw cannot_convert
     end,
     add_request
       (JsonService.request_of (JsonService.OpGetProductById productId) w)
       w).
Proof.
  cbn [JsonService.request_of]. intros Hnet Hok Hbody Hnn.
  unfold Card, JsonService.getProductById, js_prop. run.
  rewrite Hnet, Hok, Hbody. cbn [negb].
  unfold card_of, interpolate, printed. cbv [lift ret bind].
  set (flag := js_truthy _).
  destruct product_response as [| b | n | s | l | f]; [contradiction | | | | |];
    cbn [js_field];
    repeat match goal with
           | |- context [obj_get ?k f] =>
               let v := fresh "v" in
               let o := fresh "o" in
               destruct (obj_get k f) as [v |];
               [destruct (js_to_string number_to_string v) as [o | o] eqn:?
               |]
           end;
    destruct flag; try reflexivity;
    repeat match goal with
           | H : js_to_string _ _ = Throw _ |- _ =>
               apply js_to_string_throws in H; subst
           end;
    reflexivity.
Qed.

End Run.

(** The flag of [menuView] is truthy exactly for a stored session object
    whose role is the string [admin]. *)
Lemma menu_isAdmin_truthy (w : World) :
  js_truthy (Some (menu_isAdmin w)) = true <->
  exists f, localStorage w !! "activeUser" = Some (JsonText (JObj f)) /\
            obj_get "role" f = Some (JStr "admin").
Proof.
  unfold menu_isAdmin, Auth.getCurrentUser.
  destruct (localStorage w !! "activeUser") as [[v | s] |] eqn:Hcell.
  - destruct (js_truthy (Some v)) eqn:Hv.
    + destruct v as [| b | n | s | l | f]; cbn [js_field js_strict_eq_str js_truthy];
        try (split; [discriminate | intros (f' & Hf & _); discriminate]).
      destruct (obj_get "role" f) as [[| b | n | s | l | g] |] eqn:Hrole;
        try (split; [discriminate | intros (f' & Hf & Hr); congruence]).
      split.
      * intros H. apply String.eqb_eq in H. subst s. exists f. auto.
      * intros (f' & Hf & Hr). inversion Hf; subst f'.
        rewrite Hrole in Hr. inversion Hr. apply String.eqb_refl.
    + rewrite Hv. split; [discriminate |].
      intros (f & Hf & _). inversion Hf; subst v. discriminate.
  - simpl. split; [discriminate | intros (f & Hf & _); discriminate].
  - simpl. split; [discriminate | intros (f & Hf & _); discriminate].
Qed.

Lemma header_add_product (isAdmin : json) :
  includes add_product_control (menu_header_markup isAdmin) = true <->
  js_truthy (Some isAdmin) = true.
Proof.
  unfold menu_header_markup.
  destruct (js_truthy (Some isAdmin)); vm_compute; split; congruence.
Qed.

End CardFacts.

Module CardClaims.

Import CardFacts Examples.

(** C5.  [Card] at the failing input: a product whose description holds
    the markup of the admin controls, and a flag that is false.  The card
    interpolates the texts of the product as they are, so its markup has
    the Edit and the Delete control although the viewer is no admin. *)
Lemma forged_card_shows_controls_without_admin :
  match Card number_text net_forged "p666" (Some (JBool false)) world0 with
  | (Ok markup, _) =>
      includes edit_control markup = true /\
      includes delete_control markup = true
  | (Throw _, _) => False
  end.
Proof. vm_compute. split; reflexivity. Qed.

(** An ordinary product: the card of the burger has the controls for a
    flag that is true and has none for a flag that is false. *)
Lemma burger_card_controls_follow_flag :
  match Card number_text net_burger "p001" (Some (JBool false)) world0,
        Card number_text net_burger "p001" (Some (JBool true)) world0 with
  | (Ok visitor, _), (Ok admin, _) =>
      includes edit_control visitor = false /\
      includes delete_control visitor = false /\
      includes edit_control admin = true /\
      includes delete_control admin = true
  | _, _ => False
  end.
Proof. vm_compute. repeat split. Qed.

End CardClaims.

(** *** The cart of menu.js *)

Module MenuFacts.

Import Menu.

Lemma item_roundtrip (it : CartItem) : item_of_json (item_json it) = Some it.
Proof. destruct it as [[i n p c g d s] q]. reflexivity. Qed.

Lemma items_roundtrip (c : list CartItem) :
  items_of_json (map item_json c) = Some c.
Proof.
  induction c as [| it c IH]; [reflexivity |].
  cbn [map items_of_json]. rewrite item_roundtrip, IH. reflexivity.
Qed.

(** What [saveCartToStorage] wrote is what [loadCartFromStorage] reads. *)
Lemma load_save (st : MenuState) (w : World) :
  loadCartFromStorage (saveCartToStorage st w) = cart st.
Proof.
  unfold loadCartFromStorage, saveCartToStorage, cart_json. simpl.
  rewrite lookup_insert_eq. rewrite items_roundtrip. reflexivity.
Qed.

Lemma updateSidebarUI_cart (st : MenuState) (w : World) :
  cart (fst (updateSidebarUI st w)) = cart st /\
  snd (updateSidebarUI st w) = saveCartToStorage st w.
Proof. unfold updateSidebarUI. simpl. split; reflexivity. Qed.

Lemma inv_update (st : MenuState) (w : World) :
  quantities_ok (cart st) -> cart_inv (updateSidebarUI st w).
Proof.
  intros H. unfold cart_inv.
  destruct (updateSidebarUI_cart st w) as [Hc Hw].
  rewrite Hc, Hw, load_save. split; exact H.
Qed.

Lemma quantities_ok_alter_add (c : list CartItem) (i : nat) :
  quantities_ok c -> quantities_ok (alter (add_quantity 1) i c).
Proof.
  intros H. apply Forall_alter; [exact H |].
  intros x _ Hx. simpl. lia.
Qed.

Lemma createOrder_storage (net : Network) (data : list (string * json))
    (w : World) :
  localStorage (snd (JsonService.createOrder net data w)) = localStorage w.
Proof.
  unfold JsonService.createOrder. run.
  destruct (net _) as [e | r]; [reflexivity |].
  destruct (ok r); simpl; [| reflexivity].
  destruct (body r); reflexivity.
Qed.

Lemma load_same_storage (w w' : World) :
  localStorage w' = localStorage w ->
  loadCartFromStorage w' = loadCartFromStorage w.
Proof. unfold loadCartFromStorage. intros ->. reflexivity. Qed.

Lemma inv_settle (originalText : string) (r : Result json)
    (st : MenuState) (w : World) :
  cart_inv (st, w) -> cart_inv (handleConfirmOrder_settle originalText r st w).
Proof.
  intros [Hc Hw]. unfold handleConfirmOrder_settle.
  destruct r as [order | error].
  - pose proof (inv_update (set_cart [] st) w (Forall_nil_2 _)) as Hi.
    unfold cart_inv in *.
    destruct (updateSidebarUI (set_cart [] st) w) as [st' w'].
    exact Hi.
  - split; assumption.
Qed.

Lemma inv_handleConfirmOrder (net : Network) (st : MenuState) (w : World) :
  cart_inv (st, w) -> cart_inv (handleConfirmOrder net st w).
Proof.
  intros [Hc Hw]. unfold handleConfirmOrder.
  destruct (cart st) as [| it c] eqn:Hcart.
  - split; simpl; [exact Hc | exact Hw].
  - destruct (js_truthy _); cbn [negb].
    + pose proof (createOrder_storage net
                    (orderData (Auth.getCurrentUser w) (it :: c)) w) as Hs.
      destruct (JsonService.createOrder net _ w) as [r w'].
      apply inv_settle. split; simpl in *.
      * exact Hc.
      * rewrite (load_same_storage _ _ Hs). exact Hw.
    + split; simpl; [exact Hc | exact Hw].
Qed.

Lemma inv_handleConfirmOrder_begin (st : MenuState) (w : World) :
  cart_inv (st, w) -> cart_inv (handleConfirmOrder_begin st w).
Proof.
  intros [Hc Hw]. unfold handleConfirmOrder_begin.
  destruct (cart st) as [| it c] eqn:Hcart.
  - split; simpl; [exact Hc | exact Hw].
  - destruct (js_truthy _); cbn [negb]; split; simpl; assumption.
Qed.

Lemma inv_addToCart (productId : string) (st : MenuState) (w : World) :
  cart_inv (st, w) -> cart_inv (addToCart productId st w).
Proof.
  intros [Hc Hw]. unfold addToCart.
  destruct (find _ (allProducts st)) as [p |]; [| split; assumption].
  apply inv_update. simpl.
  destruct (findIndex productId (cart st)) as [i |].
  - apply quantities_ok_alter_add. exact Hc.
  - apply Forall_app. split; [exact Hc |].
    apply Forall_singleton. simpl. lia.
Qed.

Lemma inv_sidebar_click (net : Network) (target : Target)
    (st : MenuState) (w : World) :
  cart_inv (st, w) -> cart_inv (sidebar_click net target st w).
Proof.
  intros Hinv. pose proof Hinv as [Hc Hw]. simpl in Hc, Hw.
  unfold sidebar_click.
  assert (Hgeneral :
    cart_inv (if String.eqb (target_id target) "clearCartBtn"
              then updateSidebarUI (set_cart [] st) w
              else if String.eqb (target_id target) "confirmOrderBtn"
                   then handleConfirmOrder net st w
                   else (st, w))).
  { destruct (String.eqb (target_id target) "clearCartBtn").
    - apply inv_update. constructor.
    - destruct (String.eqb (target_id target) "confirmOrderBtn");
        [apply inv_handleConfirmOrder |]; exact Hinv. }
  destruct (data_id target) as [[| ch id] |]; try exact Hgeneral.
  destruct (findIndex _ (cart st)) as [i |]; [| exact Hinv].
  apply inv_update. simpl.
  destruct (has_class "increase" target).
  { apply quantities_ok_alter_add. exact Hc. }
  destruct (has_class "decrease" target).
  { destruct (cart st !! i) as [item |] eqn:Hi; [| exact Hc].
    destruct (1 <? quantity item)%Z eqn:Hq.
    - apply Forall_alter; [exact Hc |].
      intros x Hx _. simpl. rewrite Hi in Hx. inversion Hx; subst x.
      apply Z.ltb_lt in Hq. lia.
    - apply Forall_delete. exact Hc. }
  destruct (has_class "remove" target);
    [apply Forall_delete |]; exact Hc.
Qed.

Lemma inv_open_view (loaded : option (list Product)) (w : World) :
  quantities_ok (loadCartFromStorage w) -> cart_inv (open_view loaded w).
Proof.
  intros H. unfold open_view. destruct loaded as [ps |].
  - apply inv_update. exact H.
  - split; exact H.
Qed.

Lemma inv_step (net : Network) (ev : Event) (s : MenuState * World) :
  cart_inv s -> cart_inv (step net ev s).
Proof.
  destruct s as [st w]. intros Hinv. destruct ev; cbn [step].
  - apply inv_addToCart. exact Hinv.
  - apply inv_sidebar_click. exact Hinv.
  - destruct (btnDisabled st); [exact Hinv |].
    apply inv_handleConfirmOrder_begin. exact Hinv.
  - destruct (btnDisabled st); [| exact Hinv].
    apply inv_settle. exact Hinv.
  - destruct Hinv as [Hc Hw]. split; [exact Hc |]. cbn [fst snd] in *.
    destruct r as [order | error]; cbn [stale_settle].
    + unfold loadCartFromStorage. cbn [localStorage set_localStorage].
      rewrite lookup_insert_eq. constructor.
    + exact Hw.
  - exact Hinv.
  - apply inv_open_view. exact (proj2 Hinv).
Qed.

Lemma reachable_inv (s : MenuState * World) : reachable s -> cart_inv s.
Proof.
  induction 1 as [loaded w Hnone | net ev s Hs IH].
  - apply inv_open_view. unfold loadCartFromStorage. rewrite Hnone.
    constructor.
  - apply inv_step. exact IH.
Qed.

Lemma fold_left_sum {A : Type} (f : A -> float) (l : list A) (a : float) :
  fold_left (fun sum x => PrimFloat.add sum (f x)) l a
  = fold_left PrimFloat.add (map f l) a.
Proof.
  revert a. induction l as [| x l IH]; intros a; [reflexivity |].
  simpl. apply IH.
Qed.

End MenuFacts.

(** *** Claims on the cart and the checkout *)

Module MenuClaims.

Import Menu MenuFacts Examples.

(** C2.  Every reachable state of the cart, in memory and as stored, has
    a quantity of at least one on every line, whatever sequence of adding,
    increasing, decreasing, removing, clearing, checking out and reopening
    led to it; and decreasing a line whose quantity is one removes that
    line. *)
Theorem cart_quantities_stay_positive (s : MenuState * World) :
  reachable s ->
  quantities_ok (cart (fst s)) /\
  quantities_ok (loadCartFromStorage (snd s)) /\
  forall (net : Network) (target : Target) (id : string) (i : nat)
         (item : CartItem),
    data_id target = Some id -> id <> EmptyString ->
    has_class "increase" target = false ->
    has_class "decrease" target = true ->
    findIndex id (cart (fst s)) = Some i ->
    cart (fst s) !! i = Some item ->
    quantity item = 1%Z ->
    cart (fst (sidebar_click net target (fst s) (snd s)))
    = delete i (cart (fst s)).
Proof.
  intros Hr. destruct (reachable_inv s Hr) as [Hc Hw].
  split; [exact Hc | split; [exact Hw |]].
  intros net target id i item Hid Hne Hinc Hdec Hfind Hi Hq.
  unfold sidebar_click. rewrite Hid.
  destruct id as [| ch id]; [contradiction |].
  rewrite Hfind, Hinc, Hdec, Hi, Hq. reflexivity.
Qed.

Lemma one_burger_reachable : reachable one_burger.
Proof.
  unfold one_burger. apply reachable_step. apply reachable_open.
  reflexivity.
Defined.

Lemma cart_quantities_stay_positive_witness :
  quantities_ok (cart (fst one_burger)) /\
  quantities_ok (loadCartFromStorage (snd one_burger)) /\
  forall (net : Network) (target : Target) (id : string) (i : nat)
         (item : CartItem),
    data_id target = Some id -> id <> EmptyString ->
    has_class "increase" target = false ->
    has_class "decrease" target = true ->
    findIndex id (cart (fst one_burger)) = Some i ->
    cart (fst one_burger) !! i = Some item ->
    quantity item = 1%Z ->
    cart (fst (sidebar_click net target (fst one_burger) (snd one_burger)))
    = delete i (cart (fst one_burger)).
Proof.
  apply (cart_quantities_stay_positive one_burger).
  exact one_burger_reachable.
Defined.

(** The minus button on the single burger empties the cart. *)
Lemma minus_on_single_burger :
  cart (fst one_burger) = [mkItem classic_burger 1] /\
  cart (fst (sidebar_click net_burger minus_burger
               (fst one_burger) (snd one_burger))) = [].
Proof. split; vm_compute; reflexivity. Qed.

(** C4.  Confirming the order with an empty cart is rejected in the
    browser: no request is sent, the cart, the storage and everything
    else of the state stay as they are, and only the warning is shown.
    The same holds for the click on the button. *)
Theorem empty_cart_checkout_is_rejected
    (net : Network) (st : MenuState) (w : World) :
  cart st = [] ->
  handleConfirmOrder net st w
    = (set_message "Add items to cart first." "var(--color-warning)" st, w) /\
  requests (snd (handleConfirmOrder net st w)) = requests w /\
  cart (fst (handleConfirmOrder net st w)) = cart st /\
  forall target,
    data_id target = None -> target_id target = "confirmOrderBtn" ->
    sidebar_click net target st w = handleConfirmOrder net st w.
Proof.
  intros Hcart. unfold handleConfirmOrder. rewrite Hcart.
  split; [reflexivity | split; [reflexivity | split]].
  - simpl. exact Hcart.
  - intros target Hid Htid. unfold sidebar_click, handleConfirmOrder.
    rewrite Hid, Htid, Hcart. reflexivity.
Qed.

Lemma empty_cart_checkout_is_rejected_witness :
  handleConfirmOrder net_burger menu_empty world_ana
    = (set_message "Add items to cart first." "var(--color-warning)"
         menu_empty, world_ana) /\
  requests (snd (handleConfirmOrder net_burger menu_empty world_ana))
    = requests world_ana /\
  cart (fst (handleConfirmOrder net_burger menu_empty world_ana))
    = cart menu_empty /\
  forall target,
    data_id target = None -> target_id target = "confirmOrderBtn" ->
    sidebar_click net_burger target menu_empty world_ana
    = handleConfirmOrder net_burger menu_empty world_ana.
Proof.
  apply (empty_cart_checkout_is_rejected net_burger menu_empty world_ana).
  reflexivity.
Defined.

(** The click on "Confirm Order" with an empty cart. *)
Lemma confirm_click_on_empty_cart :
  sidebar_click net_burger confirm_button menu_empty world_ana
  = (set_message "Add items to cart first." "var(--color-warning)" menu_empty,
     world_ana).
Proof. reflexivity. Qed.

Lemma settle_requests (originalText : string) (r : Result json)
    (st : MenuState) (w : World) :
  requests (snd (handleConfirmOrder_settle originalText r st w)) = requests w.
Proof. destruct r; reflexivity. Qed.

Lemma createOrder_requests (net : Network) (data : list (string * json))
    (w : World) :
  requests (snd (JsonService.createOrder net data w))
  = (requests w
     ++ [JsonService.request_of (JsonService.OpCreateOrder data) w])%list.
Proof.
  unfold JsonService.createOrder. run. cbn [JsonService.request_of].
  destruct (net _) as [e | r]; [reflexivity |].
  destruct (ok r); simpl; [| reflexivity].
  destruct (body r); reflexivity.
Qed.

(** C8.  For a cart that is not empty and a logged-in user, the order
    sent at checkout has as [total] the sum, over the lines of the cart,
    of price times quantity, computed in the browser as the code computes
    it: in doubles, each product and each addition rounded, from [0] in
    the order of the cart.  It is the total the sidebar shows.  The
    [items] are the lines of the cart copied field by field: [productId],
    [name], [price] and [quantity]. *)
Theorem checkout_total_is_sum_of_lines
    (net : Network) (st : MenuState) (w : World) :
  cart st <> [] ->
  js_truthy (Some (Auth.getCurrentUser w)) = true ->
  exists fields,
    requests (snd (handleConfirmOrder net st w))
    = (requests w ++ [mkRequest POST API_URLS.ORDERS (Some (JObj fields))])%list /\
    obj_get "total" fields
    = Some (number_json (js_sum (map line_total (cart st)))) /\
    obj_get "items" fields
    = Some (JArr (map (fun item =>
                         JObj [("productId", JStr (p_id (product item)));
                               ("name", JStr (p_name (product item)));
                               ("price",
                                number_json
                                  (to_double (p_price (product item))));
                               ("quantity", JNum (inject_Z (quantity item)))])
                      (cart st))) /\
    js_sum (map line_total (cart st)) = snd (calculateCartTotals (cart st)).
Proof.
  intros Hne Huser.
  exists (obj_spread [("createdAt", JStr (now w))]
            (orderData (Auth.getCurrentUser w) (cart st))).
  split; [| split; [| split]].
  - unfold handleConfirmOrder.
    destruct (cart st) as [| it c] eqn:Hcart; [contradiction |].
    rewrite Huser. cbn [negb].
    pose proof (createOrder_requests net
                  (orderData (Auth.getCurrentUser w) (it :: c)) w) as Hq.
    destruct (JsonService.createOrder net _ w) as [r w'].
    rewrite settle_requests. exact Hq.
  - unfold orderData, order_total, js_sum.
    rewrite <- (fold_left_sum line_total).
    destruct (js_field "id" _), (js_field "name" _), (js_field "email" _);
      reflexivity.
  - unfold orderData.
    destruct (js_field "id" _), (js_field "name" _), (js_field "email" _);
      reflexivity.
  - unfold js_sum, calculateCartTotals. cbn [snd].
    rewrite <- (fold_left_sum line_total). reflexivity.
Qed.

Lemma checkout_total_is_sum_of_lines_witness :
  exists fields,
    requests (snd (handleConfirmOrder net_burger menu_two_lines world_ana))
    = (requests world_ana
       ++ [mkRequest POST API_URLS.ORDERS (Some (JObj fields))])%list /\
    obj_get "total" fields
    = Some (number_json (js_sum (map line_total (cart menu_two_lines)))) /\
    obj_get "items" fields
    = Some (JArr (map (fun item =>
                         JObj [("productId", JStr (p_id (product item)));
                               ("name", JStr (p_name (product item)));
                               ("price",
                                number_json
                                  (to_double (p_price (product item))));
                               ("quantity", JNum (inject_Z (quantity item)))])
                      (cart menu_two_lines))) /\
    js_sum (map line_total (cart menu_two_lines))
    = snd (calculateCartTotals (cart menu_two_lines)).
Proof.
  apply (checkout_total_is_sum_of_lines net_burger menu_two_lines world_ana).
  - discriminate.
  - reflexivity.
Defined.

(** Two burgers at 9 and one portion of fries at 3.5 make 21.5, and the
    order carries that number. *)
Lemma two_lines_total :
  js_sum (map line_total (cart menu_two_lines)) = 21.5%float /\
  number_json (js_sum (map line_total (cart menu_two_lines))) = JNum (43 # 2).
Proof. split; vm_compute; reflexivity. Qed.

(** The items of that order. *)
Lemma two_lines_items :
  map order_item (cart menu_two_lines)
  = [JObj [("productId", JStr "p001"); ("name", JStr "Classic Burger");
           ("price", JNum 9); ("quantity", JNum 2)];
     JObj [("productId", JStr "p002"); ("name", JStr "Fries");
           ("price", JNum (7 # 2)); ("quantity", JNum 1)]].
Proof. vm_compute. reflexivity. Qed.

(** A salad at 0.1 and a dip at 0.2 make 0.30000000000000004, the double
    next above the one of 0.3: the sum is the one of the doubles. *)
Lemma tenth_and_fifth_total :
  js_sum (map line_total (cart menu_small_change)) = 0x1.3333333333334p-2%float /\
  js_sum (map line_total (cart menu_small_change)) <> to_double (3 # 10) /\
  number_json (js_sum (map line_total (cart menu_small_change)))
  = JNum (7500000000000001 # 25000000000000000) /\
  Qeq (7500000000000001 # 25000000000000000)
      (30000000000000004 # 100000000000000000).
Proof.
  split; [vm_compute; reflexivity |].
  split; [| split; vm_compute; reflexivity].
  intros H. apply (f_equal Prim2SF) in H. vm_compute in H. discriminate H.
Qed.

(** C10.  When [createOrder] throws, the checkout leaves the cart in
    memory and the storage as they were; the checkout changes the cart
    only when [createOrder] has returned, and then to the empty cart,
    which it also stores.  The continuation that runs after the request
    has settled behaves so in whatever state it finds. *)
Theorem failed_checkout_keeps_cart
    (net : Network) (st : MenuState) (w : World) :
  let order := orderData (Auth.getCurrentUser w) (cart st) in
  (forall e w1,
      JsonService.createOrder net order w = (Throw e, w1) ->
      cart (fst (handleConfirmOrder net st w)) = cart st /\
      localStorage (snd (handleConfirmOrder net st w)) = localStorage w) /\
  (cart (fst (handleConfirmOrder net st w)) <> cart st ->
   exists created w1,
     JsonService.createOrder net order w = (Ok created, w1) /\
     cart (fst (handleConfirmOrder net st w)) = [] /\
     loadCartFromStorage (snd (handleConfirmOrder net st w)) = []) /\
  (forall originalText e st2 w2,
      cart (fst (handleConfirmOrder_settle originalText (Throw e) st2 w2))
        = cart st2 /\
      localStorage (snd (handleConfirmOrder_settle originalText (Throw e)
                          st2 w2)) = localStorage w2).
Proof.
  intros order. unfold handleConfirmOrder.
  split; [| split].
  - intros e w1 Hthrow.
    destruct (cart st) as [| it c] eqn:Hcart;
      [split; [exact Hcart | reflexivity] |].
    destruct (js_truthy _); cbn [negb];
      [| split; [exact Hcart | reflexivity]].
    subst order. rewrite Hthrow.
    pose proof (createOrder_storage net
                  (orderData (Auth.getCurrentUser w) (it :: c)) w) as Hs.
    rewrite Hthrow in Hs. split; [exact Hcart | exact Hs].
  - destruct (cart st) as [| it c] eqn:Hcart.
    { intros Hc. contradiction. }
    destruct (js_truthy _); cbn [negb].
    2:{ intros Hc. contradiction. }
    subst order.
    destruct (JsonService.createOrder net _ w) as [[created | e] w1].
    + intros _. exists created, w1. split; [reflexivity |].
      split; [reflexivity |].
      exact (load_save (set_cart [] (set_button "Processing..." true st))
               w1).
    + intros Hc. contradiction.
  - intros originalText e st2 w2. split; reflexivity.
Qed.

Lemma failed_checkout_keeps_cart_witness :
  cart (fst (handleConfirmOrder net_down menu_two_lines world_ana))
    = cart menu_two_lines /\
  localStorage (snd (handleConfirmOrder net_down menu_two_lines world_ana))
    = localStorage world_ana.
Proof.
  apply (proj1 (failed_checkout_keeps_cart net_down menu_two_lines world_ana)
           JsonService.orders_api_error
           (snd (JsonService.createOrder net_down
                   (orderData (Auth.getCurrentUser world_ana)
                      (cart menu_two_lines)) world_ana))).
  vm_compute. reflexivity.
Defined.

End MenuClaims.

(** *** Claims on the router *)

Module RouterFacts.

Import Router.

Lemma render_run (n : Node) (w : World) :
  exists nav, render n w = (Ok tt, set_app (fun _ => (nav ++ [n])%list) w).
Proof. unfold render, modify. eexists. reflexivity. Qed.

Lemma last_map_snoc (f : Node -> Node) (l : list Node) (n : Node) :
  last (map f (l ++ [n])) = Some (f n).
Proof. rewrite map_app. simpl. apply last_snoc. Qed.

Lemma renderError404_shows (w : World) :
  exists w', renderError404 w = (Ok tt, w') /\ shows_404 w'.
Proof.
  unfold renderError404. destruct (render_run error404 w) as [nav ->].
  eexists. split; [reflexivity |]. unfold shows_404. simpl.
  apply last_snoc.
Qed.

End RouterFacts.

Module RouterClaims.

Import Router RouterFacts Examples.

Section Routes.

Variables menuView LoginView RegisterView orderView AdminDashboardView
  : View.

Abbreviation table :=
  (routes menuView LoginView RegisterView orderView AdminDashboardView).
Abbreviation run :=
  (router menuView LoginView RegisterView orderView AdminDashboardView).

(** C6.  For a hash without an entry in the table, [router] runs
    [renderError404] and the page shows the "not found" view; for an
    entry whose view throws, it logs the error and does the same; for an
    entry whose view returns, it renders the content of the view and
    marks the link, [renderError404] is not run, and the view element
    of the page is that content. *)
Theorem router_falls_back_to_404 (w : World) :
  match table !! current_hash w with
  | None =>
      run w = renderError404 w /\ shows_404 (snd (run w))
  | Some viewFn =>
      match viewFn w with
      | (Throw error, w1) =>
          run w = renderError404 (add_console "Error loading view:" error w1)
          /\ shows_404 (snd (run w))
      | (Ok content, w1) =>
          run w = (render (content_node content);;
                   updateActiveNavLink (current_hash w)) w1 /\
          fst (run w) = Ok tt /\
          console (snd (run w)) = console w1 /\
          last (app (snd (run w)))
          = Some (mark_active (current_hash w) (content_node content))
      end
  end.
Proof.
  unfold router, current_hash. cbv [bind gets].
  destruct (routes _ _ _ _ _ !! _) as [viewFn |].
  - unfold try_catch.
    destruct (viewFn w) as [[content | error] w1].
    + destruct (render_run (content_node content) w1) as [nav Hr].
      assert (Hsame :
        match content with
        | HtmlString s => render (Element "div" [] s)
        | DomNode n => render n
        end = render (content_node content))
        by (destruct content; reflexivity).
      rewrite Hsame, Hr. unfold updateActiveNavLink, modify.
      repeat split. simpl. apply last_map_snoc.
    + unfold console_error, modify.
      destruct (renderError404_shows
                  (add_console "Error loading view:" error w1))
        as (w' & -> & Hshow).
      split; [reflexivity | exact Hshow].
  - destruct (renderError404_shows w) as (w' & -> & Hshow).
    split; [reflexivity | exact Hshow].
Qed.

End Routes.

(** A hash that is not in the table. *)
Lemma unknown_hash_shows_404 :
  shows_404 (snd (router view_ok view_ok view_ok view_ok view_ok
                    (at_hash "#cart"))).
Proof. vm_compute. reflexivity. Qed.

(** A view that throws. *)
Lemma broken_view_shows_404 :
  shows_404 (snd (router view_ok view_ok view_ok view_broken view_ok
                    (at_hash "#orders"))).
Proof. vm_compute. reflexivity. Qed.

(** A view that returns: the navigation header with the link of the hash
    marked, then the element of the view. *)
Lemma menu_view_is_rendered :
  app (snd (router view_ok view_ok view_ok view_broken view_ok
              (at_hash "#menu")))
  = [NavbarHeader [mkNavLink (Some "#menu") true;
                   mkNavLink (Some "#orders") false;
                   mkNavLink (Some "#profile") false;
                   mkNavLink (Some "#dashboard") false;
                   mkNavLink None false];
     Element "main" ["layout"] "<h1>Our Menu</h1>"].
Proof. vm_compute. reflexivity. Qed.

End RouterClaims.

(** * Further properties *)

(** ** Sessions: authService.js with its users *)

Module SessionProps.

Import AuthGuards AuthFacts.

(** X1.  The five places that decide whether the user is an administrator
    agree: [isAdmin()], the flag of [menuView], the Admin link of the
    navigation header, [requireAdmin()] and the guard of
    [AdminDashboardView].  A user who fails the check is sent to [#menu],
    by an exception in [requireAdmin] and by the "no autorizado" element in
    the dashboard view; an administrator is always authenticated. *)
Theorem admin_checks_agree (dashboard_body : json -> M Node) (w : World) :
  js_truthy (Some (menu_isAdmin w)) = isAdmin w /\
  (In (Some "#dashboard") (nav_hrefs (Router.Navbar w)) <-> isAdmin w = true) /\
  requireAdmin w
  = (if isAdmin w then (Ok tt, w)
     else (Throw (Error "Acceso no autorizado. Sólo admin."),
           set_location_hash "#menu" w)) /\
  Views.AdminDashboardView dashboard_body w
  = (if isAdmin w
     then (main <- dashboard_body (Auth.getCurrentUser w);;
           ret (Router.DomNode main)) w
     else (Ok (Router.DomNode Views.access_denied),
           set_location_hash "#menu" w)) /\
  (isAdmin w = true -> isAuthenticated w = true).
Proof.
  unfold isAdmin, isAuthenticated, menu_isAdmin, requireAdmin,
    Views.AdminDashboardView, Router.Navbar.
  cbv [bind gets modify ret throw].
  set (user := Auth.getCurrentUser w).
  destruct (js_truthy (Some user)) eqn:Ht;
    destruct (js_strict_eq_str (js_field "role" (Some user)) "admin") eqn:Hr;
    cbn [andb orb negb nav_hrefs]; rewrite ?Ht;
    repeat split; try reflexivity; try discriminate; try tauto;
    try (intros _; simpl; tauto);
    try (simpl; intuition discriminate).
Qed.

(** X2.  [logout()] removes the session and nothing else: afterwards
    there is no current user, [requireAuth()] throws, the hash is
    [#login], no request was sent, and every other cell of the storage,
    the shopping cart among them, is what it was. *)
Theorem logout_ends_session_keeps_cart (w : World) :
  exists w',
    Auth.logout w = (Ok tt, w') /\
    Auth.getCurrentUser w' = JNull /\
    isAuthenticated w' = false /\
    isAdmin w' = false /\
    fst (requireAuth w') = Throw (Error "Usuario no autenticado") /\
    location_hash w' = "#login" /\
    requests w' = requests w /\
    (forall k, k <> "activeUser" -> localStorage w' !! k = localStorage w !! k) /\
    Menu.loadCartFromStorage w' = Menu.loadCartFromStorage w.
Proof.
  eexists. split; [reflexivity |].
  assert (Hnone : Auth.getCurrentUser
            (set_location_hash "#login"
               (set_localStorage (delete "activeUser") w)) = JNull).
  { unfold Auth.getCurrentUser. simpl. rewrite lookup_delete_eq. reflexivity. }
  unfold isAuthenticated, isAdmin, requireAuth, isAuthenticated.
  cbv [bind gets].
  rewrite Hnone. repeat split.
  - intros k Hk. simpl. apply lookup_delete_ne. congruence.
  - unfold Menu.loadCartFromStorage. simpl.
    rewrite lookup_delete_ne by discriminate. reflexivity.
Qed.


(** X4.  Whatever the network does, [login] sends exactly one request, the
    lookup, and leaves the hash alone.  A rejected request, a response that
    is not 2xx and a body that is not JSON all give the same generic
    message; an empty array gives "Usuario no encontrado"; a first record
    with another password gives "Contraseña incorrecta" and no log entry. *)
Theorem login_outcome_by_cause
    (net : Network) (email password : string) (w : World) :
  exists res w',
    Auth.login net email password w = (Ok res, w') /\
    requests w' = (requests w ++ [users_query email])%list /\
    location_hash w' = location_hash w /\
    match net (users_query email) with
    | Rejected e =>
        res = Auth.Failure unexpected_error /\
        console w' = (console w ++ [("Login error:", e)])%list
    | Responded r =>
        if ok r
        then
          match body r with
          | None => res = Auth.Failure unexpected_error
          | Some (JArr []) =>
              res = Auth.Failure "Usuario no encontrado" /\
              console w' = console w
          | Some (JArr (JObj f :: _)) =>
              if js_strict_eq_str (obj_get "password" f) password
              then res = Auth.Success (JObj (obj_delete "password" f))
              else res = Auth.Failure "Contraseña incorrecta" /\
                   console w' = console w /\
                   localStorage w' = localStorage w
          | Some _ => True
          end
        else
          res = Auth.Failure unexpected_error /\
          console w'
          = (console w
             ++ [("Login error:", Error "Error de conexión con el servidor")])%list
    end.
Proof.
  unfold Auth.login. run. fold (users_query email).
  destruct (net (users_query email)) as [e | r].
  { eexists _, _. repeat split. }
  destruct (ok r); cbn [negb].
  2:{ eexists _, _. repeat split. }
  destruct (body r) as [users |].
  2:{ eexists _, _. repeat split. }
  destruct (Auth.js_first users _) as [[ou | e] w1] eqn:Hfirst.
  - assert (Hw1 : w1 = add_request (users_query email) w).
    { destruct users as [| b | n | [| c t] | l | f]; simpl in Hfirst;
        cbv [ret throw] in Hfirst; congruence. }
    subst w1.
    destruct users as [| b | n | t | [| [| b | n | t | l | f] l'] | f];
      simpl in Hfirst; cbv [ret throw] in Hfirst;
      try (destruct (js_truthy ou); cbn [negb];
           [destruct (js_strict_eq_str _ _); cbn [negb] |];
           eexists _, _; repeat split; fail).
    + inversion Hfirst; subst ou. eexists _, _. repeat split.
    + inversion Hfirst; subst ou. cbn [js_truthy negb js_field].
      destruct (js_strict_eq_str (obj_get "password" f) password);
        cbn [negb]; eexists _, _; repeat split.
  - destruct users as [| b | n | [| c t] | l | f]; simpl in Hfirst;
      cbv [ret throw] in Hfirst; inversion Hfirst; subst.
    eexists _, _. repeat split.
Qed.

Section Register.

Variable number_to_string : Q -> string.
Variable string_to_number : string -> float.

Abbreviation register := (Auth.register number_to_string string_to_number).
Abbreviation js_length_positive :=
  (Auth.js_length_positive number_to_string string_to_number).

Lemma register_returns (net : Network) (userData : Auth.UserData) (w : World) :
  exists res w', register net userData w = (Ok res, w').
Proof.
  unfold Auth.register. run.
  destruct (net _) as [e | r]; [eauto |].
  destruct (body r) as [v |]; [| eauto].
  destruct (js_length_positive v _) as [[[|] | e] w1]; [eauto | | eauto].
  destruct (net _) as [e | r2]; [eauto |].
  destruct (ok r2); cbn [negb]; [| eauto].
  destruct (body r2); eauto.
Qed.

Lemma js_length_positive_world (v : json) (w : World) :
  snd (js_length_positive v w) = w.
Proof.
  destruct v as [| b | n | t | l | f]; reflexivity.
Qed.

Lemma register_storage (net : Network) (userData : Auth.UserData)
    (w : World) :
  localStorage (snd (register net userData w)) = localStorage w.
Proof.
  unfold Auth.register. run.
  destruct (net _) as [e | r]; [reflexivity |].
  destruct (body r) as [v |]; [| reflexivity].
  match goal with
  | |- context [js_length_positive v ?w0] =>
      pose proof (js_length_positive_world v w0) as Hw1;
      destruct (js_length_positive v w0) as [[[|] | e] w1]
  end; simpl in Hw1; subst w1; try reflexivity.
  destruct (net _) as [e | r2]; [reflexivity |].
  destruct (ok r2); cbn [negb]; [| reflexivity].
  destruct (body r2); reflexivity.
Qed.

(** X5.  [register] never writes the storage and never moves the hash: a
    registration does not log the user in.  It sends the lookup, and the
    POST of the user exactly when [existingUsers.length > 0] is false for
    the body of the lookup, whatever the status of that response is; when
    the body is not JSON, or the comparison throws, the lookup is all it
    sends and the answer is a failure.  The answer is a success exactly
    when the POST is answered 2xx with a JSON body, which is then the user
    of the answer. *)
Theorem register_posts_iff_lookup_is_empty
    (net : Network) (userData : Auth.UserData) (w : World) :
  let lookup := users_query (Auth.ud_email userData) in
  exists res w',
    Auth.register number_to_string string_to_number net userData w
    = (Ok res, w') /\
    localStorage w' = localStorage w /\
    location_hash w' = location_hash w /\
    match net lookup with
    | Responded r =>
        match body r with
        | Some existingUsers =>
            match fst (Auth.js_length_positive number_to_string
                         string_to_number existingUsers w) with
            | Ok false =>
                requests w' = (requests w ++ [lookup; users_post userData])%list /\
                match net (users_post userData) with
                | Responded created =>
                    if ok created
                    then
                      match body created with
                      | Some newUser => res = Auth.Success newUser
                      | None => exists error, res = Auth.Failure error
                      end
                    else res = Auth.Failure "No se pudo crear el usuario"
                | Rejected e =>
                    res = Auth.Failure (message_or "Error al registrar usuario" e)
                end
            | Ok true =>
                requests w' = (requests w ++ [lookup])%list /\
                res = Auth.Failure "El correo electrónico ya está registrado"
            | Throw _ =>
                requests w' = (requests w ++ [lookup])%list /\
                exists error, res = Auth.Failure error
            end
        | None =>
            requests w' = (requests w ++ [lookup])%list /\
            exists error, res = Auth.Failure error
        end
    | Rejected e =>
        requests w' = (requests w ++ [lookup])%list /\
        res = Auth.Failure (message_or "Error al registrar usuario" e)
    end.
Proof.
  intros lookup. subst lookup.
  unfold Auth.register, users_post, message_or. run.
  fold (users_query (Auth.ud_email userData)).
  set (lookup := users_query (Auth.ud_email userData)).
  destruct (net lookup) as [e | r].
  { eexists _, _. repeat split. }
  destruct (body r) as [v |].
  2:{ eexists _, _. repeat split. eexists. reflexivity. }
  pose proof (js_length_positive_world v (add_request lookup w)) as Hw1.
  assert (Hsame : fst (js_length_positive v w)
                  = fst (js_length_positive v (add_request lookup w))).
  { destruct v as [| b | n | t | l | f]; reflexivity. }
  rewrite Hsame.
  destruct (js_length_positive v (add_request lookup w))
    as [[[|] | e] w1]; simpl in Hw1; subst w1; cbn [fst].
  - eexists _, _. repeat split.
  - destruct (net _) as [e | created].
    { eexists _, _. repeat split. simpl. rewrite <- app_assoc. reflexivity. }
    destruct (ok created); cbn [negb].
    + destruct (body created) as [newUser |];
        eexists _, _; repeat split;
        try (simpl; rewrite <- app_assoc; reflexivity).
      eexists. reflexivity.
    + eexists _, _. repeat split. simpl. rewrite <- app_assoc. reflexivity.
  - eexists _, _. repeat split. eexists. reflexivity.
Qed.

End Register.

(** A lookup answered with [{ "length": "1" }]: the text converts to the
    number one, the email counts as taken, and nothing is posted. *)
Lemma length_text_counts :
  Auth.register Examples.number_text Examples.text_number
    Examples.net_length_text Examples.ana_again Examples.world0
  = (Ok (Auth.Failure "El correo electrónico ya está registrado"),
     add_request (users_query "ana@rest.io") Examples.world0).
Proof. vm_compute. reflexivity. Qed.

End SessionProps.

(** ** The registration form *)

Module RegisterProps.

Import RegisterForm SessionProps.

Section Form.

Variable number_to_string : Q -> string.
Variable string_to_number : string -> float.

Abbreviation register_of_form :=
  (Auth.register number_to_string string_to_number).

Lemma register_failure_message (net : Network) (userData : Auth.UserData)
    (w w' : World) (error : string) :
  register_of_form net userData w = (Ok (Auth.Failure error), w') ->
  is_empty error = false.
Proof.
  unfold Auth.register, is_empty. run.
  assert (Hm : forall e : JsError,
             String.eqb (if String.eqb (err_message e) EmptyString
                         then "Error al registrar usuario"
                         else err_message e) EmptyString = false).
  { intros e. destruct (String.eqb (err_message e) EmptyString) eqn:E;
      [reflexivity | exact E]. }
  destruct (net _) as [e | r].
  { intros H; inversion H; first [apply Hm | reflexivity]. }
  destruct (body r) as [v |].
  2:{ intros H; inversion H; first [apply Hm | reflexivity]. }
  destruct (Auth.js_length_positive _ _ v _) as [[[|] | e] w1].
  - intros H. inversion H. reflexivity.
  - destruct (net _) as [e | r2].
    { intros H; inversion H; first [apply Hm | reflexivity]. }
    destruct (ok r2); cbn [negb].
    + destruct (body r2); intros H; inversion H; first [apply Hm | reflexivity].
    + intros H; inversion H; first [apply Hm | reflexivity].
  - intros H; inversion H; first [apply Hm | reflexivity].
Qed.

(** X6.  The submit handler of the registration form.  A form with an
    empty name, email (both after trimming), password or confirmation, or
    with two different passwords, only shows a message: the browser state
    is untouched and no request is sent.  A valid form is handed to
    [register]; on success the hash becomes [#login] and the error
    paragraph is left as it is, on failure the paragraph shows exactly the
    error of [register], so the two fallback texts of the handler never
    appear.  In no case is a session stored. *)
Theorem register_form_outcome
    (trim : string -> string) (net : Network) (form : Form)
    (errorParagraph : ErrorParagraph) (w : World) :
  let result :=
    submit number_to_string string_to_number trim net form errorParagraph w in
  localStorage (snd result) = localStorage w /\
  if valid_form trim form
  then
    exists res w1,
      Auth.register number_to_string string_to_number net
        (form_data trim form) w = (Ok res, w1) /\
      match res with
      | Auth.Success _ =>
          result = (errorParagraph, set_location_hash "#login" w1)
      | Auth.Failure error => result = (show_error error, w1)
      end
  else
    snd result = w /\
    display (fst result) = "block" /\
    (textContent (fst result) = "Please fill in all fields."
     \/ textContent (fst result) = "Passwords do not match.").
Proof.
  unfold valid_form, form_data, submit. cbv zeta.
  destruct (is_empty (trim (name_value form))
            || is_empty (trim (email_value form))
            || is_empty (password_value form)
            || is_empty (confirm_value form)); cbn [negb andb].
  { repeat split. left. reflexivity. }
  destruct (String.eqb (password_value form) (confirm_value form));
    cbn [negb].
  2:{ repeat split. right. reflexivity. }
  set (ud := Auth.mkUserData _ _ _ _).
  destruct (register_returns number_to_string string_to_number net ud w) as (res & w1 & Hrun).
  pose proof (register_storage number_to_string string_to_number net ud w) as Hstore.
  rewrite Hrun in Hstore. cbn [snd] in Hstore.
  cbv [bind modify throw]. rewrite Hrun.
  destruct res as [user | error].
  - split; [exact Hstore |]. exists (Auth.Success user), w1.
    split; reflexivity.
  - pose proof (register_failure_message _ _ _ _ _ Hrun) as Hne.
    rewrite Hne. simpl. rewrite Hne.
    split; [exact Hstore |]. exists (Auth.Failure error), w1.
    split; reflexivity.
Qed.

End Form.

End RegisterProps.

(** ** The calls of jsonService.js *)

Module ServiceProps.

Import JsonService Calls.

Lemma map_ids_spec (l : list json) (w : World) :
  JsonService.map_ids l w
  = (if existsb is_null l
     then Throw (TypeError "Cannot read properties of null")
     else Ok (map (fun product => js_field "id" (Some product)) l), w).
Proof.
  induction l as [| x l IH]; [reflexivity |].
  destruct x as [| b | n | t | items | f]; try reflexivity;
    cbn [map_ids existsb is_null orb]; cbv [bind ret]; rewrite IH;
    destruct (existsb is_null l); reflexivity.
Qed.

(** X7.  Every method of [JsonService] hands exactly one request to
    [fetch], whatever the answer, and touches neither the storage, nor the
    hash, nor the page. *)
Theorem one_request_per_call (net : Network) (op : Operation) (w : World) :
  requests (world_after net op w) = (requests w ++ [request_of op w])%list /\
  localStorage (world_after net op w) = localStorage w /\
  location_hash (world_after net op w) = location_hash w /\
  app (world_after net op w) = app w.
Proof.
  destruct op; cbn [world_after request_of];
    unfold getProductsIDs, getProducts, getProductById, createProduct,
      deleteProduct, updateProduct, createOrder, getOrderById;
    run;
    (destruct (net _) as [e | r]; [repeat split |]);
    (destruct (ok r); cbn [negb]; [| repeat split]);
    try (destruct (body r) as [v |]; [| repeat split]);
    try (repeat split; fail).
  destruct v as [| b | n | t | l | f]; try (repeat split; fail).
  rewrite map_ids_spec. destruct (existsb is_null l); repeat split.
Qed.

(** X8.  A response with a 2xx status: a JSON body is what the method
    returns, and nothing is logged; [deleteProduct] returns [true] without
    reading the body.  A body that is not JSON is a third cause of
    failure: the wrapping methods throw their fixed error for it too,
    [getOrderById] rethrows the syntax error. *)
Theorem answers_of_a_2xx_response
    (net : Network) (op : Operation) (w : World) (r : Response) :
  net (request_of op w) = Responded r ->
  ok r = true ->
  let w' := add_request (request_of op w) w in
  match op, body r with
  | OpDeleteProduct id, _ => deleteProduct net id w = (Ok true, w')
  | OpGetProductsIDs, _ => True
  | OpGetProducts, Some v => getProducts net w = (Ok v, w')
  | OpGetProductById productId, Some v =>
      getProductById net productId w = (Ok v, w')
  | OpCreateProduct product, Some v => createProduct net product w = (Ok v, w')
  | OpUpdateProduct productId updates, Some v =>
      updateProduct net productId updates w = (Ok v, w')
  | OpCreateOrder orderData, Some v => createOrder net orderData w = (Ok v, w')
  | OpGetOrderById orderId, Some v => getOrderById net orderId w = (Ok v, w')
  | OpGetOrderById orderId, None =>
      failure net op w = Some (SyntaxError "Unexpected token in JSON")
  | _, None => failure net op w = Some (generic_error op)
  end.
Proof.
  intros Hnet Hok w'. subst w'.
  destruct op; cbn [request_of] in Hnet |- *; cbn [failure];
    unfold getProducts, getProductById, createProduct, deleteProduct,
      updateProduct, createOrder, getOrderById;
    run; rewrite ?Hnet, ?Hok; cbn [negb];
    try exact I; try reflexivity;
    destruct (body r); reflexivity.
Qed.

(** X9.  [getProductsIDs] on a 2xx response: an array without [null]
    yields the [id] of each element, in order, [undefined] where there is
    none; an array with a [null] in it, or a body that is not an array,
    yields the fixed error of the products. *)
Theorem product_ids_of_a_response
    (net : Network) (w : World) (r : Response) (v : json) :
  net (request_of OpGetProductsIDs w) = Responded r ->
  ok r = true ->
  body r = Some v ->
  match v with
  | JArr l =>
      if existsb is_null l
      then fst (getProductsIDs net w) = Throw products_api_error
      else getProductsIDs net w
           = (Ok (map (fun product => js_field "id" (Some product)) l),
              add_request (request_of OpGetProductsIDs w) w)
  | _ => fst (getProductsIDs net w) = Throw products_api_error
  end.
Proof.
  cbn [request_of]. intros Hnet Hok Hbody.
  unfold getProductsIDs, getProducts. run. rewrite Hnet, Hok, Hbody.
  cbn [negb].
  destruct v as [| b | n | t | l | f]; try reflexivity.
  rewrite map_ids_spec. destruct (existsb is_null l); reflexivity.
Qed.

Lemma obj_get_set (k j : string) (v : json) (f : list (string * json)) :
  obj_get j (obj_set k v f)
  = if String.eqb j k then Some v else obj_get j f.
Proof.
  induction f as [| [k' v'] f IH]; cbn [obj_set obj_get].
  - destruct (String.eqb j k); reflexivity.
  - destruct (String.eqb k k') eqn:Ek; cbn [obj_get].
    + apply String.eqb_eq in Ek. subst k'.
      destruct (String.eqb j k); reflexivity.
    + rewrite IH. destruct (String.eqb j k') eqn:Ej; [| reflexivity].
      apply String.eqb_eq in Ej. subst k'.
      rewrite String.eqb_sym, Ek. reflexivity.
Qed.

Lemma obj_get_None_notin (j : string) (f : list (string * json)) :
  ~ In j (map fst f) -> obj_get j f = None.
Proof.
  induction f as [| [k v] f IH]; [reflexivity |].
  cbn [map fst In obj_get]. intros H.
  destruct (String.eqb j k) eqn:E.
  - apply String.eqb_eq in E. subst k. exfalso. apply H. left. reflexivity.
  - apply IH. intros Hin. apply H. right. exact Hin.
Qed.

(** The fields of a spread: those of the second object win. *)
Lemma obj_get_spread (j : string) (a b : list (string * json)) :
  NoDup (map fst b) ->
  obj_get j (obj_spread a b)
  = match obj_get j b with
    | Some v => Some v
    | None => obj_get j a
    end.
Proof.
  unfold obj_spread. revert a.
  induction b as [| [k v] b IH]; intros a Hnd; [reflexivity |].
  cbn [map fst] in Hnd. apply NoDup_cons in Hnd. destruct Hnd as [Hk Hnd].
  cbn [fold_left fst snd obj_get]. rewrite (IH _ Hnd). rewrite obj_get_set.
  destruct (String.eqb j k) eqn:E.
  - apply String.eqb_eq in E. subst k.
    rewrite (obj_get_None_notin j b); [reflexivity |].
    intros Hin. apply Hk. apply list_elem_of_In. exact Hin.
  - reflexivity.
Qed.

(** X10.  The body [createOrder] posts, for order data with distinct
    keys: every field of the order data arrives unchanged, and [createdAt]
    is the time of the call unless the order data has a [createdAt] of its
    own, which then replaces it. *)
Theorem createOrder_body
    (net : Network) (orderData : list (string * json)) (w : World) :
  NoDup (map fst orderData) ->
  exists fields,
    request_of (OpCreateOrder orderData) w
    = mkRequest POST API_URLS.ORDERS (Some (JObj fields)) /\
    (forall k v, obj_get k orderData = Some v -> obj_get k fields = Some v) /\
    (forall k, k <> "createdAt" -> obj_get k fields = obj_get k orderData) /\
    (obj_get "createdAt" orderData = None ->
     obj_get "createdAt" fields = Some (JStr (now w))).
Proof.
  intros Hnd. eexists. split; [reflexivity |].
  split; [| split].
  - intros k v Hk. rewrite (obj_get_spread _ _ _ Hnd), Hk. reflexivity.
  - intros k Hk. rewrite (obj_get_spread _ _ _ Hnd).
    destruct (obj_get k orderData); [reflexivity |].
    cbn [obj_get]. destruct (String.eqb k "createdAt") eqn:E; [| reflexivity].
    apply String.eqb_eq in E. contradiction.
  - intros Hnone. rewrite (obj_get_spread _ _ _ Hnd), Hnone. reflexivity.
Qed.

End ServiceProps.

(** ** The product card *)

Module CardProps.

Import TextFacts CardFacts.

Lemma append_assoc (a b c : string) : (a +:+ b) +:+ c = a +:+ (b +:+ c).
Proof.
  induction a as [| x a IH]; [reflexivity |].
  change (String x (a +:+ b) +:+ c = String x (a +:+ (b +:+ c))).
  change (String x ((a +:+ b) +:+ c) = String x (a +:+ (b +:+ c))).
  rewrite IH. reflexivity.
Qed.

Lemma prefix_self_app (m b : string) : String.prefix m (m +:+ b) = true.
Proof.
  induction m as [| x m IH]; [destruct b; reflexivity |].
  change (String.prefix (String x m) (String x (m +:+ b)) = true).
  simpl. destruct (ascii_dec x x); [exact IH | contradiction].
Qed.

Lemma includes_self_app (m b : string) : includes m (m +:+ b) = true.
Proof.
  destruct m as [| x m]; [destruct b; reflexivity |].
  change (includes (String x m) (String x (m +:+ b)) = true).
  cbn [includes].
  change (String x (m +:+ b)) with (String x m +:+ b).
  rewrite prefix_self_app. reflexivity.
Qed.

Lemma includes_app_r (m a b : string) :
  includes m b = true -> includes m (a +:+ b) = true.
Proof.
  intros H. induction a as [| x a IH]; [exact H |].
  change (includes m (String x (a +:+ b)) = true).
  cbn [includes]. rewrite IH. apply orb_true_r.
Qed.

Section Run.

Variable number_to_string : Q -> string.

Lemma card_markup_has_button
    (id category imageUrl title price description adminControls : string) :
  includes (add_to_cart_control id)
    (card_markup id category imageUrl title price description adminControls)
  = true.
Proof.
  unfold card_markup, add_to_cart_control. cbn [template].
  set (u := html "<button class='button secondary add-to-cart-btn' data-id='").
  set (v := html "'>").
  do 12 apply includes_app_r.
  match goal with
  | |- includes _ (?c6 +:+ (id +:+ (?c7 +:+ ?R))) = true =>
      assert (H6 : c6 = String.substring 0
                          (String.length c6 - String.length u) c6 +:+ u)
        by (vm_compute; reflexivity);
      assert (H7 : c7 = v +:+ String.substring (String.length v)
                                (String.length c7 - String.length v) c7)
        by (vm_compute; reflexivity);
      rewrite H6, H7
  end.
  rewrite !append_assoc. apply includes_app_r.
  match goal with
  | |- includes ?m (u +:+ (id +:+ (v +:+ ?T))) = true =>
      replace (u +:+ (id +:+ (v +:+ T))) with (m +:+ T)
        by (rewrite !append_assoc; reflexivity)
  end.
  apply includes_self_app.
Qed.

(** A record is printable exactly when it has a card, whatever the
    flag. *)
Lemma card_of_printable (flag : json) (product_response : json) :
  printable number_to_string product_response <->
  is_Some (card_of number_to_string flag product_response).
Proof.
  unfold printable, card_keys, card_of. split.
  - intros H.
    repeat match type of H with
           | Forall _ (_ :: _) =>
               let Hk := fresh "Hk" in
               let H' := fresh "H" in
               inversion H as [| ? ? Hk H']; subst; clear H;
               destruct Hk as [? ->]; rename H' into H
           end.
    eexists. reflexivity.
  - intros [markup H].
    repeat match type of H with
           | context [printed number_to_string ?v] =>
               destruct (printed number_to_string v) eqn:?;
               [| discriminate H]
           end.
    repeat constructor; eexists; eassumption.
Qed.

(** X11.  The card of a product the backend delivers, when each of the
    six values the template uses has a text: whatever the flag, the card
    holds the "Add to order" button with the text of the id of the
    record, and the one request [Card] sent is the GET of that product. *)
Theorem card_always_offers_add_to_order
    (net : Network) (productId : string) (isAdmin : option json) (w : World)
    (r : Response) (product_response : json) :
  net (JsonService.request_of (JsonService.OpGetProductById productId) w)
    = Responded r ->
  ok r = true ->
  body r = Some product_response ->
  product_response <> JNull ->
  printable number_to_string product_response ->
  exists markup id_text w',
    Card number_to_string net productId isAdmin w = (Ok markup, w') /\
    printed number_to_string (js_field "id" (Some product_response))
    = Some id_text /\
    includes (add_to_cart_control id_text) markup = true /\
    requests w'
    = (requests w
       ++ [mkRequest GET (API_URLS.PRODUCTS +:+ "/" +:+ productId) None])%list.
Proof.
  intros Hnet Hok Hbody Hnn Hprint.
  rewrite (Card_run number_to_string net productId isAdmin w r
             product_response Hnet Hok Hbody Hnn).
  set (flag := match isAdmin with Some v => v | None => JBool false end).
  unfold printable, card_keys in Hprint. unfold card_of.
  repeat match type of Hprint with
         | Forall _ (_ :: _) =>
             let Hk := fresh "Hk" in
             let H' := fresh "H" in
             inversion Hprint as [| ? ? Hk H']; subst; clear Hprint;
             destruct Hk as [? ->]; rename H' into Hprint
         end.
  eexists _, _, _. split; [reflexivity |]. split; [reflexivity |].
  split; [apply card_markup_has_button | reflexivity].
Qed.

(** X12.  [Card] yields markup only for a product it could fetch and
    print: a rejected request, a status that is not 2xx and a body that
    is not JSON make it throw the fixed error of the products; a [null]
    body makes it throw a type error, since it reads the fields of the
    product; a record one of whose six values has no text makes it throw
    a type error too; every other record gives its card.  [Card] never
    catches. *)
Theorem card_needs_its_product
    (net : Network) (productId : string) (isAdmin : option json) (w : World) :
  let result := fst (Card number_to_string net productId isAdmin w) in
  let flag := match isAdmin with Some v => v | None => JBool false end in
  match net (JsonService.request_of (JsonService.OpGetProductById productId) w)
  with
  | Rejected _ => result = Throw JsonService.products_api_error
  | Responded r =>
      if ok r
      then
        match body r with
        | None => result = Throw JsonService.products_api_error
        | Some JNull => exists message, result = Throw (TypeError message)
        | Some product_response =>
            match card_of number_to_string flag product_response with
            | Some markup => result = Ok markup
            | None => exists message, result = Throw (TypeError message)
            end
        end
      else result = Throw JsonService.products_api_error
  end.
Proof.
  intros result flag. subst result.
  destruct (net _) as [e | r] eqn:Hnet.
  { cbn [JsonService.request_of] in Hnet.
    unfold Card, JsonService.getProductById. run. rewrite Hnet. reflexivity. }
  destruct (ok r) eqn:Hok.
  2:{ cbn [JsonService.request_of] in Hnet.
      unfold Card, JsonService.getProductById. run. rewrite Hnet, Hok.
      reflexivity. }
  destruct (body r) as [product_response |] eqn:Hbody.
  2:{ cbn [JsonService.request_of] in Hnet.
      unfold Card, JsonService.getProductById. run.
      rewrite Hnet, Hok, Hbody. reflexivity. }
  assert (Hcard : product_response <> JNull ->
            match card_of number_to_string flag product_response with
            | Some markup =>
                fst (Card number_to_string net productId isAdmin w) = Ok markup
            | None =>
                exists message,
                  fst (Card number_to_string net productId isAdmin w)
                  = Throw (TypeError message)
            end).
  { intros Hnn.
    rewrite (Card_run number_to_string net productId isAdmin w r
               product_response Hnet Hok Hbody Hnn).
    fold flag. destruct (card_of _ _ _); [reflexivity |].
    eexists. reflexivity. }
  destruct product_response as [| b | n | t | l | f];
    try (apply Hcard; discriminate).
  cbn [JsonService.request_of] in Hnet.
  unfold Card, JsonService.getProductById, js_prop. run.
  rewrite Hnet, Hok, Hbody. eexists. reflexivity.
Qed.

End Run.

(** A record whose name has no text: the template throws, and there is
    no card. *)
Lemma odd_record_has_no_card :
  card_of Examples.number_text (JBool false) Examples.odd_record = None /\
  fst (Card Examples.number_text Examples.net_odd "p777" None Examples.world0)
  = Throw cannot_convert.
Proof. split; vm_compute; reflexivity. Qed.

End CardProps.

(** ** The cart: what the clicks do *)

Module CartProps.

Import Menu MenuFacts.

Lemma findIndex_lookup (id : string) (c : list CartItem) (i : nat) :
  findIndex id c = Some i ->
  exists item, c !! i = Some item /\ p_id (product item) = id.
Proof.
  revert i. induction c as [| x c IH]; intros i; [discriminate |].
  cbn [findIndex].
  destruct (String.eqb (p_id (product x)) id) eqn:E.
  - intros H. inversion H. exists x. split; [reflexivity |].
    apply String.eqb_eq. exact E.
  - destruct (findIndex id c) as [j |]; [| discriminate].
    intros H. inversion H. destruct (IH j eq_refl) as (item & Hi & Hid).
    exists item. split; assumption.
Qed.

Lemma findIndex_None (id : string) (c : list CartItem) :
  findIndex id c = None <-> ~ In id (line_ids c).
Proof.
  induction c as [| x c IH]; [simpl; tauto |].
  cbn [findIndex line_ids map In]. fold (line_ids c).
  destruct (String.eqb (p_id (product x)) id) eqn:E.
  - apply String.eqb_eq in E. split; [discriminate | tauto].
  - apply String.eqb_neq in E.
    destruct (findIndex id c) as [j |]; cbn [option_map].
    + split; [discriminate |]. intros H. exfalso. apply H. right.
      destruct IH as [_ IH2].
      destruct (in_dec string_dec id (line_ids c)) as [Hin | Hnin];
        [exact Hin |]. specialize (IH2 Hnin). discriminate.
    + split; [| reflexivity]. intros _ [H | H]; [contradiction |].
      destruct IH as [IH1 _]. exact (IH1 eq_refl H).
Qed.

Lemma line_ids_alter (d : Z) (i : nat) (c : list CartItem) :
  line_ids (alter (add_quantity d) i c) = line_ids c.
Proof.
  revert i. induction c as [| x c IH]; intros [| i]; try reflexivity.
  cbn [alter list_alter line_ids map]. fold (line_ids c).
  change (list_alter (add_quantity d) i c) with (alter (add_quantity d) i c).
  fold (line_ids (alter (add_quantity d) i c)). rewrite IH. reflexivity.
Qed.

Lemma line_ids_delete_In (x : string) (i : nat) (c : list CartItem) :
  In x (line_ids (delete i c)) -> In x (line_ids c).
Proof.
  revert i. induction c as [| y c IH]; intros [| i]; cbn; try tauto.
  intros [H | H]; [left; exact H | right; exact (IH i H)].
Qed.

Lemma line_ids_delete (i : nat) (c : list CartItem) :
  NoDup (line_ids c) -> NoDup (line_ids (delete i c)).
Proof.
  revert i. induction c as [| y c IH]; intros [| i] H; cbn; try exact H.
  - apply NoDup_cons in H. destruct H as [_ H]. exact H.
  - cbn in H. apply NoDup_cons in H. destruct H as [Hy H].
    apply NoDup_cons. split; [| apply IH; exact H].
    intros Hin. apply Hy. apply list_elem_of_In.
    apply list_elem_of_In in Hin. eapply line_ids_delete_In. exact Hin.
Qed.

Lemma findIndex_alter (d : Z) (id : string) (i : nat) (c : list CartItem) :
  findIndex id (alter (add_quantity d) i c) = findIndex id c.
Proof.
  revert i. induction c as [| x c IH]; intros [| i]; try reflexivity.
  cbn [alter list_alter findIndex].
  change (list_alter (add_quantity d) i c) with (alter (add_quantity d) i c).
  rewrite IH. reflexivity.
Qed.

Lemma synced_update (st : MenuState) (w : World) :
  NoDup (line_ids (cart st)) -> cart_synced (updateSidebarUI st w).
Proof.
  intros H. unfold cart_synced.
  destruct (updateSidebarUI_cart st w) as [Hc Hw].
  rewrite Hc, Hw, load_save. split; [left; reflexivity | exact H].
Qed.

Lemma unique_after_add (productId : string) (p : Product)
    (c : list CartItem) :
  p_id p = productId ->
  NoDup (line_ids c) ->
  NoDup (line_ids match findIndex productId c with
                  | Some i => alter (add_quantity 1) i c
                  | None => (c ++ [mkItem p 1])%list
                  end).
Proof.
  intros Hp Hc. destruct (findIndex productId c) as [i |] eqn:Hf.
  - rewrite line_ids_alter. exact Hc.
  - unfold line_ids. rewrite map_app. cbn [map product].
    apply NoDup_app. split; [exact Hc |]. split.
    + intros x Hx Hx'. apply list_elem_of_In in Hx, Hx'.
      destruct Hx' as [<- | []]. rewrite Hp in Hx.
      apply findIndex_None in Hf. contradiction.
    + apply NoDup_singleton.
Qed.

Lemma find_product_id (productId : string) (ps : list Product) (p : Product) :
  find (fun q => String.eqb (p_id q) productId) ps = Some p ->
  p_id p = productId.
Proof.
  intros H. apply find_some in H. destruct H as [_ H].
  apply String.eqb_eq. exact H.
Qed.

Lemma synced_addToCart (productId : string) (st : MenuState) (w : World) :
  cart_synced (st, w) -> cart_synced (addToCart productId st w).
Proof.
  intros [Hs Hu]. unfold addToCart.
  destruct (find _ (allProducts st)) as [p |] eqn:Hfind;
    [| split; assumption].
  apply synced_update. cbn [cart set_cart].
  apply unique_after_add; [eapply find_product_id; exact Hfind | exact Hu].
Qed.

Lemma synced_settle (originalText : string) (r : Result json)
    (st : MenuState) (w : World) :
  cart_synced (st, w) ->
  cart_synced (handleConfirmOrder_settle originalText r st w).
Proof.
  intros [Hs Hu]. unfold handleConfirmOrder_settle.
  destruct r as [order | error].
  - pose proof (synced_update (set_cart [] st) w (NoDup_nil_2)) as Hi.
    unfold cart_synced in *.
    destruct (updateSidebarUI (set_cart [] st) w) as [st' w'].
    exact Hi.
  - split; assumption.
Qed.

Lemma synced_handleConfirmOrder (net : Network) (st : MenuState) (w : World) :
  cart_synced (st, w) -> cart_synced (handleConfirmOrder net st w).
Proof.
  intros [Hs Hu]. simpl in Hs, Hu. unfold handleConfirmOrder.
  destruct (cart st) as [| it c] eqn:Hcart.
  - split; simpl; rewrite ?Hcart; assumption.
  - destruct (js_truthy _); cbn [negb].
    + pose proof (createOrder_storage net
                    (orderData (Auth.getCurrentUser w) (it :: c)) w) as Hst.
      destruct (JsonService.createOrder net _ w) as [r w'].
      apply synced_settle. split; simpl in *; rewrite ?Hcart.
      * rewrite (load_same_storage _ _ Hst). exact Hs.
      * exact Hu.
    + split; simpl; rewrite ?Hcart; assumption.
Qed.

Lemma synced_handleConfirmOrder_begin (st : MenuState) (w : World) :
  cart_synced (st, w) -> cart_synced (handleConfirmOrder_begin st w).
Proof.
  intros [Hs Hu]. simpl in Hs, Hu. unfold handleConfirmOrder_begin.
  destruct (cart st) as [| it c] eqn:Hcart.
  - split; simpl; rewrite ?Hcart; assumption.
  - destruct (js_truthy _); cbn [negb]; split; simpl; rewrite ?Hcart;
      assumption.
Qed.

Lemma synced_sidebar_click (net : Network) (target : Target)
    (st : MenuState) (w : World) :
  cart_synced (st, w) -> cart_synced (sidebar_click net target st w).
Proof.
  intros Hinv. pose proof Hinv as [Hs Hu]. simpl in Hs, Hu.
  unfold sidebar_click.
  assert (Hgeneral :
    cart_synced (if String.eqb (target_id target) "clearCartBtn"
                 then updateSidebarUI (set_cart [] st) w
                 else if String.eqb (target_id target) "confirmOrderBtn"
                      then handleConfirmOrder net st w
                      else (st, w))).
  { destruct (String.eqb (target_id target) "clearCartBtn").
    - apply synced_update. constructor.
    - destruct (String.eqb (target_id target) "confirmOrderBtn");
        [apply synced_handleConfirmOrder |]; exact Hinv. }
  destruct (data_id target) as [[| ch id] |]; try exact Hgeneral.
  destruct (findIndex _ (cart st)) as [i |]; [| exact Hinv].
  apply synced_update. cbn [cart set_cart].
  assert (Hdel : NoDup (line_ids (delete i (cart st))))
    by (apply line_ids_delete; exact Hu).
  destruct (has_class "increase" target).
  { rewrite line_ids_alter. exact Hu. }
  destruct (has_class "decrease" target).
  { destruct (cart st !! i) as [item |]; [| exact Hu].
    destruct (1 <? quantity item)%Z; [| exact Hdel].
    rewrite line_ids_alter. exact Hu. }
  destruct (has_class "remove" target); [exact Hdel | exact Hu].
Qed.

Lemma synced_open_view (loaded : option (list Product)) (w : World) :
  NoDup (line_ids (loadCartFromStorage w)) ->
  cart_synced (open_view loaded w).
Proof.
  intros Hu. unfold open_view. destruct loaded as [ps |].
  - apply synced_update. exact Hu.
  - split; cbn [fst snd cart init]; [left; reflexivity | exact Hu].
Qed.

Lemma synced_step (net : Network) (ev : Event) (s : MenuState * World) :
  cart_synced s -> cart_synced (step net ev s).
Proof.
  destruct s as [st w]. intros Hinv. destruct ev; cbn [step].
  - apply synced_addToCart. exact Hinv.
  - apply synced_sidebar_click. exact Hinv.
  - destruct (btnDisabled st); [exact Hinv |].
    apply synced_handleConfirmOrder_begin. exact Hinv.
  - destruct (btnDisabled st); [| exact Hinv].
    apply synced_settle. exact Hinv.
  - destruct Hinv as [Hs Hu]. split; [| exact Hu]. cbn [fst snd] in *.
    destruct r as [order | error]; cbn [stale_settle].
    + right. unfold loadCartFromStorage. cbn [localStorage set_localStorage].
      rewrite lookup_insert_eq. reflexivity.
    + exact Hs.
  - exact Hinv.
  - destruct Hinv as [Hs Hu]. simpl in Hs, Hu.
    apply synced_open_view. destruct Hs as [-> | ->]; [exact Hu | constructor].
Qed.

Lemma reachable_synced (s : MenuState * World) :
  reachable s -> cart_synced s.
Proof.
  intros Hr. induction Hr as [loaded w Hnone | net ev s Hs IH].
  - apply synced_open_view.
    unfold loadCartFromStorage. rewrite Hnone. constructor.
  - apply synced_step. exact IH.
Qed.



Lemma total_items_shift (c : list CartItem) (a : Z) :
  fold_left (fun sum item => (sum + quantity item)%Z) c a
  = (a + fold_left (fun sum item => (sum + quantity item)%Z) c 0)%Z.
Proof.
  revert a. induction c as [| x c IH]; intros a; cbn [fold_left]; [lia |].
  rewrite (IH (a + quantity x)%Z), (IH (0 + quantity x)%Z). lia.
Qed.

Lemma total_items_cons (x : CartItem) (c : list CartItem) :
  total_items (x :: c) = (quantity x + total_items c)%Z.
Proof.
  unfold total_items, calculateCartTotals. cbn [fst fold_left].
  rewrite total_items_shift. lia.
Qed.

Lemma total_items_alter (d : Z) (i : nat) (c : list CartItem) (item : CartItem) :
  c !! i = Some item ->
  total_items (alter (add_quantity d) i c) = (total_items c + d)%Z.
Proof.
  revert i. induction c as [| x c IH]; intros [| i] H; try discriminate.
  - cbn [alter list_alter]. rewrite !total_items_cons. simpl. lia.
  - cbn [alter list_alter].
    change (list_alter (add_quantity d) i c) with (alter (add_quantity d) i c).
    rewrite !total_items_cons. rewrite (IH i H). lia.
Qed.

Lemma total_items_snoc (c : list CartItem) (x : CartItem) :
  total_items (c ++ [x]) = (total_items c + quantity x)%Z.
Proof.
  induction c as [| y c IH].
  - rewrite app_nil_l, total_items_cons. unfold total_items. simpl. lia.
  - rewrite <- app_comm_cons, !total_items_cons, IH. lia.
Qed.

(** X14.  [addToCart] for a product of the catalogue raises the number of
    items by exactly one, shows it on the badge, leaves a line for the
    product in the cart and stores the cart; for an id that is not in the
    catalogue it does nothing at all. *)
Theorem addToCart_adds_one_item
    (productId : string) (st : MenuState) (w : World) :
  match find (fun p => String.eqb (p_id p) productId) (allProducts st) with
  | None => addToCart productId st w = (st, w)
  | Some _ =>
      let s' := addToCart productId st w in
      total_items (cart (fst s')) = (total_items (cart st) + 1)%Z /\
      cartCount (fst s') = total_items (cart (fst s')) /\
      In productId (line_ids (cart (fst s'))) /\
      loadCartFromStorage (snd s') = cart (fst s')
  end.
Proof.
  unfold addToCart.
  destruct (find _ (allProducts st)) as [p |] eqn:Hfind; [| reflexivity].
  pose proof (find_product_id _ _ _ Hfind) as Hp.
  cbv zeta.
  set (cart' := match findIndex productId (cart st) with
                | Some i => alter (add_quantity 1) i (cart st)
                | None => (cart st ++ [mkItem p 1])%list
                end).
  destruct (updateSidebarUI_cart (set_cart cart' st) w) as [Hc Hw].
  rewrite Hc, Hw, load_save. cbn [cart set_cart].
  repeat split.
  - subst cart'. destruct (findIndex productId (cart st)) as [i |] eqn:Hf.
    + destruct (findIndex_lookup _ _ _ Hf) as (item & Hi & _).
      apply (total_items_alter 1 i _ item Hi).
    + rewrite total_items_snoc. reflexivity.
  - subst cart'. destruct (findIndex productId (cart st)) as [i |] eqn:Hf.
    + rewrite line_ids_alter.
      destruct (in_dec string_dec productId (line_ids (cart st)))
        as [Hin | Hnin]; [exact Hin |].
      apply findIndex_None in Hnin. congruence.
    + unfold line_ids. rewrite map_app. apply in_or_app. right.
      left. exact Hp.
Qed.

Lemma line_click (net : Network) (id : string) (target : Target)
    (st : MenuState) (w : World) (i : nat) :
  data_id target = Some id ->
  id <> EmptyString ->
  findIndex id (cart st) = Some i ->
  sidebar_click net target st w
  = updateSidebarUI
      (set_cart
         (if has_class "increase" target
          then alter (add_quantity 1) i (cart st)
          else if has_class "decrease" target
          then match cart st !! i with
               | Some item =>
                   if (1 <? quantity item)%Z
                   then alter (add_quantity (-1)) i (cart st)
                   else delete i (cart st)
               | None => cart st
               end
          else if has_class "remove" target
          then delete i (cart st)
          else cart st) st) w.
Proof.
  intros Hd Hne Hf. unfold sidebar_click. rewrite Hd.
  destruct id as [| ch id]; [contradiction |].
  rewrite Hf. reflexivity.
Qed.

Lemma add_quantity_back (x : CartItem) :
  add_quantity (-1) (add_quantity 1 x) = x.
Proof. destruct x as [p q]. unfold add_quantity. simpl. f_equal. lia. Qed.

Lemma alter_back (c : list CartItem) (i : nat) :
  alter (add_quantity (-1)) i (alter (add_quantity 1) i c) = c.
Proof.
  revert i. induction c as [| x c IH]; intros [| i]; try reflexivity.
  - cbn. rewrite add_quantity_back. reflexivity.
  - cbn. f_equal. apply IH.
Qed.

Lemma delete_is_filter (id : string) (c : list CartItem) (i : nat) :
  NoDup (line_ids c) ->
  findIndex id c = Some i ->
  delete i c
  = List.filter (fun item => negb (String.eqb (p_id (product item)) id)) c.
Proof.
  revert i. induction c as [| x c IH]; intros i Hnd; [discriminate |].
  cbn [line_ids map] in Hnd. fold (line_ids c) in Hnd.
  apply NoDup_cons in Hnd. destruct Hnd as [Hx Hnd].
  cbn [findIndex List.filter].
  destruct (String.eqb (p_id (product x)) id) eqn:E; cbn [negb].
  - intros H. inversion H. cbn [delete list_delete].
    apply String.eqb_eq in E. subst id.
    clear -Hx. induction c as [| y c IH]; [reflexivity |].
    cbn [List.filter].
    destruct (String.eqb (p_id (product y)) (p_id (product x))) eqn:E.
    + apply String.eqb_eq in E. exfalso. apply Hx. rewrite <- E.
      apply list_elem_of_In. left. reflexivity.
    + cbn [negb]. f_equal. apply IH. intros Hin. apply Hx.
      apply list_elem_of_In. right. apply list_elem_of_In. exact Hin.
  - destruct (findIndex id c) as [j |]; [| discriminate].
    intros H. inversion H. cbn [delete list_delete]. f_equal.
    apply (IH j Hnd eq_refl).
Qed.

(** X15.  In a reachable state, a click on the plus button of a line
    followed by a click on its minus button gives back the cart as it was,
    in the view and in the storage.  The other order does not: on a line
    with quantity one the minus button removes the line, and the plus
    button, which is gone with it, brings nothing back. *)
Theorem plus_then_minus_restores_cart
    (net1 net2 : Network) (id : string) (st : MenuState) (w : World)
    (i : nat) (item : CartItem) :
  reachable (st, w) ->
  id <> EmptyString ->
  findIndex id (cart st) = Some i ->
  cart st !! i = Some item ->
  let plus := sidebar_click net1 (line_button id "increase") st w in
  let back := sidebar_click net2 (line_button id "decrease")
                (fst plus) (snd plus) in
  let minus := sidebar_click net1 (line_button id "decrease") st w in
  cart (fst plus) = alter (add_quantity 1) i (cart st) /\
  cart (fst back) = cart st /\
  loadCartFromStorage (snd back) = cart st /\
  (quantity item = 1%Z ->
   cart (fst minus) = delete i (cart st) /\
   findIndex id (cart (fst minus)) = None).
Proof.
  intros Hr Hne Hf Hi plus back minus.
  destruct (reachable_synced _ Hr) as [_ Hu].
  destruct (reachable_inv _ Hr) as [Hq _]. simpl in Hu, Hq.
  assert (Hplus : cart (fst plus) = alter (add_quantity 1) i (cart st)).
  { subst plus. rewrite (line_click net1 id (line_button id "increase") st w i eq_refl Hne Hf).
    destruct (updateSidebarUI_cart
                (set_cart (alter (add_quantity 1) i (cart st)) st) w)
      as [Hc _]. exact Hc. }
  assert (Hf1 : findIndex id (cart (fst plus)) = Some i)
    by (rewrite Hplus, findIndex_alter; exact Hf).
  assert (Hback : cart (fst back) = cart st).
  { subst back. rewrite (line_click net2 id (line_button id "decrease") _ _ i eq_refl Hne Hf1).
    cbn [has_class line_button classList existsb].
    match goal with
    | |- cart (fst (updateSidebarUI (set_cart ?c ?s) ?v)) = _ =>
        destruct (updateSidebarUI_cart (set_cart c s) v) as [Hc _];
        rewrite Hc; cbn [cart set_cart]
    end.
    rewrite Hplus, list_lookup_alter_eq, Hi. cbn [fmap option_fmap option_map].
    assert (Hone : (1 <=? quantity item)%Z = true).
    { apply Z.leb_le. exact (Forall_lookup_1 _ _ _ _ Hq Hi). }
    assert (Hlt : (1 <? quantity (add_quantity 1 item))%Z = true).
    { apply Z.ltb_lt. apply Z.leb_le in Hone. simpl. lia. }
    rewrite Hlt. apply alter_back. }
  split; [exact Hplus |]. split; [exact Hback |]. split.
  - subst back. rewrite (line_click net2 id (line_button id "decrease") _ _ i eq_refl Hne Hf1).
    match goal with
    | |- loadCartFromStorage (snd (updateSidebarUI ?s ?v)) = _ =>
        destruct (updateSidebarUI_cart s v) as [Hc Hw];
        rewrite Hw, load_save, <- Hc
    end.
    rewrite <- (line_click net2 id (line_button id "decrease") _ _ i eq_refl Hne Hf1). exact Hback.
  - intros Hone.
    assert (Hminus : cart (fst minus) = delete i (cart st)).
    { subst minus. rewrite (line_click net1 id (line_button id "decrease") st w i eq_refl Hne Hf).
      cbn [has_class line_button classList existsb].
      match goal with
      | |- cart (fst (updateSidebarUI (set_cart ?c ?s) ?v)) = _ =>
          destruct (updateSidebarUI_cart (set_cart c s) v) as [Hc _];
          rewrite Hc; cbn [cart set_cart]
      end.
      rewrite Hi, Hone. reflexivity. }
    split; [exact Hminus |].
    rewrite Hminus, (delete_is_filter id _ i Hu Hf).
    apply findIndex_None. unfold line_ids. intros Hin.
    apply in_map_iff in Hin. destruct Hin as (x & Hx & Hin).
    apply filter_In in Hin. destruct Hin as [_ Hin].
    rewrite Hx, String.eqb_refl in Hin. discriminate.
Qed.

(** X16.  In a reachable state, the Remove button of a line takes the
    lines of that product, and only those, out of the cart, whatever the
    quantity, and stores the result; "Clear all" leaves the empty cart in
    the view and in the storage. *)
Theorem remove_and_clear
    (net : Network) (id : string) (st : MenuState) (w : World) :
  reachable (st, w) ->
  id <> EmptyString ->
  In id (line_ids (cart st)) ->
  let removed := sidebar_click net (remove_button id) st w in
  let cleared := sidebar_click net clear_button st w in
  cart (fst removed)
  = List.filter (fun item => negb (String.eqb (p_id (product item)) id))
      (cart st) /\
  ~ In id (line_ids (cart (fst removed))) /\
  loadCartFromStorage (snd removed) = cart (fst removed) /\
  cart (fst cleared) = [] /\
  loadCartFromStorage (snd cleared) = [].
Proof.
  intros Hr Hne Hin removed cleared.
  destruct (reachable_synced _ Hr) as [_ Hu]. simpl in Hu.
  destruct (findIndex id (cart st)) as [i |] eqn:Hf.
  2:{ apply findIndex_None in Hf. contradiction. }
  assert (Hrem : cart (fst removed)
                 = List.filter
                     (fun item => negb (String.eqb (p_id (product item)) id))
                     (cart st)).
  { subst removed. rewrite (line_click net id (remove_button id) st w i eq_refl Hne Hf).
    cbn [has_class remove_button classList existsb].
    match goal with
    | |- cart (fst (updateSidebarUI (set_cart ?c ?s) ?v)) = _ =>
        destruct (updateSidebarUI_cart (set_cart c s) v) as [Hc _];
        rewrite Hc; cbn [cart set_cart]
    end.
    apply (delete_is_filter id _ i Hu Hf). }
  split; [exact Hrem |]. split; [| split; [| split]].
  - rewrite Hrem. unfold line_ids. intros Hin'.
    apply in_map_iff in Hin'. destruct Hin' as (x & Hx & Hin').
    apply filter_In in Hin'. destruct Hin' as [_ Hin'].
    rewrite Hx, String.eqb_refl in Hin'. discriminate.
  - subst removed. rewrite (line_click net id (remove_button id) st w i eq_refl Hne Hf).
    match goal with
    | |- loadCartFromStorage (snd (updateSidebarUI ?s ?v)) = _ =>
        destruct (updateSidebarUI_cart s v) as [Hc Hw];
        rewrite Hw, load_save, Hc
    end.
    reflexivity.
  - reflexivity.
  - subst cleared. unfold sidebar_click.
    cbn [clear_button data_id target_id]. rewrite String.eqb_refl.
    match goal with
    | |- loadCartFromStorage (snd (updateSidebarUI ?s ?v)) = _ =>
        destruct (updateSidebarUI_cart s v) as [_ Hw];
        rewrite Hw, load_save
    end.
    reflexivity.
Qed.

Lemma createOrder_hash (net : Network) (data : list (string * json))
    (w : World) :
  location_hash (snd (JsonService.createOrder net data w)) = location_hash w.
Proof.
  unfold JsonService.createOrder. run.
  destruct (net _) as [e | r]; [reflexivity |].
  destruct (ok r); simpl; [| reflexivity].
  destruct (body r); reflexivity.
Qed.

Lemma createOrder_throws_generic (net : Network)
    (data : list (string * json)) (w w' : World) (e : JsError) :
  JsonService.createOrder net data w = (Throw e, w') ->
  e = JsonService.orders_api_error.
Proof.
  unfold JsonService.createOrder. run.
  destruct (net _) as [e0 | r]; [intros H; inversion H; reflexivity |].
  destruct (ok r); cbn [negb]; [| intros H; inversion H; reflexivity].
  destruct (body r); intros H; inversion H; reflexivity.
Qed.

(** X17.  The checkout of a cart that is not empty.  Without a session it
    sends nothing: it alerts, moves to [#login] and keeps the cart.  With
    a session it ends with the button enabled and labelled as before,
    whether the order was created or not; a created order empties the
    cart, the badge and the stored cart and reports success, a failed one
    reports "Error placing order." and logs the fixed error of the orders,
    which is all [createOrder] ever throws. *)
Theorem checkout_outcomes (net : Network) (st : MenuState) (w : World) :
  cart st <> [] ->
  let user := Auth.getCurrentUser w in
  let s' := handleConfirmOrder net st w in
  btnText (fst s') = btnText st /\
  if js_truthy (Some user)
  then
    btnDisabled (fst s') = false /\
    location_hash (snd s') = location_hash w /\
    match fst (JsonService.createOrder net (orderData user (cart st)) w) with
    | Ok _ =>
        cart (fst s') = [] /\
        loadCartFromStorage (snd s') = [] /\
        cartCount (fst s') = 0%Z /\
        messageText (fst s') = "Order placed successfully!"
    | Throw _ =>
        messageText (fst s') = "Error placing order." /\
        last (console (snd s'))
        = Some ("Order error:", JsonService.orders_api_error)
    end
  else
    s' = (st, set_location_hash "#login"
                (add_alert "You must be logged in to order." w)).
Proof.
  intros Hne user s'. subst s' user. unfold handleConfirmOrder.
  destruct (cart st) as [| it c] eqn:Hcart; [contradiction |].
  destruct (js_truthy (Some (Auth.getCurrentUser w))); cbn [negb].
  2:{ split; reflexivity. }
  pose proof (createOrder_storage net
                (orderData (Auth.getCurrentUser w) (it :: c)) w) as Hst.
  pose proof (createOrder_hash net
                (orderData (Auth.getCurrentUser w) (it :: c)) w) as Hhash.
  destruct (JsonService.createOrder net _ w) as [[created | e] w1] eqn:Hrun.
  - cbn [fst snd] in *. unfold handleConfirmOrder_settle.
    pose proof (load_save (set_cart [] (set_button "Processing..." true st))
                  w1) as Hl.
    repeat split; try assumption.
  - pose proof (createOrder_throws_generic _ _ _ _ _ Hrun) as He. subst e.
    cbn [fst snd] in *. unfold handleConfirmOrder_settle.
    repeat split; try assumption.
    cbn [snd console add_console]. apply last_snoc.
Qed.

End CartProps.

(** ** The grid of the menu *)

Module CatalogueProps.
Import Menu Catalogue MenuFacts.

Section Grid.

Variable number_to_string : Q -> string.
Variable toLowerCase : string -> string.

(** [Card] by the answer to its request. *)
Lemma Card_cases (net : Network) (id : string) (flag : option json)
    (w : World) :
  exists (result : Result string) (log : list (string * JsError)),
    (forall w0,
        Card number_to_string net id flag w0
        = (result,
           mkWorld (localStorage w0) (location_hash w0) (app w0)
             (requests w0 ++ [product_request id])%list
             (console w0 ++ log)%list (alerts w0) (now w0))).
Proof.
  destruct (net (product_request id)) as [e | r] eqn:Hnet.
  { eexists _, [_]. intros w0.
    unfold Card, JsonService.getProductById. run.
    unfold product_request in Hnet. rewrite Hnet. reflexivity. }
  destruct (ok r) eqn:Hok.
  2:{ eexists _, [_]. intros w0.
      unfold Card, JsonService.getProductById. run.
      unfold product_request in Hnet. rewrite Hnet, Hok. reflexivity. }
  destruct (body r) as [v |] eqn:Hbody.
  2:{ eexists _, [_]. intros w0.
      unfold Card, JsonService.getProductById. run.
      unfold product_request in Hnet. rewrite Hnet, Hok, Hbody.
      reflexivity. }
  assert (Hnull : v = JNull \/ v <> JNull)
    by (destruct v; first [left; reflexivity | right; discriminate]).
  destruct Hnull as [-> | Hnn].
  - eexists _, []. intros w0.
    unfold Card, JsonService.getProductById, js_prop. run.
    unfold product_request in Hnet. rewrite Hnet, Hok, Hbody.
    cbn [negb]. unfold add_request. cbn. rewrite app_nil_r. reflexivity.
  - eexists _, []. intros w0.
    rewrite (CardFacts.Card_run number_to_string net id flag w0 r v
               Hnet Hok Hbody Hnn).
    unfold add_request. cbn. rewrite app_nil_r. reflexivity.
Qed.

Lemma Card_world (net : Network) (id : string) (flag : option json)
    (w : World) :
  let w' := snd (Card number_to_string net id flag w) in
  requests w' = (requests w ++ [product_request id])%list /\
  localStorage w' = localStorage w /\
  alerts w' = alerts w.
Proof.
  destruct (Card_cases net id flag w) as (result & log & H).
  rewrite (H w). repeat split.
Qed.

Lemma Card_result (net : Network) (id : string) (flag : option json)
    (w w' : World) :
  fst (Card number_to_string net id flag w)
  = fst (Card number_to_string net id flag w').
Proof.
  destruct (Card_cases net id flag w) as (result & log & H).
  rewrite (H w), (H w'). reflexivity.
Qed.

Lemma Card_served (net : Network) (id : string) (flag : json)
    (markup : string) (w : World) :
  shown_as number_to_string net flag id markup ->
  Card number_to_string net id (Some flag) w
  = (Ok markup, add_request (product_request id) w).
Proof.
  intros (product_response & (r & Hnet & Hok & Hbody & Hnn) & Hcard).
  rewrite (CardFacts.Card_run number_to_string net id (Some flag) w r
             product_response Hnet Hok Hbody Hnn).
  rewrite Hcard. reflexivity.
Qed.

Lemma Card_unserved (net : Network) (id : string) (flag : option json)
    (w : World) :
  unserved net id \/ unprintable number_to_string net id ->
  exists e, fst (Card number_to_string net id flag w) = Throw e.
Proof.
  intros [H | (product_response & (r & Hnet & Hok & Hbody & Hnn) & Hcard)].
  - revert H.
    unfold unserved, product_request, Card, JsonService.getProductById,
      js_prop.
    run.
    destruct (net _) as [e | r]; [intros _; eexists; reflexivity |].
    intros [H | [H | H]]; rewrite H.
    + eexists. reflexivity.
    + destruct (ok r); eexists; reflexivity.
    + destruct (ok r); eexists; reflexivity.
  - rewrite (CardFacts.Card_run number_to_string net id flag w r
               product_response Hnet Hok Hbody Hnn).
    destruct (card_of number_to_string
                match flag with Some v => v | None => JBool false end
                product_response) as [markup |] eqn:Hflag.
    + assert (Hsome : is_Some (card_of number_to_string (JBool false)
                                 product_response)).
      { apply CardProps.card_of_printable.
        apply (CardProps.card_of_printable number_to_string
                 match flag with Some v => v | None => JBool false end).
        rewrite Hflag. eexists. reflexivity. }
      rewrite Hcard in Hsome. destruct Hsome as [x Hx]. discriminate.
    + eexists. reflexivity.
Qed.

Lemma cards_spec (net : Network) (flag : json) (ps : list Product)
    (w : World) :
  let r := cards number_to_string net flag ps w in
  fst r = map (fun p => fst (Card number_to_string net (p_id p) (Some flag) w))
              ps /\
  requests (snd r)
  = (requests w ++ map (fun p => product_request (p_id p)) ps)%list /\
  localStorage (snd r) = localStorage w /\
  alerts (snd r) = alerts w.
Proof.
  revert w. induction ps as [| p ps IH]; intros w.
  - cbn. rewrite app_nil_r. repeat split.
  - cbn [cards map].
    pose proof (Card_world net (p_id p) (Some flag) w) as Hw.
    destruct (Card number_to_string net (p_id p) (Some flag) w)
      as [r1 w1] eqn:Hc.
    cbn [fst snd] in Hw. destruct Hw as (Hr & Hl & Ha).
    specialize (IH w1).
    destruct (cards number_to_string net flag ps w1) as [rs w2].
    cbn [fst snd] in *. destruct IH as (I1 & I2 & I3 & I4).
    split; [| split; [| split]].
    + f_equal. rewrite I1. apply map_ext. intros q. apply Card_result.
    + rewrite I2, Hr, <- app_assoc. reflexivity.
    + congruence.
    + congruence.
Qed.

Lemma cards_served (net : Network) (flag : json) (ps : list Product)
    (markups : list string) (w : World) :
  Forall2 (fun p markup => shown_as number_to_string net flag (p_id p) markup)
          ps markups ->
  let r := cards number_to_string net flag ps w in
  fst r = map Ok markups /\
  console (snd r) = console w.
Proof.
  intros H. revert w. induction H as [| p v ps markups Hs _ IH]; intros w.
  - split; reflexivity.
  - cbn [cards map]. rewrite (Card_served net (p_id p) flag v w Hs).
    specialize (IH (add_request (product_request (p_id p)) w)).
    destruct (cards number_to_string net flag ps _) as [rs w2].
    cbn [fst snd] in *. destruct IH as [I1 I2].
    split; [f_equal; exact I1 | exact I2].
Qed.

Lemma promise_all_ok (vs : list string) :
  promise_all (map Ok vs) = Ok vs.
Proof.
  induction vs as [| v vs IH]; [reflexivity |].
  cbn [map promise_all]. rewrite IH. reflexivity.
Qed.

Lemma promise_all_throw (rs : list (Result string)) (e : JsError) :
  In (Throw e) rs -> exists e', promise_all rs = Throw e'.
Proof.
  induction rs as [| r rs IH]; [intros [] |].
  intros [-> | Hin]; [eexists; reflexivity |].
  cbn [promise_all]. destruct r as [v | e0]; [| eexists; reflexivity].
  destruct (IH Hin) as [e' ->]. eexists. reflexivity.
Qed.

Lemma renderProducts_run (net : Network) (categoryFilter searchTerm : string)
    (page : MenuPage) (w : World) :
  let shown :=
    List.filter (matches toLowerCase categoryFilter searchTerm)
      (allProducts (menu page)) in
  let run := cards number_to_string net (isAdmin page) shown w in
  renderProducts number_to_string toLowerCase net categoryFilter searchTerm
    page w
  = match shown with
    | [] => (set_grid no_items_found page, w)
    | _ :: _ =>
        match promise_all (fst run) with
        | Ok cardsHtml => (set_grid (template cardsHtml) page, snd run)
        | Throw error =>
            (set_grid error_loading_menu page,
             add_console "Error displaying products" error (snd run))
        end
    end.
Proof.
  intros shown run. subst run. unfold renderProducts.
  cbn [menu set_grid isAdmin]. fold shown.
  destruct shown as [| p ps]; [reflexivity |].
  destruct (cards number_to_string net (isAdmin page) (p :: ps) w)
    as [rs w1].
  cbn [fst snd]. destruct (promise_all rs); reflexivity.
Qed.

Lemma renderProducts_world
    (net : Network) (categoryFilter searchTerm : string) (page : MenuPage)
    (w : World) :
  let shown :=
    List.filter (matches toLowerCase categoryFilter searchTerm)
      (allProducts (menu page)) in
  let r := renderProducts number_to_string toLowerCase net categoryFilter
             searchTerm page w in
  requests (snd r)
  = (requests w ++ map (fun p => product_request (p_id p)) shown)%list /\
  localStorage (snd r) = localStorage w /\
  alerts (snd r) = alerts w /\
  menu (fst r) = menu page.
Proof.
  intros shown r. subst r. rewrite renderProducts_run. fold shown.
  pose proof (cards_spec net (isAdmin page) shown w) as Hc.
  cbn zeta in Hc. destruct Hc as (_ & Hr & Hl & Ha).
  destruct shown as [| p ps] eqn:Hs.
  - cbn. rewrite app_nil_r. repeat split.
  - destruct (promise_all _); cbn [fst snd]; repeat split; assumption.
Qed.

(** X18.  [renderProducts] asks the backend once for every product that
    passes the filter, in the order of the catalogue, also when a card
    fails, and for no other; it changes neither the catalogue, the cart,
    the storage nor the modal, and alerts nothing. *)
Theorem renderProducts_requests
    (net : Network) (categoryFilter searchTerm : string) (page : MenuPage)
    (w : World) :
  let shown :=
    List.filter (matches toLowerCase categoryFilter searchTerm)
      (allProducts (menu page)) in
  let r := renderProducts number_to_string toLowerCase net categoryFilter
             searchTerm page w in
  requests (snd r)
  = (requests w ++ map (fun p => product_request (p_id p)) shown)%list /\
  localStorage (snd r) = localStorage w /\
  alerts (snd r) = alerts w /\
  menu (fst r) = menu page /\
  modalOpen (fst r) = modalOpen page /\
  editingProduct (fst r) = editingProduct page.
Proof.
  intros shown r. subst r. rewrite renderProducts_run. fold shown.
  pose proof (cards_spec net (isAdmin page) shown w) as Hc.
  cbn zeta in Hc. destruct Hc as (_ & Hr & Hl & Ha).
  destruct shown as [| p ps] eqn:Hs.
  - cbn. rewrite app_nil_r. repeat split.
  - destruct (promise_all _); cbn [fst snd]; repeat split; assumption.
Qed.

(** X19.  What the grid shows after [renderProducts]: "No items found."
    when no product passes the filter; the cards of the products that
    pass, in the order of the catalogue and each built from the record the
    backend gave, when every one of them is served with a record of which
    [Card] can make a card, and then nothing is logged; and "Error loading
    menu." alone, without any card, as soon as one of them is not served
    or is served with a record that has a value without a text. *)
Theorem renderProducts_grid
    (net : Network) (categoryFilter searchTerm : string) (page : MenuPage)
    (w : World) :
  let shown :=
    List.filter (matches toLowerCase categoryFilter searchTerm)
      (allProducts (menu page)) in
  let r := renderProducts number_to_string toLowerCase net categoryFilter
             searchTerm page w in
  (shown = [] -> productGrid (fst r) = no_items_found) /\
  (forall markups,
     shown <> [] ->
     Forall2 (fun p markup =>
                shown_as number_to_string net (isAdmin page) (p_id p) markup)
             shown markups ->
     productGrid (fst r) = template markups /\
     console (snd r) = console w) /\
  (forall p,
     In p shown ->
     unserved net (p_id p) \/ unprintable number_to_string net (p_id p) ->
     productGrid (fst r) = error_loading_menu).
Proof.
  intros shown r. subst r. rewrite renderProducts_run. fold shown.
  split; [| split].
  - intros ->. reflexivity.
  - intros markups Hne Hall.
    destruct (cards_served net (isAdmin page) shown markups w Hall)
      as [Hf Hc].
    destruct shown as [| p ps]; [contradiction |].
    rewrite Hf, promise_all_ok. cbn [fst snd productGrid set_grid].
    split; [reflexivity | exact Hc].
  - intros p Hin Hun.
    destruct (cards_spec net (isAdmin page) shown w) as (Hf & _).
    destruct (Card_unserved net (p_id p) (Some (isAdmin page)) w Hun)
      as [e He].
    assert (Hthrow : In (Throw e)
                       (fst (cards number_to_string net (isAdmin page)
                               shown w))).
    { rewrite Hf. apply in_map_iff. exists p. split; assumption. }
    destruct (promise_all_throw _ e Hthrow) as [e' He'].
    destruct shown as [| q qs]; [destruct Hin |].
    rewrite He'. reflexivity.
Qed.

Lemma addToCart_world (productId : string) (st : MenuState) (w : World) :
  let r := addToCart productId st w in
  requests (snd r) = requests w /\
  alerts (snd r) = alerts w /\
  allProducts (fst r) = allProducts st.
Proof.
  unfold addToCart.
  destruct (find _ (allProducts st)); [| repeat split].
  unfold updateSidebarUI. cbn. repeat split.
Qed.

(** X20.  A click in the grid by someone for whom the view was not opened
    as administrator sends no request, alerts nothing and leaves the
    catalogue, the grid and the modal as they are, whatever was clicked:
    a forged Edit or Delete button does nothing at all, and the only
    effect a click can have is the one of [addToCart]. *)
Theorem visitor_click_only_adds_to_cart
    (net : Network) (confirmDelete : bool) (target : GridTarget)
    (page : MenuPage) (w : World) :
  js_truthy (Some (isAdmin page)) = false ->
  let r := grid_click number_to_string toLowerCase net confirmDelete target
             page w in
  requests (snd r) = requests w /\
  alerts (snd r) = alerts w /\
  allProducts (menu (fst r)) = allProducts (menu page) /\
  productGrid (fst r) = productGrid page /\
  modalOpen (fst r) = modalOpen page /\
  editingProduct (fst r) = editingProduct page /\
  match add_to_cart_btn target with
  | Some (Some id) =>
      r = (set_menu (fst (addToCart id (menu page) w)) page,
           snd (addToCart id (menu page) w))
  | _ => r = (page, w)
  end.
Proof.
  intros Hflag r. subst r. unfold grid_click. rewrite Hflag. cbn [negb].
  destruct (add_to_cart_btn target) as [[id |] |]; try (repeat split; fail).
  destruct (addToCart_world id (menu page) w) as (Hr & Ha & Hp).
  destruct (addToCart id (menu page) w) as [st w']. cbn [fst snd] in *.
  repeat split; assumption.
Qed.

(** X21.  The Delete button of a card, clicked by an administrator.  The
    cart and the storage are never touched.  Declined at the prompt, the
    click does nothing.  Confirmed and answered with a 2xx status, the
    product leaves the catalogue of the view, nothing is alerted, and
    the grid is rendered again for the active filter: the requests are
    the DELETE and then one GET for each remaining product that passes
    the filter.  Confirmed and not answered so, the view stays as it is,
    the DELETE is the only request, and "Error deleting product" is
    alerted. *)
Theorem admin_delete_outcomes
    (net : Network) (confirmDelete : bool) (id : string) (page : MenuPage)
    (w : World) :
  js_truthy (Some (isAdmin page)) = true ->
  let r := grid_click number_to_string toLowerCase net confirmDelete
             (delete_click id) page w in
  let remaining :=
    List.filter (fun p => negb (String.eqb (p_id p) id))
      (allProducts (menu page)) in
  let deleted :=
    match net (delete_request id) with
    | Responded res => ok res
    | Rejected _ => false
    end in
  cart (menu (fst r)) = cart (menu page) /\
  localStorage (snd r) = localStorage w /\
  if negb confirmDelete then r = (page, w)
  else if deleted
  then
    allProducts (menu (fst r)) = remaining /\
    ~ In id (map p_id (allProducts (menu (fst r)))) /\
    alerts (snd r) = alerts w /\
    requests (snd r)
    = (requests w ++ delete_request id
         :: map (fun p => product_request (p_id p))
              (List.filter
                 (matches toLowerCase (activeCategory page) (searchValue page))
                 remaining))%list
  else
    fst r = page /\
    alerts (snd r) = (alerts w ++ ["Error deleting product"])%list /\
    requests (snd r) = (requests w ++ [delete_request id])%list.
Proof.
  intros Hflag r remaining deleted. subst r deleted.
  unfold grid_click, delete_click.
  cbn [add_to_cart_btn edit_product_btn delete_product_btn dataset_text].
  rewrite Hflag. cbn [negb].
  destruct confirmDelete; cbn [negb]; [| repeat split].
  unfold JsonService.deleteProduct, delete_request. run.
  destruct (net _) as [e | res]; [repeat split |].
  destruct (ok res); cbn [negb]; [| repeat split].
  fold remaining.
  pose proof (renderProducts_world net (activeCategory page)
                (searchValue page)
                (set_menu (set_allProducts remaining (menu page)) page)
                (add_request
                   (mkRequest DELETE ("http://localhost:3000/products/" +:+ id)
                      None) w)) as H.
  cbn zeta in H. destruct H as (Hr & Hl & Ha & Hm).
  rewrite Hm, Hr, Hl, Ha. cbn [menu set_menu cart allProducts set_allProducts
    requests localStorage alerts add_request].
  repeat split.
  - subst remaining. intros Hin. apply in_map_iff in Hin.
    destruct Hin as (p & Hp & Hin). apply filter_In in Hin.
    destruct Hin as [_ Hin]. rewrite Hp, String.eqb_refl in Hin.
    discriminate.
  - rewrite <- app_assoc. reflexivity.
Qed.

End Grid.

End CatalogueProps.

(** ** Routing with the guarded views *)

Module RouterProps.
Import Router RouterFacts.

Section Routes.

Variables menuView LoginView RegisterView orderView AdminDashboardView
  : View.

Lemma routes_orders :
  routes menuView LoginView RegisterView orderView AdminDashboardView
    !! "#orders" = Some orderView.
Proof. reflexivity. Qed.

Lemma routes_dashboard :
  routes menuView LoginView RegisterView orderView AdminDashboardView
    !! "#dashboard" = Some AdminDashboardView.
Proof. reflexivity. Qed.

Lemma routes_hit (w : World) (h : string) (viewFn : View) :
  location_hash w = h ->
  h <> EmptyString ->
  routes menuView LoginView RegisterView orderView AdminDashboardView !! h
  = Some viewFn ->
  router menuView LoginView RegisterView orderView AdminDashboardView w
  = try_catch
      (viewContent <- viewFn;;
       match viewContent with
       | HtmlString s => render (Element "div" [] s)
       | DomNode n => render n
       end;;
       updateActiveNavLink h)
      (fun error =>
         console_error "Error loading view:" error;;
         renderError404) w.
Proof.
  intros Hh Hne Hv. unfold router. cbv [bind gets]. rewrite Hh.
  destruct h as [| c h]; [contradiction |]. cbn [String.eqb].
  unfold View in Hv |- *. rewrite Hv. reflexivity.
Qed.

End Routes.

Section Guards.

Variables menuView LoginView RegisterView : View.
Variable orders_body dashboard_body : json -> M Node.

Abbreviation routed :=
  (router menuView LoginView RegisterView (Views.orderView orders_body)
     (Views.AdminDashboardView dashboard_body)).

(** X22.  [#orders] without a session.  [orderView] does not send the
    visitor to the login page: it throws while it reads the name of the
    user, before any request, so the router logs the error and the page is
    the "not found" view under the navigation header, with the hash still
    [#orders]. *)
Theorem orders_without_session_is_not_found (w : World) :
  location_hash w = "#orders" ->
  Auth.getCurrentUser w = JNull ->
  fst (routed w) = Ok tt /\
  app (snd (routed w)) = [Navbar w; error404] /\
  shows_404 (snd (routed w)) /\
  location_hash (snd (routed w)) = "#orders" /\
  requests (snd (routed w)) = requests w /\
  exists message,
    console (snd (routed w))
    = (console w ++ [("Error loading view:", TypeError message)])%list.
Proof.
  intros Hh Hu.
  rewrite (routes_hit _ _ _ _ _ w "#orders" _ Hh ltac:(discriminate)
             (routes_orders _ _ _ _ _)).
  unfold Views.orderView, renderError404, render, shows_404. run.
  rewrite Hu. cbn [fst snd app set_app add_console location_hash].
  rewrite Hh. repeat split. eexists. reflexivity.
Qed.

(** X23.  [#dashboard] for a user who is not an administrator.  The body
    of the dashboard is not run and nothing is requested or logged; the
    hash becomes [#menu], and the page is the navigation header, without
    the Admin link and with no link marked, over the "no autorizado"
    element, not the "not found" view. *)
Theorem dashboard_is_closed_to_non_admins (w : World) :
  location_hash w = "#dashboard" ->
  AuthGuards.isAdmin w = false ->
  fst (routed w) = Ok tt /\
  app (snd (routed w))
  = [NavbarHeader [mkNavLink (Some "#menu") false;
                   mkNavLink (Some "#orders") false;
                   mkNavLink (Some "#profile") false;
                   mkNavLink None false];
     Views.access_denied] /\
  ~ shows_404 (snd (routed w)) /\
  location_hash (snd (routed w)) = "#menu" /\
  requests (snd (routed w)) = requests w /\
  console (snd (routed w)) = console w.
Proof.
  intros Hh Ha.
  rewrite (routes_hit _ _ _ _ _ w "#dashboard" _ Hh ltac:(discriminate)
             (routes_dashboard _ _ _ _ _)).
  unfold AuthGuards.isAdmin in Ha.
  unfold Views.AdminDashboardView, render, updateActiveNavLink, shows_404,
    Navbar. run.
  assert (Hguard :
    negb (js_truthy (Some (Auth.getCurrentUser w)))
    || negb (js_strict_eq_str
               (js_field "role" (Some (Auth.getCurrentUser w))) "admin")
    = true).
  { destruct (js_truthy _); [| reflexivity].
    destruct (js_strict_eq_str _ _); [discriminate | reflexivity]. }
  rewrite Hguard.
  cbn [fst snd app set_app set_location_hash location_hash localStorage
       requests console].
  change (Auth.getCurrentUser (set_location_hash "#menu" w))
    with (Auth.getCurrentUser w).
  rewrite Ha.
  repeat split. intros H. discriminate H.
Qed.

End Guards.

Section Page.

Variables menuView LoginView RegisterView orderView AdminDashboardView
  : View.

Abbreviation run_router :=
  (router menuView LoginView RegisterView orderView AdminDashboardView).

(** X24.  The page after a routed view has returned.  The navigation
    header is drawn unless the hash the view left is empty, [#login] or
    [#register], and it is the header of the user the view left; the
    element of the view comes last.  In every navigation header of the
    page a link is marked exactly when its target is the hash the router
    dispatched on, so the logout button never is. *)
Theorem page_after_routing
    (w w1 : World) (viewFn : View) (content : ViewContent) :
  routes menuView LoginView RegisterView orderView AdminDashboardView
    !! current_hash w = Some viewFn ->
  viewFn w = (Ok content, w1) ->
  let bare :=
    existsb (String.eqb (location_hash w1))
      [EmptyString; "#login"; "#register"] in
  app (snd (run_router w))
  = map (mark_active (current_hash w))
      ((if bare then [] else [Navbar w1]) ++ [content_node content])%list /\
  forall links l,
    In (NavbarHeader links) (app (snd (run_router w))) ->
    In l links ->
    (active l = true <-> href l = Some (current_hash w)).
Proof.
  intros Hv Hrun bare.
  assert (Hpage :
    app (snd (run_router w))
    = map (mark_active (current_hash w))
        ((if bare then [] else [Navbar w1]) ++ [content_node content])%list).
  { unfold router, current_hash in *. cbv [bind gets].
    unfold View in Hv |- *. rewrite Hv.
    unfold try_catch. rewrite Hrun.
    assert (Hsame :
      match content with
      | HtmlString s => render (Element "div" [] s)
      | DomNode n => render n
      end = render (content_node content))
      by (destruct content; reflexivity).
    rewrite Hsame. unfold render, updateActiveNavLink, modify.
    cbn [fst snd app set_app]. subst bare. cbn [existsb].
    destruct (String.eqb (location_hash w1) EmptyString) eqn:He;
      [reflexivity |].
    cbn [orb]. reflexivity. }
  split; [exact Hpage |].
  intros links l Hin Hl. rewrite Hpage in Hin.
  apply in_map_iff in Hin. destruct Hin as (n & Hn & _).
  destruct n as [links0 | tag classes markup]; [| discriminate].
  cbn [mark_active] in Hn. inversion Hn as [Hlinks]. subst links.
  apply in_map_iff in Hl. destruct Hl as (l0 & <- & _).
  cbn [active href]. destruct (href l0) as [h |].
  - rewrite String.eqb_eq. split; [intros ->; reflexivity |].
    intros H. inversion H. reflexivity.
  - split; discriminate.
Qed.

End Page.

End RouterProps.

(** ** Runs of the further properties *)

Module Runs.
Import Examples Menu Catalogue.


Lemma answers_of_a_2xx_response_witness :
  JsonService.getProductById net_burger "p001" world0
  = (Ok burger,
     add_request
       (JsonService.request_of (JsonService.OpGetProductById "p001") world0)
       world0).
Proof.
  exact (ServiceProps.answers_of_a_2xx_response net_burger
           (JsonService.OpGetProductById "p001") world0
           (mkResponse true 200 (Some burger)) eq_refl eq_refl).
Defined.

Lemma product_ids_of_a_response_witness :
  JsonService.getProductsIDs net_products world0
  = (Ok [Some (JStr "p001"); Some (JStr "p002")],
     add_request (JsonService.request_of JsonService.OpGetProductsIDs world0)
       world0).
Proof.
  exact (ServiceProps.product_ids_of_a_response net_products world0
           (mkResponse true 200 (Some (JArr [burger; fries_json])))
           (JArr [burger; fries_json]) eq_refl eq_refl eq_refl).
Defined.

Lemma createOrder_body_witness :
  NoDup (map fst ana_order) /\
  exists fields,
    JsonService.request_of (JsonService.OpCreateOrder ana_order) world_ana
    = mkRequest POST API_URLS.ORDERS (Some (JObj fields)) /\
    (forall k v, obj_get k ana_order = Some v -> obj_get k fields = Some v) /\
    (forall k, k <> "createdAt" -> obj_get k fields = obj_get k ana_order) /\
    (obj_get "createdAt" ana_order = None ->
     obj_get "createdAt" fields = Some (JStr (now world_ana))).
Proof.
  assert (H : NoDup (map fst ana_order))
    by (refine (bool_decide_unpack _ _); vm_compute; exact I).
  split; [exact H |].
  exact (ServiceProps.createOrder_body net_burger ana_order world_ana H).
Defined.

Lemma card_always_offers_add_to_order_witness :
  printable number_text burger /\
  exists markup w',
    Card number_text net_burger "p001" None world0 = (Ok markup, w') /\
    includes (add_to_cart_control "p001") markup = true.
Proof.
  assert (Hp : printable number_text burger)
    by (repeat constructor; eexists; vm_compute; reflexivity).
  split; [exact Hp |].
  destruct (CardProps.card_always_offers_add_to_order number_text net_burger
              "p001" None world0 (mkResponse true 200 (Some burger)) burger
              eq_refl eq_refl eq_refl ltac:(discriminate) Hp)
    as (markup & id_text & w' & Hcard & Hid & Hbutton & _).
  vm_compute in Hid. inversion Hid; subst id_text.
  exists markup, w'. split; [exact Hcard | exact Hbutton].
Defined.

Lemma one_burger_is_reachable : reachable (fst one_burger, snd one_burger).
Proof.
  change (reachable one_burger).
  unfold one_burger. apply reachable_step. apply reachable_open.
  reflexivity.
Defined.


(** Ana adds a burger and checks out; while the request is under way she
    leaves the menu and comes back, and then the order is created: the
    view on the page keeps the burger, the storage holds the empty cart. *)
Lemma stale_checkout_empties_the_stored_cart :
  reachable stale_checkout /\
  cart (fst stale_checkout) = [mkItem classic_burger 1] /\
  loadCartFromStorage (snd stale_checkout) = [].
Proof.
  split; [| split; vm_compute; reflexivity].
  unfold stale_checkout. do 4 apply reachable_step. apply reachable_open.
  reflexivity.
Qed.

Lemma plus_then_minus_restores_cart_witness :
  cart (fst (sidebar_click net_burger (line_button "p001" "decrease")
               (fst (sidebar_click net_burger (line_button "p001" "increase")
                       (fst one_burger) (snd one_burger)))
               (snd (sidebar_click net_burger (line_button "p001" "increase")
                       (fst one_burger) (snd one_burger)))))
  = cart (fst one_burger) /\
  findIndex "p001"
    (cart (fst (sidebar_click net_burger (line_button "p001" "decrease")
                  (fst one_burger) (snd one_burger))))
  = None.
Proof.
  destruct (CartProps.plus_then_minus_restores_cart net_burger net_burger
              "p001" (fst one_burger) (snd one_burger) 0%nat
              (mkItem classic_burger 1) one_burger_is_reachable
              ltac:(discriminate) eq_refl eq_refl)
    as (_ & H2 & _ & H4).
  split; [exact H2 | exact (proj2 (H4 eq_refl))].
Defined.

Lemma remove_and_clear_witness :
  In "p001" (line_ids (cart (fst one_burger))) /\
  ~ In "p001"
      (line_ids
         (cart (fst (sidebar_click net_burger (remove_button "p001")
                       (fst one_burger) (snd one_burger))))) /\
  loadCartFromStorage
    (snd (sidebar_click net_burger clear_button (fst one_burger)
            (snd one_burger))) = [].
Proof.
  assert (H : In "p001" (line_ids (cart (fst one_burger))))
    by (left; reflexivity).
  split; [exact H |].
  destruct (CartProps.remove_and_clear net_burger "p001" (fst one_burger)
              (snd one_burger) one_burger_is_reachable ltac:(discriminate) H)
    as (_ & H2 & _ & _ & H5).
  split; [exact H2 | exact H5].
Defined.

Lemma checkout_outcomes_witness :
  cart menu_two_lines <> [] /\
  btnText (fst (handleConfirmOrder net_burger menu_two_lines world_ana))
  = btnText menu_two_lines /\
  btnDisabled (fst (handleConfirmOrder net_burger menu_two_lines world_ana))
  = false /\
  cart (fst (handleConfirmOrder net_burger menu_two_lines world_ana)) = [] /\
  messageText (fst (handleConfirmOrder net_burger menu_two_lines world_ana))
  = "Order placed successfully!".
Proof.
  assert (H : cart menu_two_lines <> []) by discriminate.
  split; [exact H |].
  pose proof (CartProps.checkout_outcomes net_burger menu_two_lines world_ana H)
    as (H1 & H2 & _ & H4 & _ & _ & H7).
  repeat split; assumption.
Defined.

Lemma renderProducts_grid_witness :
  card_of number_text (JBool true) burger = Some burger_card /\
  card_of number_text (JBool true) fries_json = Some fries_card /\
  productGrid
    (fst (renderProducts number_text lower net_catalogue "All" EmptyString
            page_admin world_ana))
  = template [burger_card; fries_card].
Proof.
  split; [vm_compute; reflexivity |].
  split; [vm_compute; reflexivity |].
  destruct (CatalogueProps.renderProducts_grid number_text lower
              net_catalogue "All" EmptyString page_admin world_ana)
    as (_ & H & _).
  apply (H [burger_card; fries_card]).
  - discriminate.
  - repeat constructor.
    + exists burger. split; [| vm_compute; reflexivity].
      exists (mkResponse true 200 (Some burger)).
      repeat split. discriminate.
    + exists fries_json. split; [| vm_compute; reflexivity].
      exists (mkResponse true 200 (Some fries_json)).
      repeat split. discriminate.
Defined.

Lemma visitor_click_only_adds_to_cart_witness :
  js_truthy (Some (isAdmin page_visitor)) = false /\
  grid_click number_text lower net_catalogue true (delete_click "p001")
    page_visitor world0
  = (page_visitor, world0).
Proof.
  split; [reflexivity |].
  exact (proj2 (proj2 (proj2 (proj2 (proj2 (proj2
           (CatalogueProps.visitor_click_only_adds_to_cart number_text lower
              net_catalogue true (delete_click "p001") page_visitor world0
              eq_refl))))))).
Defined.

Lemma admin_delete_outcomes_witness :
  js_truthy (Some (isAdmin page_admin)) = true /\
  allProducts
    (menu (fst (grid_click number_text lower net_catalogue true
                  (delete_click "p001") page_admin world_ana)))
  = [fries] /\
  requests
    (snd (grid_click number_text lower net_catalogue true
            (delete_click "p001") page_admin world_ana))
  = [delete_request "p001"; product_request "p002"].
Proof.
  split; [reflexivity |].
  destruct (CatalogueProps.admin_delete_outcomes number_text lower
              net_catalogue true "p001" page_admin world_ana eq_refl)
    as (_ & _ & H3 & _ & _ & H6).
  split; [exact H3 | exact H6].
Defined.

Lemma orders_without_session_is_not_found_witness :
  Auth.getCurrentUser (anonymous_at "#orders") = JNull /\
  shows_404
    (snd (Router.router view_ok view_ok view_ok (Views.orderView body_ok)
            (Views.AdminDashboardView body_ok) (anonymous_at "#orders"))) /\
  location_hash
    (snd (Router.router view_ok view_ok view_ok (Views.orderView body_ok)
            (Views.AdminDashboardView body_ok) (anonymous_at "#orders")))
  = "#orders".
Proof.
  split; [reflexivity |].
  destruct (RouterProps.orders_without_session_is_not_found view_ok view_ok
              view_ok body_ok body_ok (anonymous_at "#orders") eq_refl eq_refl)
    as (_ & _ & H3 & H4 & _).
  split; [exact H3 | exact H4].
Defined.

Lemma dashboard_is_closed_to_non_admins_witness :
  AuthGuards.isAdmin (bea_at "#dashboard") = false /\
  last (app (snd (Router.router view_ok view_ok view_ok
                    (Views.orderView body_ok)
                    (Views.AdminDashboardView body_ok)
                    (bea_at "#dashboard"))))
  = Some Views.access_denied /\
  location_hash
    (snd (Router.router view_ok view_ok view_ok (Views.orderView body_ok)
            (Views.AdminDashboardView body_ok) (bea_at "#dashboard")))
  = "#menu".
Proof.
  split; [reflexivity |].
  destruct (RouterProps.dashboard_is_closed_to_non_admins view_ok view_ok
              view_ok body_ok body_ok (bea_at "#dashboard") eq_refl eq_refl)
    as (_ & H2 & _ & H4 & _).
  split; [rewrite H2; reflexivity | exact H4].
Defined.

Lemma page_after_routing_witness :
  app (snd (Router.router view_ok view_ok view_ok view_broken view_ok
              (at_hash "#menu")))
  = map (Router.mark_active "#menu")
      [Router.Navbar (at_hash "#menu");
       Element "main" ["layout"] "<h1>Our Menu</h1>"].
Proof.
  exact (proj1 (RouterProps.page_after_routing view_ok view_ok view_ok
                  view_broken view_ok (at_hash "#menu") (at_hash "#menu")
                  view_ok
                  (Router.DomNode (Element "main" ["layout"] "<h1>Our Menu</h1>"))
                  eq_refl eq_refl)).
Defined.

End Runs.
